(** * Biotuner carts: a shallow embedding of the Python sources

    The development follows the layout of [src/mongoose/carts]: one Rocq
    module per Python module, with the functions under their Python names.

    Conventions of the embedding.
    - Python [int] is [Z] (lengths and counts are [nat]).
    - A Python number that the code only moves around, compares and
      combines with [+ - * /] is a rational ([Q]); every finite float is
      one.  Rounding of float arithmetic is not modelled, except in the
      means of [generate_composite_signal] and [analyze_gesture_pattern],
      whose sum and quotient are the interpreter's ([FloatOps]).
    - A number that goes through [math.sqrt], [math.log10] or [math.pow]
      is a real number ([R]) and those functions are the real ones.
    - [str] is [string]; characters are bytes, so the model is exact on
      ASCII text.
    - A dict with a fixed set of keys is a record; a key that a reader
      fetches with [.get] is an [option] field.  A dict used as a map
      (the [carts] map of the runner) is a [gmap].
    - What the interpreter supplies from outside (clock, [hash()],
      [random.randint]) is the [Runtime] record, passed explicitly; the
      clock readings made during one call are taken to be equal.
    - [print] calls are not modelled. *)

From Stdlib Require Import ZArith QArith Qabs Qminmax Qround Qreals Reals.
From Stdlib Require Import Lqa Lra Lia.
From Stdlib Require Import String Ascii List.
From Stdlib Require DecimalString HexadecimalString.
From stdpp Require Import gmap strings.
Import ListNotations.

(** ** Python builtins used by the carts *)

Module Py.

(** What one call observes of the interpreter. *)
Record Runtime := {
  utcnow_isoformat : string;      (* datetime.utcnow().isoformat() *)
  randint_u64 : Z;                (* random.randint(0, 2**64-1) *)
  hash : string -> Z              (* hash(s), salted per process *)
}.

(** [x or default] and [if x] on strings: the empty string is falsy. *)
Definition truthy (s : string) : bool :=
  match s with EmptyString => false | String _ _ => true end.

(** [min(a, b)] and [max(a, b)] return the first argument unless the second
    is strictly smaller (resp. larger). *)
Definition min_R (a b : R) : R := if Rlt_dec b a then b else a.
Definition max_R (a b : R) : R := if Rlt_dec a b then b else a.
Definition min_Q (a b : Q) : Q := if Qlt_le_dec b a then b else a.
Definition min_Z (a b : Z) : Z := if (b <? a)%Z then b else a.

(** [sum(xs)]: starts from 0 and adds from the left. *)
Definition sum_R (xs : list R) : R := fold_left Rplus xs 0%R.
Definition sum_nat (xs : list nat) : nat := fold_left Nat.add xs 0%nat.

(** [sep.join(xs)] *)
Definition join (sep : string) (xs : list string) : string :=
  String.concat sep xs.

(** [range(a, b)] *)
Definition range (a b : Z) : list Z := seqZ a (b - a).

(** [int(x)] on a number: truncation towards zero. *)
Definition int_of_Q (q : Q) : Z := Z.quot (Qnum q) (Z.pos (Qden q)).

(** *** [int(s, 16)]

    Surrounding whitespace (tab, newline, vertical tab, form feed,
    carriage return, space) is dropped, then an optional sign, an optional
    [0x]/[0X] prefix (which may be followed by one underscore), then hex
    digits separated by single underscores.  [None] is [ValueError]. *)

Definition is_space (c : ascii) : bool :=
  let n := nat_of_ascii c in
  ((9 <=? n) && (n <=? 13)) || (n =? 32).

Definition hex_digit (c : ascii) : option Z :=
  let n := Z.of_nat (nat_of_ascii c) in
  if ((48 <=? n) && (n <=? 57))%Z then Some (n - 48)%Z
  else if ((97 <=? n) && (n <=? 102))%Z then Some (n - 87)%Z
  else if ((65 <=? n) && (n <=? 70))%Z then Some (n - 55)%Z
  else None.

Definition is_underscore (c : ascii) : bool := Ascii.eqb c "_"%char.

Fixpoint lstrip (l : list ascii) : list ascii :=
  match l with
  | c :: t => if is_space c then lstrip t else l
  | [] => []
  end.

Definition strip (l : list ascii) : list ascii :=
  rev (lstrip (rev (lstrip l))).

(** The digit scan: [prev_us] records that the previous character was an
    underscore (two in a row, or one at the end, is an error). *)
Fixpoint scan_hex (prev_us : bool) (acc : Z) (l : list ascii) : option Z :=
  match l with
  | [] => if prev_us then None else Some acc
  | c :: t =>
      if is_underscore c then
        if prev_us then None else scan_hex true acc t
      else
        match hex_digit c with
        | Some d => scan_hex false (16 * acc + d)%Z t
        | None => None
        end
  end.

Definition skip_prefix (l : list ascii) : list ascii :=
  match l with
  | z :: x :: t =>
      if Ascii.eqb z "0"%char
         && (Ascii.eqb x "x"%char || Ascii.eqb x "X"%char)
      then
        match t with
        | u :: t' => if is_underscore u then t' else t
        | [] => t
        end
      else l
  | _ => l
  end.

Definition parse_unsigned (l : list ascii) : option Z :=
  match skip_prefix l with
  | [] => None
  | c :: t => if is_underscore c then None else scan_hex false 0%Z (c :: t)
  end.

Definition int16 (s : string) : option Z :=
  match strip (list_ascii_of_string s) with
  | c :: t =>
      if Ascii.eqb c "-"%char then option_map Z.opp (parse_unsigned t)
      else if Ascii.eqb c "+"%char then parse_unsigned t
      else parse_unsigned (c :: t)
  | [] => None
  end.

(** *** Number rendering *)

Definition str_nat (n : nat) : string :=
  DecimalString.NilZero.string_of_uint (Nat.to_uint n).

Definition str_N (n : N) : string :=
  DecimalString.NilZero.string_of_uint (N.to_uint n).

Fixpoint zeros (n : nat) : string :=
  match n with O => EmptyString | S k => String "0"%char (zeros k) end.

(** [format(n, '0Wx')] for [n >= 0]: lower-case hex, zero padded to [W]. *)
Definition format_0x (width : nat) (n : Z) : string :=
  let digits := HexadecimalString.NilZero.string_of_uint (N.to_hex_uint (Z.to_N n)) in
  (zeros (width - String.length digits) ++ digits)%string.

(** Round to the nearest integer, ties to even, on a rational and on a
    real number. *)
Definition round_half_even (q : Q) : Z :=
  let n := Qnum q in
  let d := Z.pos (Qden q) in
  let f := (n / d)%Z in
  let r := (2 * (n mod d))%Z in
  if (r <? d)%Z then f
  else if (d <? r)%Z then (f + 1)%Z
  else if Z.even f then f else (f + 1)%Z.

Definition round_half_even_R (x : R) : Z :=
  let f := Int_part x in
  let r := (x - IZR f)%R in
  if Rlt_dec r (1 / 2) then f
  else if Rlt_dec (1 / 2) r then (f + 1)%Z
  else if Z.even f then f else (f + 1)%Z.

(** [f"{x:.2f}"]: sign, integer part, point, two decimals. *)
Definition render_2f (negative : bool) (cents : N) : string :=
  let frac := (cents mod 100)%N in
  ((if negative then "-" else "")
   ++ str_N (cents / 100)%N ++ "."
   ++ (if (frac <? 10)%N then "0" else "") ++ str_N frac)%string.

Definition format_2f (x : Q) : string :=
  render_2f (if Qlt_le_dec x 0 then true else false)
            (Z.to_N (round_half_even (Qabs x * 100))).

Definition format_2f_R (x : R) : string :=
  render_2f (if Rlt_dec x 0 then true else false)
            (Z.to_N (round_half_even_R (Rabs x * 100))).

(** *** Strings and lists *)

(** [s.lower()], on ASCII letters. *)
Definition lower_char (c : ascii) : ascii :=
  let n := nat_of_ascii c in
  if ((65 <=? n) && (n <=? 90))%nat then ascii_of_nat (n + 32) else c.

Fixpoint lower (s : string) : string :=
  match s with
  | EmptyString => EmptyString
  | String c rest => String (lower_char c) (lower rest)
  end.

(** [s.startswith(p)] and [s.endswith(p)] *)
Definition startswith (s p : string) : bool := String.prefix p s.

Definition endswith (s p : string) : bool :=
  let n := String.length s in
  let k := String.length p in
  (k <=? n)%nat && String.eqb (substring (n - k) k s) p.

(** [needle in hay] *)
Fixpoint contains (needle hay : string) : bool :=
  String.prefix needle hay
  || match hay with
     | EmptyString => false
     | String _ rest => contains needle rest
     end.

(** [s[n:]] *)
Fixpoint slice_from (n : nat) (s : string) : string :=
  match n, s with
  | O, _ => s
  | S k, EmptyString => EmptyString
  | S k, String _ rest => slice_from k rest
  end.

(** [s.split(sep)] for a one-character separator: the pieces between the
    separators, the empty ones included. *)
Fixpoint split_on (sep : ascii) (s : string) : list string :=
  match s with
  | EmptyString => [EmptyString]
  | String c rest =>
      if Ascii.eqb c sep then EmptyString :: split_on sep rest
      else
        match split_on sep rest with
        | piece :: pieces => String c piece :: pieces
        | [] => [String c EmptyString]
        end
  end.

Definition newline : ascii := "010"%char.

(** [c.isspace()], on ASCII. *)
Definition isspace (c : ascii) : bool :=
  let n := nat_of_ascii c in
  ((9 <=? n) && (n <=? 13)) || ((28 <=? n) && (n <=? 32)).

(** [s.split()]: the maximal runs of non-whitespace characters.  [word]
    is the run being read, in reverse. *)
Fixpoint split_words (word : list ascii) (s : string) : list string :=
  let flush rest :=
    match word with
    | [] => rest
    | _ :: _ => string_of_list_ascii (rev word) :: rest
    end in
  match s with
  | EmptyString => flush []
  | String c rest =>
      if isspace c then flush (split_words [] rest)
      else split_words (c :: word) rest
  end.

Definition split (s : string) : list string := split_words [] s.

(** [l[lo:hi]] for [0 <= lo]. *)
Definition slice {A} (lo hi : nat) (l : list A) : list A :=
  take (hi - lo) (drop lo l).

(** [min(xs)] and [max(xs)] on a non-empty list [x :: rest]: the first
    smallest (largest) element. *)
Definition min_list_R (x : R) (rest : list R) : R :=
  fold_left (fun best y => if Rlt_dec y best then y else best) rest x.

Definition max_list_R (x : R) (rest : list R) : R :=
  fold_left (fun best y => if Rlt_dec best y then y else best) rest x.

(** [s.isascii()] *)
Definition isascii (s : string) : bool :=
  forallb (fun c => (nat_of_ascii c <? 128)%nat) (list_ascii_of_string s).

(** *** Float arithmetic

    [sum(xs)] and [x / y] on floats, as the interpreter computes them:
    the exact sum and quotient up to rounding, of which nothing is
    assumed here. *)
Record FloatOps := {
  float_sum : list R -> R;
  float_div : R -> R -> R
}.

(** [sum(xs) / len(xs)] *)
Definition mean (fl : FloatOps) (xs : list R) : R :=
  float_div fl (float_sum fl xs) (INR (length xs)).

(** *** Calls that may raise

    What a call does: return a value, or raise the named exception. *)
Inductive Outcome (A : Type) :=
| Returns (a : A)
| Raises (exception : string).

Arguments Returns {A} a.
Arguments Raises {A} exception.

End Py.

(** ** cart_signal_generator.py *)

Module cart_signal_generator.

Record Harmonic := {
  frequency : R;
  amplitude : Q;
  phase : Z
}.

Record QuantumParams := {
  coherence : Q;
  entanglement_factor : Q;
  resonance_mode : Z
}.

Record Signal := {
  timestamp : string;
  token_hash : string;
  token_value : Q;
  base_frequency : R;
  harmonics : list Harmonic;
  quantum_tuning : QuantumParams;
  waveform : string;
  duration : Q
}.

(** [math.log10] and [math.pow] on the reals. *)
Definition log10 (x : R) : R := (ln x / ln 10)%R.
Definition pow (x y : R) : R := Rpower x y.

Definition generate_frequency_from_value (value : R) : R :=
  if Rle_dec value 0 then 40%R
  else
    let log_value := log10 (Py.max_R value 1) in
    let frequency := (40 * pow 10 (log_value / 10))%R in
    Py.min_R (Py.max_R frequency 40) 40000.

(** The local [hash_int] of [generate_quantum_tuned_signal]: the [try]
    block with its [except ValueError] handler. *)
Definition hash_int (rt : Py.Runtime) (token_hash : string) : Z :=
  if Py.truthy token_hash then
    match Py.int16 (substring 0 16 token_hash) with
    | Some n => n
    | None =>
        if Py.truthy token_hash then Z.abs (Py.hash rt token_hash)
        else Py.randint_u64 rt
    end
  else Py.randint_u64 rt.

(** One pass of the [for i in range(1, 6)] loop body. *)
Definition harmonic (base_freq : R) (hash_int : Z) (i : Z) : Harmonic :=
  {| frequency := (base_freq * IZR i)%R;
     amplitude := (1 / inject_Z i)%Q;
     phase := Z.land (Z.shiftr hash_int (i * 8)) 255 |}.

Definition generate_quantum_tuned_signal
    (rt : Py.Runtime) (token_hash : string) (value : Q) : Signal :=
  let hash_int := hash_int rt token_hash in
  let base_freq := generate_frequency_from_value (Q2R value) in
  let harmonics :=
    fold_left (fun hs i => hs ++ [harmonic base_freq hash_int i])
              (Py.range 1 6) [] in
  let quantum_params :=
    {| coherence := (inject_Z (Z.land hash_int 65535) / 65535)%Q;
       entanglement_factor :=
         (inject_Z (Z.land (Z.shiftr hash_int 16) 65535) / 65535)%Q;
       resonance_mode := Z.land (Z.shiftr hash_int 32) 255 |} in
  {| timestamp := (Py.utcnow_isoformat rt ++ "Z")%string;
     token_hash := token_hash;
     token_value := value;
     base_frequency := base_freq;
     harmonics := harmonics;
     quantum_tuning := quantum_params;
     waveform := "sine";
     duration := 1 |}.

(** *** Sweeps, pattern signals and composites *)

Record SweepStep := {
  step : Z;
  step_value : Q;
  step_frequency : R
}.

Record Sweep := {
  sweep_timestamp : string;
  start_value : Q;
  end_value : Q;
  steps : Z;
  frequencies : list SweepStep
}.

(** The dict is filled in before [steps] is raised to 2, so its [steps]
    key keeps the caller's number. *)
Definition generate_biotuner_sweep
    (rt : Py.Runtime) (start_value end_value : Q) (steps : Z) : Sweep :=
  let steps_run := if (steps <=? 1)%Z then 2%Z else steps in
  let frequencies :=
    fold_left
      (fun fs i =>
         let value :=
           (start_value
            + (end_value - start_value) * inject_Z i
              / inject_Z (steps_run - 1))%Q in
         let freq := generate_frequency_from_value (Q2R value) in
         fs ++ [{| step := i; step_value := value; step_frequency := freq |}])
      (Py.range 0 steps_run) [] in
  {| sweep_timestamp := (Py.utcnow_isoformat rt ++ "Z")%string;
     start_value := start_value;
     end_value := end_value;
     steps := steps;
     frequencies := frequencies |}.

Record Modulation := {
  modulation_type : string;
  modulation_pattern : list nat;
  rate : Q
}.

Record Characteristics := {
  char_count : nat;
  word_count : nat;
  vowel_density : Q
}.

Record PatternSignal := {
  pattern_timestamp : string;
  pattern_source : string;
  pattern_base_frequency : R;
  modulation : Modulation;
  characteristics : Characteristics
}.

(** [c in 'aeiou'] for a character [c]. *)
Definition is_vowel (c : ascii) : bool :=
  Py.contains (String c EmptyString) "aeiou".

Definition generate_signal_from_memory_pattern
    (rt : Py.Runtime) (pattern_text : string) : PatternSignal :=
  let char_count := String.length pattern_text in
  let word_count := length (Py.split pattern_text) in
  let vowel_count :=
    Py.sum_nat
      (map (fun _ => 1%nat)
           (List.filter is_vowel
                        (list_ascii_of_string (Py.lower pattern_text)))) in
  let base_value :=
    (char_count * 10 + word_count * 100 + vowel_count * 50)%nat in
  let base_freq := generate_frequency_from_value (INR base_value) in
  let words := Py.split pattern_text in
  let word_lengths := map String.length (take 10 words) in
  {| pattern_timestamp := (Py.utcnow_isoformat rt ++ "Z")%string;
     pattern_source := "memory";
     pattern_base_frequency := base_freq;
     modulation :=
       {| modulation_type := "amplitude";
          modulation_pattern := word_lengths;
          rate := (inject_Z (Z.of_nat (length word_lengths)) / 10)%Q |};
     characteristics :=
       {| char_count := char_count;
          word_count := word_count;
          vowel_density :=
            (inject_Z (Z.of_nat vowel_count)
             / inject_Z (Z.of_nat (Nat.max char_count 1)))%Q |} |}.

(** A signal dict handed to [generate_composite_signal]: one of the two
    kinds built above, or any other dict, with or without a
    [base_frequency] key. *)
Inductive AnySignal :=
| QuantumSignal (s : Signal)
| MemorySignal (s : PatternSignal)
| OtherSignal (base_frequency : option R).

(** [s.get('base_frequency', 440)] *)
Definition get_base_frequency (s : AnySignal) : R :=
  match s with
  | QuantumSignal q => base_frequency q
  | MemorySignal m => pattern_base_frequency m
  | OtherSignal f => default 440%R f
  end.

Record Composite := {
  composite_timestamp : string;
  composite_type : string;
  component_count : nat;
  average_frequency : R;
  frequency_range : R * R;
  components : list AnySignal
}.

Inductive CompositeResult :=
| CompositeError (error : string)
| CompositeSignal (c : Composite).

Definition generate_composite_signal
    (rt : Py.Runtime) (fl : Py.FloatOps) (signals : list AnySignal)
  : CompositeResult :=
  match signals with
  | [] => CompositeError "No signals provided"
  | first :: others =>
      let f := get_base_frequency first in
      let fs := map get_base_frequency others in
      let frequencies := f :: fs in
      let avg_freq := Py.mean fl frequencies in
      CompositeSignal
        {| composite_timestamp := (Py.utcnow_isoformat rt ++ "Z")%string;
           composite_type := "composite";
           component_count := length signals;
           average_frequency := avg_freq;
           frequency_range := (Py.min_list_R f fs, Py.max_list_R f fs);
           components := signals |}
  end.

End cart_signal_generator.

(** ** cart_location_tracker.py *)

Module cart_location_tracker.

(** The keys that depend on the kind of event. *)
Inductive Details :=
| TapDetails (x y force : R)
| SlideDetails (start_x start_y end_x end_y distance duration velocity : R)
| LocationDetails (latitude longitude altitude : R)
| NoDetails.

(** An event dict.  [calculate_movement_token] reads [timestamp], [type]
    and [token_value] with [.get], so each of them may be missing. *)
Record Event := {
  timestamp : option string;
  type : option string;
  user : option string;
  details : Details;
  token_value : option R
}.

Record Pattern := {
  taps : nat;
  slides : nat;
  locations : nat
}.

Record Token := {
  tk_timestamp : string;
  tk_type : string;
  tk_hash : string;
  event_count : nat;
  pattern : Pattern;
  total_value : R;
  value_formatted : string;
  events : list Event
}.

(** What [calculate_movement_token] returns: the dict with the single key
    [error], or a token. *)
Inductive MovementResult :=
| Error (error : string)
| Movement (token : Token).

Definition calculate_tap_value (force : R) : R :=
  let base_value := 1%R in
  let multiplier := (1 + force * 99)%R in
  (base_value * multiplier)%R.

Definition calculate_slide_value (distance velocity : R) : R :=
  let base_value := 10%R in
  let distance_factor := Py.min_R (distance / 100) 10 in
  let velocity_factor := Py.min_R (velocity / 100) 10 in
  let multiplier := (1 + distance_factor + velocity_factor)%R in
  (base_value * multiplier)%R.

Definition track_tap_event
    (rt : Py.Runtime) (x y force : R) (user : string) : Event :=
  {| timestamp := Some (Py.utcnow_isoformat rt ++ "Z")%string;
     type := Some "tap"%string;
     user := Some user;
     details := TapDetails x y force;
     token_value := Some (calculate_tap_value force) |}.

Definition track_slide_event
    (rt : Py.Runtime) (start_x start_y end_x end_y duration : R)
    (user : string) : Event :=
  let distance :=
    sqrt ((end_x - start_x) ^ 2 + (end_y - start_y) ^ 2)%R in
  let velocity := (distance / Py.max_R duration (1 / 100))%R in
  {| timestamp := Some (Py.utcnow_isoformat rt ++ "Z")%string;
     type := Some "slide"%string;
     user := Some user;
     details := SlideDetails start_x start_y end_x end_y
                             distance duration velocity;
     token_value := Some (calculate_slide_value distance velocity) |}.

Definition track_location_change
    (rt : Py.Runtime) (lat lon altitude : R) (user : string) : Event :=
  {| timestamp := Some (Py.utcnow_isoformat rt ++ "Z")%string;
     type := Some "location"%string;
     user := Some user;
     details := LocationDetails lat lon altitude;
     token_value := Some 5%R |}.

(** [e.get('type') == kind] *)
Definition type_is (kind : string) (e : Event) : bool :=
  bool_decide (type e = Some kind).

(** [sum(1 for e in events if e.get('type') == kind)] *)
Definition count_kind (kind : string) (events : list Event) : nat :=
  Py.sum_nat (map (fun _ => 1%nat) (List.filter (type_is kind) events)).

Definition calculate_movement_token
    (rt : Py.Runtime) (events : list Event) : MovementResult :=
  match events with
  | [] => Error "No events provided"
  | _ :: _ =>
      let total_value :=
        Py.sum_R (map (fun e => default 0%R (token_value e)) events) in
      let tap_count := count_kind "tap" events in
      let slide_count := count_kind "slide" events in
      let location_count := count_kind "location" events in
      let event_string :=
        Py.join "" (map (fun e => default ""%string (timestamp e)) events) in
      let token_hash :=
        substring 0 64 (Py.format_0x 64 (Z.abs (Py.hash rt event_string))) in
      Movement
        {| tk_timestamp := (Py.utcnow_isoformat rt ++ "Z")%string;
           tk_type := "movement_token";
           tk_hash := token_hash;
           event_count := length events;
           pattern := {| taps := tap_count;
                         slides := slide_count;
                         locations := location_count |};
           total_value := total_value;
           value_formatted := ("$" ++ Py.format_2f_R total_value)%string;
           events := events |}
  end.

(** *** Gesture analysis *)

Record Temporal := {
  first_event : string;
  last_event : string;
  span : string
}.

Record Spatial := {
  center_x : R;
  center_y : R;
  spread : R
}.

Record Velocity := {
  velocity_avg : R;
  velocity_max : R;
  velocity_min : R
}.

(** The [analysis] dict; each key of its [patterns] dict may be absent. *)
Record Analysis := {
  analysis_timestamp : string;
  analysis_event_count : nat;
  temporal : option Temporal;
  spatial : option Spatial;
  velocity : option Velocity
}.

(** What [analyze_gesture_pattern] does: return the error dict, return an
    analysis, or raise [KeyError] on a subscript of a missing key. *)
Inductive AnalysisResult :=
| AnalysisError (error : string)
| Analysed (a : Analysis)
| KeyError (key : string).

(** [t['coordinates']['x']], [t['coordinates']['y']] and [s['velocity']];
    [inl key] is the [KeyError]. *)
Definition coordinate_x (e : Event) : string + R :=
  match details e with
  | TapDetails x _ _ => inr x
  | LocationDetails _ _ _ => inl "x"%string
  | _ => inl "coordinates"%string
  end.

Definition coordinate_y (e : Event) : string + R :=
  match details e with
  | TapDetails _ y _ => inr y
  | LocationDetails _ _ _ => inl "y"%string
  | _ => inl "coordinates"%string
  end.

Definition slide_velocity (e : Event) : string + R :=
  match details e with
  | SlideDetails _ _ _ _ _ _ v => inr v
  | _ => inl "velocity"%string
  end.

(** A list comprehension whose element expression may raise: the values,
    or the first error. *)
Fixpoint comprehension {A} (f : A -> string + R) (l : list A)
  : string + list R :=
  match l with
  | [] => inr []
  | a :: rest =>
      match f a with
      | inl key => inl key
      | inr x =>
          match comprehension f rest with
          | inl key => inl key
          | inr xs => inr (x :: xs)
          end
      end
  end.

Definition analyze_temporal (events : list Event) : option Temporal :=
  let timestamps := map (fun e => default ""%string (timestamp e)) events in
  if (1 <? length timestamps)%nat then
    Some {| first_event := List.hd ""%string timestamps;
            last_event := List.last timestamps ""%string;
            span := "calculated_from_timestamps" |}
  else None.

Definition analyze_spatial (fl : Py.FloatOps) (events : list Event)
  : string + option Spatial :=
  match List.filter (type_is "tap") events with
  | [] => inr None
  | t :: ts =>
      match comprehension coordinate_x (t :: ts) with
      | inl key => inl key
      | inr x_coords =>
          match comprehension coordinate_y (t :: ts) with
          | inl key => inl key
          | inr y_coords =>
              inr (Some
                {| center_x := Py.mean fl x_coords;
                   center_y := Py.mean fl y_coords;
                   spread :=
                     (Py.max_list_R (List.hd 0%R x_coords) (List.tl x_coords)
                      - Py.min_list_R (List.hd 0%R x_coords)
                                      (List.tl x_coords))%R |})
          end
      end
  end.

Definition analyze_velocity (fl : Py.FloatOps) (events : list Event)
  : string + option Velocity :=
  match List.filter (type_is "slide") events with
  | [] => inr None
  | s :: ss =>
      match comprehension slide_velocity (s :: ss) with
      | inl key => inl key
      | inr velocities =>
          inr (Some
            {| velocity_avg := Py.mean fl velocities;
               velocity_max :=
                 Py.max_list_R (List.hd 0%R velocities) (List.tl velocities);
               velocity_min :=
                 Py.min_list_R (List.hd 0%R velocities)
                               (List.tl velocities) |})
      end
  end.

Definition analyze_gesture_pattern
    (rt : Py.Runtime) (fl : Py.FloatOps) (events : list Event)
  : AnalysisResult :=
  match events with
  | [] => AnalysisError "No events to analyze"
  | _ :: _ =>
      let temporal := analyze_temporal events in
      match analyze_spatial fl events with
      | inl key => KeyError key
      | inr spatial =>
          match analyze_velocity fl events with
          | inl key => KeyError key
          | inr velocity =>
              Analysed
                {| analysis_timestamp :=
                     (Py.utcnow_isoformat rt ++ "Z")%string;
                   analysis_event_count := length events;
                   temporal := temporal;
                   spatial := spatial;
                   velocity := velocity |}
          end
      end
  end.

End cart_location_tracker.

(** ** cart_robotic_builder.py *)

Module cart_robotic_builder.

(** The result of [analyze_memory_patterns], as far as
    [generate_build_config] reads it: the [themes] dict, fetched with
    [.get('themes', {})]. *)
Record PatternAnalysis := {
  themes : option (gmap string Z)
}.

Record Config := {
  optimization_level : nat;
  memory_limit : Q;
  thread_count : Z
}.

Record Build := {
  timestamp : string;
  token_value : Q;
  build_tier : string;
  features : list string;
  config : Config
}.

(** The dict built by [generate_code_from_patterns]. *)
Record CodeGen := {
  cg_timestamp : string;
  language : string;
  code : string;
  description : string;
  functions : list string
}.

(** The dict built by [create_build_artifact]. *)
Record Artifact := {
  art_timestamp : string;
  art_token_hash : string;
  art_token_value : Q;
  art_patterns : PatternAnalysis;
  generated_code : CodeGen;
  build_config : Build;
  dockerfile : string;
  art_status : string
}.

(** The [if]/[elif] chain on [token_value]: tier and base features. *)
Definition tier_of (token_value : Q) : string * list string :=
  if Qlt_le_dec 1000000000000 token_value then
    ("quantum", ["quantum_processing"; "parallel_execution"; "advanced_ai"])
  else if Qlt_le_dec 1000000000 token_value then
    ("advanced", ["multi_threading"; "enhanced_memory"; "ai_assist"])
  else if Qlt_le_dec 1000000 token_value then
    ("professional", ["optimization"; "caching"; "logging"])
  else
    ("basic", ["standard_processing"]).

(** [key in themes] *)
Definition has_theme (key : string) (themes : gmap string Z) : bool :=
  bool_decide (is_Some (themes !! key)).

Definition generate_build_config
    (rt : Py.Runtime) (token_value : Q) (patterns : PatternAnalysis) : Build :=
  let '(build_tier, features) := tier_of token_value in
  let themes := default ∅ (themes patterns) in
  let features :=
    if has_theme "nature" themes
    then features ++ ["nature_pattern_recognition"%string] else features in
  let features :=
    if has_theme "people" themes
    then features ++ ["social_analysis"%string] else features in
  {| timestamp := (Py.utcnow_isoformat rt ++ "Z")%string;
     token_value := token_value;
     build_tier := build_tier;
     features := features;
     config :=
       {| optimization_level := length features;
          memory_limit := Py.min_Q (token_value / 1000) 1000000;
          thread_count :=
            Py.min_Z (Py.int_of_Q (token_value / 1000000)) 64 |} |}.

(** *** Theme detection *)

Record MemoryStats := {
  total_lines : nat;
  avg_line_length : Q
}.

(** The whole dict of [analyze_memory_patterns]: [patterns] is created
    empty and never filled; [stats] stays empty on empty content. *)
Record MemoryAnalysis := {
  analysis_timestamp : string;
  analysis_patterns : list string;
  analysis_themes : gmap string Z;
  analysis_stats : option MemoryStats
}.

(** The [themes] table, in dict order. *)
Definition theme_keywords : list (string * list string) :=
  [ ("nature", ["tree"; "forest"; "water"; "river"; "ocean"; "cat"; "animal"]);
    ("people", ["man"; "woman"; "person"; "child"; "human"]);
    ("action", ["walk"; "run"; "move"; "go"; "come"; "see"]);
    ("emotion", ["love"; "hate"; "fear"; "joy"; "sad"; "happy"]) ]%string.

(** [sum(1 for line in lines for kw in keywords if kw in line.lower())] *)
Definition keyword_hits (keywords lines : list string) : nat :=
  Py.sum_nat
    (map (fun _ => 1%nat)
         (flat_map
            (fun line =>
               List.filter (fun kw => Py.contains kw (Py.lower line))
                           keywords)
            lines)).

Definition analyze_memory_patterns
    (rt : Py.Runtime) (memory_content : string) : MemoryAnalysis :=
  let timestamp := (Py.utcnow_isoformat rt ++ "Z")%string in
  if negb (Py.truthy memory_content) then
    {| analysis_timestamp := timestamp;
       analysis_patterns := [];
       analysis_themes := ∅;
       analysis_stats := None |}
  else
    let lines := Py.split_on Py.newline memory_content in
    let themes :=
      fold_left
        (fun found '(theme, keywords) =>
           let count := keyword_hits keywords lines in
           if (0 <? count)%nat
           then <[theme := Z.of_nat count]> found else found)
        theme_keywords (∅ : gmap string Z) in
    {| analysis_timestamp := timestamp;
       analysis_patterns := [];
       analysis_themes := themes;
       analysis_stats :=
         Some {| total_lines := length lines;
                 avg_line_length :=
                   (inject_Z (Z.of_nat (Py.sum_nat (map String.length lines)))
                    / inject_Z (Z.of_nat (Nat.max (length lines) 1)))%Q |} |}.

(** The analysis as [generate_build_config] receives it. *)
Definition as_patterns (analysis : MemoryAnalysis) : PatternAnalysis :=
  {| themes := Some (analysis_themes analysis) |}.

End cart_robotic_builder.

(** ** cart_memory_search.py: the shape of its results *)

Module cart_memory_search.

(** Data read back by [json.load]. *)
#[local] Unset Elimination Schemes.
Inductive json :=
| JNull
| JBool (b : bool)
| JNumber (q : Q)
| JString (s : string)
| JArray (items : list json)
| JObject (members : list (string * json)).
#[local] Set Elimination Schemes.

Record Match := {
  block_index : nat;
  line_index : nat;
  content : option string;
  context : list string
}.

Record Stats := {
  total_blocks : nat;
  total_lines : nat;
  categories : gmap string nat;
  match_count : nat
}.

(** The dict of [search_brain_memory]; [stats] stays empty and [error] is
    set when [brain.py] is absent. *)
Record SearchResults := {
  timestamp : string;
  query : option string;
  matches : option (list Match);
  stats : option Stats;
  error : option string
}.

Record TokenResults := {
  tr_timestamp : string;
  tr_pattern : option string;
  tokens : list (string * json)
}.

Record LedgerResults := {
  lr_timestamp : string;
  date_filter : option string;
  entries : json;
  lr_error : option string
}.

(** The dict of [perform_full_search]. *)
Record FullSearchResults := {
  fs_timestamp : string;
  fs_query : string;
  brain_results : SearchResults;
  token_results : TokenResults;
  ledger_results : LedgerResults
}.

(** *** The files the searches read

    What is on disk when a search runs.  [brain.py], when it exists, is
    the text read from it.  Of a JSON file the model keeps what opening
    and loading it does. *)

(** [open] and [json.load] on an entry of the token directory: the loaded
    data; one of the exceptions that the token search catches
    ([FileNotFoundError], [json.JSONDecodeError], [PermissionError]); or
    any other exception (a [UnicodeDecodeError] on a file that is not
    UTF-8, an [IsADirectoryError] on a directory), which it does not
    catch. *)
Inductive Load :=
| Loaded (data : json)
| LoadSkipped
| LoadRaises (exception : string).

(** [os.listdir] on the token path: the entries, each with what loading
    it does, or the exception it raises (the path is no directory). *)
Inductive Listing :=
| Listed (files : list (string * Load))
| ListingRaises (exception : string).

(** [index.json] of the ledger: parsed; an exception that the ledger
    search catches ([FileNotFoundError], [json.JSONDecodeError]), with its
    text; or any other exception, which it does not catch. *)
Inductive IndexFile :=
| IndexParsed (data : json)
| IndexInvalid (message : string)
| IndexRaises (exception : string).

(** [None] is a path that does not exist; the ledger directory holds an
    [index.json] or none. *)
Record Disk := {
  brain_py : option string;
  token_dir : option Listing;
  ledger_dir : option (option IndexFile)
}.

Definition block_marker : string := "#====BLOCK====".

(** The state of the block-finding loop. *)
Record BlockScan := {
  blocks : list string;
  current_block : list string;
  in_block : bool
}.

Definition scan_line (st : BlockScan) (line : string) : BlockScan :=
  if Py.contains block_marker line then
    match current_block st with
    | [] =>
        {| blocks := blocks st; current_block := []; in_block := true |}
    | _ :: _ =>
        {| blocks := blocks st
                     ++ [Py.join (String Py.newline EmptyString)
                                 (current_block st)];
           current_block := [];
           in_block := true |}
    end
  else if in_block st && Py.startswith line "# " then
    {| blocks := blocks st;
       current_block := current_block st ++ [Py.slice_from 2 line];
       in_block := in_block st |}
  else st.

Definition find_blocks (lines : list string) : list string :=
  let st :=
    fold_left scan_line lines
              {| blocks := []; current_block := []; in_block := false |} in
  match current_block st with
  | [] => blocks st
  | _ :: _ =>
      blocks st
      ++ [Py.join (String Py.newline EmptyString) (current_block st)]
  end.

(** [enumerate(l)] *)
Definition enumerate {A} (l : list A) : list (nat * A) :=
  combine (seq 0 (length l)) l.

(** The matches of one block: the inner loop over its lines. *)
Definition block_matches (query : string) (i : nat) (block : string)
  : list Match :=
  if Py.contains (Py.lower query) (Py.lower block) then
    let lines_in_block := Py.split_on Py.newline block in
    flat_map
      (fun '(j, line) =>
         if Py.contains (Py.lower query) (Py.lower line) then
           [{| block_index := i;
               line_index := j;
               content := Some line;
               context :=
                 Py.slice (Nat.max 0 (j - 1))
                          (Nat.min (length lines_in_block) (j + 2))
                          lines_in_block |}]
         else [])
      (enumerate lines_in_block)
  else [].

Definition category_names : list string :=
  ["CATS"; "WATER"; "TREES"; "PEOPLE"]%string.

(** The category loop: each name with the number of lines that contain
    ["# " + name]. *)
Definition count_categories (lines : list string) : gmap string nat :=
  fold_left
    (fun categories line =>
       fold_left
         (fun categories cat =>
            if Py.contains ("# " ++ cat)%string line
            then <[cat := S (default 0%nat (categories !! cat))]> categories
            else categories)
         category_names categories)
    lines
    (list_to_map (map (fun cat => (cat, 0%nat)) category_names)).

Definition search_brain_memory
    (rt : Py.Runtime) (disk : Disk) (query : option string) : SearchResults :=
  let timestamp := (Py.utcnow_isoformat rt ++ "Z")%string in
  match brain_py disk with
  | None =>
      {| timestamp := timestamp;
         query := query;
         matches := Some [];
         stats := None;
         error := Some "brain.py not found"%string |}
  | Some file_content =>
      let lines := Py.split_on Py.newline file_content in
      let blocks := find_blocks lines in
      let matches :=
        match query with
        | Some q =>
            if Py.truthy q then
              flat_map (fun '(i, block) => block_matches q i block)
                       (enumerate blocks)
            else []
        | None => []
        end in
      {| timestamp := timestamp;
         query := query;
         matches := Some matches;
         stats :=
           Some {| total_blocks := length blocks;
                   total_lines := length lines;
                   categories := count_categories lines;
                   match_count := length matches |};
         error := None |}
  end.

(** The loop over the listing, from the files still to visit and the
    tokens appended so far: a file whose name does not end in [.json] or
    whose load raises a caught exception is passed over, and any other
    exception ends the call. *)
Fixpoint load_tokens
    (files : list (string * Load)) (tokens : list (string * json))
  : Py.Outcome (list (string * json)) :=
  match files with
  | [] => Py.Returns tokens
  | (filename, load) :: rest =>
      if Py.endswith filename ".json" then
        match load with
        | Loaded data => load_tokens rest (tokens ++ [(filename, data)])
        | LoadSkipped => load_tokens rest tokens
        | LoadRaises exception => Py.Raises exception
        end
      else load_tokens rest tokens
  end.

(** [pattern] is stored in the result and used for nothing else. *)
Definition search_token_hashes
    (rt : Py.Runtime) (disk : Disk) (pattern : option string)
  : Py.Outcome TokenResults :=
  let results tokens :=
    {| tr_timestamp := (Py.utcnow_isoformat rt ++ "Z")%string;
       tr_pattern := pattern;
       tokens := tokens |} in
  match token_dir disk with
  | None => Py.Returns (results [])
  | Some (ListingRaises exception) => Py.Raises exception
  | Some (Listed files) =>
      match load_tokens files [] with
      | Py.Returns tokens => Py.Returns (results tokens)
      | Py.Raises exception => Py.Raises exception
      end
  end.

(** [date] is stored in the result and used for nothing else. *)
Definition search_ledger_entries
    (rt : Py.Runtime) (disk : Disk) (date : option string)
  : Py.Outcome LedgerResults :=
  let timestamp := (Py.utcnow_isoformat rt ++ "Z")%string in
  match ledger_dir disk with
  | Some (Some (IndexParsed ledger_index)) =>
      Py.Returns
        {| lr_timestamp := timestamp; date_filter := date;
           entries := ledger_index; lr_error := None |}
  | Some (Some (IndexInvalid message)) =>
      Py.Returns
        {| lr_timestamp := timestamp; date_filter := date;
           entries := JArray [];
           lr_error := Some ("Failed to read ledger: " ++ message)%string |}
  | Some (Some (IndexRaises exception)) => Py.Raises exception
  | _ =>
      Py.Returns
        {| lr_timestamp := timestamp; date_filter := date;
           entries := JArray []; lr_error := None |}
  end.

(** The dict display is evaluated in order: the brain search, then the
    token search, then the ledger search. *)
Definition perform_full_search
    (rt : Py.Runtime) (disk : Disk) (query : string)
  : Py.Outcome FullSearchResults :=
  let brain := search_brain_memory rt disk (Some query) in
  match search_token_hashes rt disk (Some query) with
  | Py.Raises exception => Py.Raises exception
  | Py.Returns tokens =>
      match search_ledger_entries rt disk None with
      | Py.Raises exception => Py.Raises exception
      | Py.Returns ledger =>
          Py.Returns
            {| fs_timestamp := (Py.utcnow_isoformat rt ++ "Z")%string;
               fs_query := query;
               brain_results := brain;
               token_results := tokens;
               ledger_results := ledger |}
      end
  end.

End cart_memory_search.

(** ** cart_runner.py *)

Module cart_runner.

(** *** The four module globals

    The runner reaches the carts through module-level names that are
    either a module or [None].  A module is the record of the functions
    the runner calls on it. *)

Record MemorySearchModule := {
  search_brain_memory : option string -> cart_memory_search.SearchResults;
  perform_full_search : string -> cart_memory_search.FullSearchResults
}.

Record SignalGeneratorModule := {
  generate_quantum_tuned_signal :
    string -> Q -> cart_signal_generator.Signal
}.

Record RoboticBuilderModule := {
  create_build_artifact :
    string -> Q -> string -> cart_robotic_builder.Artifact
}.

Record LocationTrackerModule := {
  track_tap_event : R -> R -> R -> string -> cart_location_tracker.Event;
  track_slide_event :
    R -> R -> R -> R -> R -> string -> cart_location_tracker.Event;
  calculate_movement_token :
    list cart_location_tracker.Event -> cart_location_tracker.MovementResult
}.

Record Imports := {
  cart_memory_search : option MemorySearchModule;
  cart_signal_generator : option SignalGeneratorModule;
  cart_robotic_builder : option RoboticBuilderModule;
  cart_location_tracker : option LocationTrackerModule
}.

(** The [try: import ... except ImportError:] block at the top of the
    file: one failing import rebinds all four names to [None]. *)
Definition import_carts
    (ms : option MemorySearchModule) (sg : option SignalGeneratorModule)
    (rb : option RoboticBuilderModule) (lt : option LocationTrackerModule)
    : Imports :=
  match ms, sg, rb, lt with
  | Some _, Some _, Some _, Some _ =>
      {| cart_memory_search := ms; cart_signal_generator := sg;
         cart_robotic_builder := rb; cart_location_tracker := lt |}
  | _, _, _, _ =>
      {| cart_memory_search := None; cart_signal_generator := None;
         cart_robotic_builder := None; cart_location_tracker := None |}
  end.

(** The two carts embedded above, as modules. *)
Definition signal_generator_module (rt : Py.Runtime) : SignalGeneratorModule :=
  {| generate_quantum_tuned_signal :=
       cart_signal_generator.generate_quantum_tuned_signal rt |}.

Definition location_tracker_module (rt : Py.Runtime) : LocationTrackerModule :=
  {| track_tap_event := cart_location_tracker.track_tap_event rt;
     track_slide_event := cart_location_tracker.track_slide_event rt;
     calculate_movement_token :=
       cart_location_tracker.calculate_movement_token rt |}.

(** *** The state of a [CartRunner] *)

(** What a stage stores under [results]. *)
Inductive StageResults :=
| BrainSearch (r : cart_memory_search.SearchResults)
| FullSearch (r : cart_memory_search.FullSearchResults)
| SignalResults (s : cart_signal_generator.Signal)
| ArtifactResults (a : cart_robotic_builder.Artifact)
| MovementResults (t : cart_location_tracker.MovementResult)
| Standby (message : string).

(** What a stage method returns: [{'error': ...}] or its results. *)
Inductive Returned :=
| ModuleError (error : string)
| Results_ (r : StageResults).

Record CartEntry := {
  status : string;
  results_of : StageResults
}.

Record Summary := {
  total_carts : nat;
  completed : nat;
  summary_timestamp : string
}.

(** [self.results]; [summary = None] is the empty dict of [__init__]. *)
Record Results := {
  timestamp : string;
  run_id : string;
  carts : gmap string CartEntry;
  summary : option Summary
}.

Record CartRunner := {
  results : Results;
  activity_log_path : string
}.

(** Methods read and update [self]: a state monad over [CartRunner]. *)
Definition M (A : Type) : Type := CartRunner -> A * CartRunner.

Definition ret {A} (a : A) : M A := fun self => (a, self).

Definition bind {A B} (m : M A) (k : A -> M B) : M B :=
  fun self => let '(a, self') := m self in k a self'.

Notation "x <- m ;; k" := (bind m (fun x => k))
  (at level 100, m at next level, right associativity).
Notation "m ;;; k" := (bind m (fun _ => k))
  (at level 100, right associativity).

(** [self.results['carts'][name] = entry] *)
Definition set_cart (name : string) (entry : CartEntry) : M unit :=
  fun self =>
    (tt,
     {| results :=
          {| timestamp := timestamp (results self);
             run_id := run_id (results self);
             carts := <[name := entry]> (carts (results self));
             summary := summary (results self) |};
        activity_log_path := activity_log_path self |}).

(** [self.results['summary'] = s] *)
Definition set_summary (s : Summary) : M unit :=
  fun self =>
    (tt,
     {| results :=
          {| timestamp := timestamp (results self);
             run_id := run_id (results self);
             carts := carts (results self);
             summary := Some s |};
        activity_log_path := activity_log_path self |}).

Definition get_carts : M (gmap string CartEntry) :=
  fun self => (carts (results self), self).

Definition _generate_run_id (rt : Py.Runtime) : string :=
  Py.format_0x 16 (Z.abs (Py.hash rt (Py.utcnow_isoformat rt))).

(** [CartRunner.__init__] *)
Definition init (rt : Py.Runtime) : CartRunner :=
  {| results :=
       {| timestamp := (Py.utcnow_isoformat rt ++ "Z")%string;
          run_id := _generate_run_id rt;
          carts := ∅;
          summary := None |};
     activity_log_path := "mongoose/activity_log.json" |}.

Section Methods.

Variable rt : Py.Runtime.
Variable imports : Imports.

Definition run_memory_search (query : option string) : M Returned :=
  match cart_memory_search imports with
  | None => ret (ModuleError "Module not available")
  | Some m =>
      let results :=
        match query with
        | Some q =>
            if Py.truthy q then FullSearch (perform_full_search m q)
            else BrainSearch (search_brain_memory m None)
        | None => BrainSearch (search_brain_memory m None)
        end in
      set_cart "memory_search"
               {| status := "completed"; results_of := results |} ;;;
      ret (Results_ results)
  end.

Definition run_signal_generator
    (token_hash : string) (token_value : Q) : M Returned :=
  match cart_signal_generator imports with
  | None => ret (ModuleError "Module not available")
  | Some m =>
      let signal := generate_quantum_tuned_signal m token_hash token_value in
      set_cart "signal_generator"
               {| status := "completed";
                  results_of := SignalResults signal |} ;;;
      ret (Results_ (SignalResults signal))
  end.

(** The [memory_content] handed to the builder: the [content] of the
    first ten matches of an unfiltered memory search, one per line. *)
Definition memory_content_of : string :=
  match cart_memory_search imports with
  | None => ""%string
  | Some ms =>
      let memory_results := search_brain_memory ms None in
      match cart_memory_search.matches memory_results with
      | Some matches =>
          Py.join (String "010"%char EmptyString)
            (map (fun m => default ""%string (cart_memory_search.content m))
                 (take 10 matches))
      | None => ""%string
      end
  end.

Definition run_robotic_builder
    (token_hash : string) (token_value : Q) : M Returned :=
  match cart_robotic_builder imports with
  | None => ret (ModuleError "Module not available")
  | Some m =>
      let memory_content := memory_content_of in
      let artifact :=
        create_build_artifact m token_hash token_value memory_content in
      set_cart "robotic_builder"
               {| status := "completed";
                  results_of := ArtifactResults artifact |} ;;;
      ret (Results_ (ArtifactResults artifact))
  end.

Definition run_location_tracker (demo_mode : bool) : M Returned :=
  match cart_location_tracker imports with
  | None => ret (ModuleError "Module not available")
  | Some m =>
      let token :=
        if demo_mode then
          let events :=
            [ track_tap_event m 100 200 (8 / 10) "demo";
              track_slide_event m 100 200 300 400 (5 / 10) "demo" ] in
          MovementResults (calculate_movement_token m events)
        else Standby "Location tracking in standby mode" in
      set_cart "location_tracker"
               {| status := "completed"; results_of := token |} ;;;
      ret (Results_ token)
  end.

(** [sum(1 for c in carts.values() if c.get('status') == 'completed')] *)
Definition count_completed (carts : gmap string CartEntry) : nat :=
  Py.sum_nat
    (map (fun _ => 1%nat)
         (List.filter (fun c => bool_decide (status c = "completed"%string))
                      (map snd (map_to_list carts)))).

(** [token_hash or 'demo' + '0' * 60] *)
Definition default_token_hash (token_hash : option string) : string :=
  match token_hash with
  | Some h => if Py.truthy h then h else ("demo" ++ Py.zeros 60)%string
  | None => ("demo" ++ Py.zeros 60)%string
  end.

(** [token_value or 18160000000] *)
Definition default_token_value (token_value : option Q) : Q :=
  match token_value with
  | Some v => if Qeq_bool v 0 then 18160000000 else v
  | None => 18160000000
  end.

Definition run_all_carts
    (query : option string) (token_hash : option string)
    (token_value : option Q) : M Results :=
  let token_hash := default_token_hash token_hash in
  let token_value := default_token_value token_value in
  run_memory_search query ;;;
  run_signal_generator token_hash token_value ;;;
  run_robotic_builder token_hash token_value ;;;
  run_location_tracker true ;;;
  carts <- get_carts ;;
  set_summary {| total_carts := size carts;
                 completed := count_completed carts;
                 summary_timestamp := (Py.utcnow_isoformat rt ++ "Z")%string |} ;;;
  fun self => (results self, self).

End Methods.

(** [sig_results.get('token_value', 0)] on what a cart entry holds: only
    a signal and a build artifact carry that key. *)
Definition results_token_value (r : StageResults) : Q :=
  match r with
  | SignalResults s => cart_signal_generator.token_value s
  | ArtifactResults a => cart_robotic_builder.art_token_value a
  | _ => 0%Q
  end.

(** The local [value_str] of [generate_commit_message]. *)
Definition value_str (value : Q) : string :=
  if Qlt_le_dec 1000000000 value
  then ("$" ++ Py.format_2f (value / 1000000000) ++ "B")%string
  else ("$" ++ Py.format_2f value)%string.

Definition generate_commit_message (self : CartRunner) : string :=
  let summary := summary (results self) in
  let run_id := run_id (results self) in
  let completed := from_option completed 0%nat summary in
  let total := from_option total_carts 0%nat summary in
  let value :=
    match carts (results self) !! "signal_generator"%string with
    | Some entry => results_token_value (results_of entry)
    | None => 0%Q
    end in
  let value_str := value_str value in
  ("🧱[CART_RUN]🧱 " ++ Py.str_nat completed ++ "/" ++ Py.str_nat total
   ++ " carts completed • Value: " ++ value_str
   ++ " • Run: " ++ substring 0 8 run_id)%string.

(** *** The activity log

    The log file as [json.load] sees it: absent, present but not valid
    JSON ([Some None]), or a JSON value.  What is dumped is read back
    unchanged. *)

Inductive WriteOutcome :=
| Written              (* the file is opened and the document dumped *)
| OpenFails            (* open(path, 'w') raises: the file is untouched *)
| DumpFails.           (* json.dump raises after the file was truncated *)

Record LogDisk := {
  log_file : option (option cart_memory_search.json);
  write_outcome : WriteOutcome
}.

(** Truth value of a JSON value, for [action_data or {}]. *)
Definition json_truthy (j : cart_memory_search.json) : bool :=
  match j with
  | cart_memory_search.JNull => false
  | cart_memory_search.JBool b => b
  | cart_memory_search.JNumber q => negb (Qeq_bool q 0)
  | cart_memory_search.JString s => Py.truthy s
  | cart_memory_search.JArray items =>
      match items with [] => false | _ :: _ => true end
  | cart_memory_search.JObject members =>
      match members with [] => false | _ :: _ => true end
  end.

(** [d[key]] and [d[key] = v] on the members of a JSON object. *)
Fixpoint json_get (key : string) (members : list (string * cart_memory_search.json))
  : option cart_memory_search.json :=
  match members with
  | [] => None
  | (k, v) :: rest => if String.eqb k key then Some v else json_get key rest
  end.

Fixpoint json_set (key : string) (v : cart_memory_search.json)
    (members : list (string * cart_memory_search.json))
  : list (string * cart_memory_search.json) :=
  match members with
  | [] => [(key, v)]
  | (k, old) :: rest =>
      if String.eqb k key then (k, v) :: rest
      else (k, old) :: json_set key v rest
  end.

(** [self.results.get('summary', {})] as it is dumped. *)
Definition json_of_summary (s : option Summary) : cart_memory_search.json :=
  match s with
  | None => cart_memory_search.JObject []
  | Some s =>
      cart_memory_search.JObject
        [ ("total_carts"%string,
           cart_memory_search.JNumber (inject_Z (Z.of_nat (total_carts s))));
          ("completed"%string,
           cart_memory_search.JNumber (inject_Z (Z.of_nat (completed s))));
          ("timestamp"%string,
           cart_memory_search.JString (summary_timestamp s)) ]
  end.

(** The [activity] dict of [save_to_activity_log]. *)
Definition activity_of
    (rt : Py.Runtime) (action_type : string)
    (action_data : option cart_memory_search.json) (self : CartRunner)
  : cart_memory_search.json :=
  cart_memory_search.JObject
    [ ("timestamp"%string,
       cart_memory_search.JString (Py.utcnow_isoformat rt ++ "Z")%string);
      ("action"%string, cart_memory_search.JString action_type);
      ("run_id"%string, cart_memory_search.JString (run_id (results self)));
      ("summary"%string, json_of_summary (summary (results self)));
      ("data"%string,
       match action_data with
       | Some d => if json_truthy d then d else cart_memory_search.JObject []
       | None => cart_memory_search.JObject []
       end) ].

(** The document of a log that does not exist yet. *)
Definition new_log (rt : Py.Runtime) : cart_memory_search.json :=
  cart_memory_search.JObject
    [ ("activities"%string, cart_memory_search.JArray []);
      ("version"%string, cart_memory_search.JString "1.0");
      ("created"%string,
       cart_memory_search.JString (Py.utcnow_isoformat rt ++ "Z")%string) ].

(** [log_data['activities'].append(activity)]; [None] is the exception
    raised when [log_data] is no dict, has no [activities] key, or holds
    something else than a list there. *)
Definition append_activity
    (activity log_data : cart_memory_search.json)
  : option cart_memory_search.json :=
  match log_data with
  | cart_memory_search.JObject members =>
      match json_get "activities" members with
      | Some (cart_memory_search.JArray activities) =>
          Some (cart_memory_search.JObject
                  (json_set "activities"
                     (cart_memory_search.JArray (activities ++ [activity]))
                     members))
      | _ => None
      end
  | _ => None
  end.

(** [save_to_activity_log]: the returned flag and the log file afterwards.
    Every exception ends in the [except Exception] handler. *)
Definition save_to_activity_log
    (rt : Py.Runtime) (disk : LogDisk) (action_type : string)
    (action_data : option cart_memory_search.json) (self : CartRunner)
  : bool * option (option cart_memory_search.json) :=
  let loaded :=
    match log_file disk with
    | None => Some (new_log rt)
    | Some None => None
    | Some (Some log_data) => Some log_data
    end in
  match loaded with
  | None => (false, log_file disk)
  | Some log_data =>
      let activity := activity_of rt action_type action_data self in
      match append_activity activity log_data with
      | None => (false, log_file disk)
      | Some log_data' =>
          match write_outcome disk with
          | Written => (true, Some (Some log_data'))
          | OpenFails => (false, log_file disk)
          | DumpFails => (false, Some None)
          end
      end
  end.

(** [main]: what it leaves in the log file and the commit message it
    prints last. *)
Definition main
    (rt : Py.Runtime) (imports : Imports) (disk : LogDisk)
    (argv : list string)
  : option (option cart_memory_search.json) * string :=
  let runner := init rt in
  let query :=
    if (1 <? length argv)%nat then Some (nth 1 argv ""%string) else None in
  let '(_, runner) := run_all_carts rt imports query None None runner in
  let '(_, log) :=
    save_to_activity_log rt disk "autonomous_cart_run" None runner in
  (log, generate_commit_message runner).

End cart_runner.

(** * Properties *)

(** ** Sample inputs used by the examples below *)

Module Samples.

(** Two interpreter runs that differ in the random draw and in the salt
    of [hash()]. *)
Definition runtime_a : Py.Runtime :=
  {| Py.utcnow_isoformat := "2024-05-01T12:00:00.000000";
     Py.randint_u64 := 7;
     Py.hash := fun s => Z.of_nat (String.length s) |}.

Definition runtime_b : Py.Runtime :=
  {| Py.utcnow_isoformat := "2024-05-01T12:00:00.000000";
     Py.randint_u64 := 4660;
     Py.hash := fun s => (- Z.of_nat (String.length s) - 1000)%Z |}.

(** The module globals after [import cart_memory_search] raised
    [ImportError], although two of the other carts are importable. *)
Definition imports_failed : cart_runner.Imports :=
  cart_runner.import_carts
    None
    (Some (cart_runner.signal_generator_module runtime_a))
    None
    (Some (cart_runner.location_tracker_module runtime_a)).


(** An event dict without any of the keys the aggregator reads. *)
Definition bare_event : cart_location_tracker.Event :=
  {| cart_location_tracker.timestamp := None;
     cart_location_tracker.type := None;
     cart_location_tracker.user := None;
     cart_location_tracker.details := cart_location_tracker.NoDetails;
     cart_location_tracker.token_value := None |}.

End Samples.

(** ** The words of the properties, as definitions *)

Module Spec.

Import cart_location_tracker.

(** The sum of a list of numbers. *)
Fixpoint sum_of (xs : list R) : R :=
  match xs with
  | [] => 0%R
  | x :: rest => (x + sum_of rest)%R
  end.

(** The [token_value] of each event, a missing one counting for 0. *)
Definition values_of (events : list Event) : list R :=
  map (fun e => default 0%R (token_value e)) events.

(** The number of events whose [type] tag is [kind]. *)
Definition number_of (kind : string) (events : list Event) : nat :=
  length (List.filter (fun e => bool_decide (type e = Some kind)) events).

(** The value of a slide of a given distance and duration, as
    [track_slide_event] computes it from the distance. *)
Definition slide_value_of (distance duration : R) : R :=
  calculate_slide_value distance (distance / Py.max_R duration (1 / 100))%R.

(** Bounds on the slide values attainable with a non-negative distance and
    a positive duration. *)
Definition slide_upper_bound (b : R) : Prop :=
  forall distance duration : R,
    (0 <= distance)%R -> (0 < duration)%R ->
    (slide_value_of distance duration <= b)%R.

Definition slide_least_upper_bound (b : R) : Prop :=
  slide_upper_bound b /\ forall b', slide_upper_bound b' -> (b <= b')%R.

(** Every entry of a carts map has status [completed]. *)
Definition all_completed (carts : gmap string cart_runner.CartEntry) : Prop :=
  map_Forall (fun _ c => cart_runner.status c = "completed"%string) carts.

(** The stage names whose module global is bound, and how many there are. *)
Definition name_if {A} (module : option A) (name : string) : gset string :=
  match module with Some _ => {[ name ]} | None => ∅ end.

Definition available_stages (imports : cart_runner.Imports) : gset string :=
  name_if (cart_runner.cart_memory_search imports) "memory_search"
  ∪ name_if (cart_runner.cart_signal_generator imports) "signal_generator"
  ∪ name_if (cart_runner.cart_robotic_builder imports) "robotic_builder"
  ∪ name_if (cart_runner.cart_location_tracker imports) "location_tracker".

Definition one_if {A} (module : option A) : nat :=
  match module with Some _ => 1%nat | None => 0%nat end.

Definition available_modules (imports : cart_runner.Imports) : nat :=
  (one_if (cart_runner.cart_memory_search imports)
   + one_if (cart_runner.cart_signal_generator imports)
   + one_if (cart_runner.cart_robotic_builder imports)
   + one_if (cart_runner.cart_location_tracker imports))%nat.

(** The states of a [CartRunner] object: built by [__init__] and driven
    through its methods, in any order and any number of times. *)
Inductive reachable (imports : cart_runner.Imports)
  : cart_runner.CartRunner -> Prop :=
| reach_init rt : reachable imports (cart_runner.init rt)
| reach_memory_search query self :
    reachable imports self ->
    reachable imports
      (snd (cart_runner.run_memory_search imports query self))
| reach_signal_generator token_hash token_value self :
    reachable imports self ->
    reachable imports
      (snd (cart_runner.run_signal_generator
              imports token_hash token_value self))
| reach_robotic_builder token_hash token_value self :
    reachable imports self ->
    reachable imports
      (snd (cart_runner.run_robotic_builder
              imports token_hash token_value self))
| reach_location_tracker demo_mode self :
    reachable imports self ->
    reachable imports
      (snd (cart_runner.run_location_tracker imports demo_mode self))
| reach_all_carts rt query token_hash token_value self :
    reachable imports self ->
    reachable imports
      (snd (cart_runner.run_all_carts
              rt imports query token_hash token_value self)).

(** What one stage method does to the runner: nothing when its module is
    unbound, else one entry with status [completed] under its name. *)
Definition stage_effect {A} (module : option A) (name : string)
    (before after : cart_runner.CartRunner) : Prop :=
  cart_runner.run_id (cart_runner.results after)
  = cart_runner.run_id (cart_runner.results before)
  /\ match module with
     | None => after = before
     | Some _ =>
         exists entry,
           cart_runner.status entry = "completed"%string
           /\ cart_runner.carts (cart_runner.results after)
              = <[name := entry]>
                  (cart_runner.carts (cart_runner.results before))
     end.

(** The text of the run message, from its four variable parts. *)
Definition run_message
    (completed total : nat) (value_str run_id : string) : string :=
  ("🧱[CART_RUN]🧱 " ++ Py.str_nat completed ++ "/" ++ Py.str_nat total
   ++ " carts completed • Value: " ++ value_str
   ++ " • Run: " ++ substring 0 8 run_id)%string.

End Spec.

(** ** Further notions, for the properties of the other functions *)

Module Notions.

(** *** Frequency sweeps *)

(** The number of steps a sweep runs: at least two. *)
Definition sweep_length (steps : Z) : Z := if (steps <=? 1)%Z then 2%Z else steps.

(** The entry a sweep of [n] steps computes for index [i]. *)
Definition sweep_entry (start_value end_value : Q) (n i : Z)
  : cart_signal_generator.SweepStep :=
  let value :=
    (start_value + (end_value - start_value) * inject_Z i / inject_Z (n - 1))%Q in
  {| cart_signal_generator.step := i;
     cart_signal_generator.step_value := value;
     cart_signal_generator.step_frequency :=
       cart_signal_generator.generate_frequency_from_value (Q2R value) |}.

(** *** Events *)

(** The events that the three tracking functions build. *)
Inductive tracked : cart_location_tracker.Event -> Prop :=
| tracked_tap rt x y force user :
    tracked (cart_location_tracker.track_tap_event rt x y force user)
| tracked_slide rt start_x start_y end_x end_y duration user :
    tracked (cart_location_tracker.track_slide_event
               rt start_x start_y end_x end_y duration user)
| tracked_location rt lat lon altitude user :
    tracked (cart_location_tracker.track_location_change
               rt lat lon altitude user).

(** An event whose payload does not carry what its [type] tag promises to
    [analyze_gesture_pattern]. *)
Definition mistagged (e : cart_location_tracker.Event) : Prop :=
  (cart_location_tracker.type e = Some "tap"%string
   /\ forall x y force,
        cart_location_tracker.details e
        <> cart_location_tracker.TapDetails x y force)
  \/ (cart_location_tracker.type e = Some "slide"%string
      /\ forall sx sy ex ey d t v,
           cart_location_tracker.details e
           <> cart_location_tracker.SlideDetails sx sy ex ey d t v).

(** The force of every tap among the events is in [0, 1]. *)
Definition forces_in_range (events : list cart_location_tracker.Event) : Prop :=
  forall e x y force,
    In e events ->
    cart_location_tracker.details e
    = cart_location_tracker.TapDetails x y force ->
    (0 <= force <= 1)%R.

(** *** Build tiers *)

(** The tiers in ascending order. *)
Definition tier_rank (tier : string) : nat :=
  if String.eqb tier "quantum" then 3
  else if String.eqb tier "advanced" then 2
  else if String.eqb tier "professional" then 1
  else 0.

(** *** Text *)

(** [needle] occurs in [hay]. *)
Definition occurs_in (needle hay : string) : Prop :=
  exists before after, hay = (before ++ needle ++ after)%string.

(** Some line mentions, in whatever case, one of the keywords. *)
Definition mentions (keywords lines : list string) : Prop :=
  exists line kw,
    In line lines /\ In kw keywords /\ occurs_in kw (Py.lower line).

(** The character [c] does not occur in [s]. *)
Definition free_of (c : ascii) (s : string) : Prop :=
  ~ In c (list_ascii_of_string s).

(** The number of occurrences of the character [c] in [s]. *)
Fixpoint occurrences (c : ascii) (s : string) : nat :=
  match s with
  | EmptyString => 0
  | String c' rest =>
      ((if Ascii.eqb c' c then 1 else 0) + occurrences c rest)%nat
  end.

(** The number of lines that contain [needle]. *)
Definition lines_with (needle : string) (lines : list string) : nat :=
  length (List.filter (Py.contains needle) lines).

(** *** The blocks of [brain.py] *)

Definition is_marker_line (line : string) : bool :=
  Py.contains cart_memory_search.block_marker line.

Definition marker_lines (file_lines : list string) : nat :=
  length (List.filter is_marker_line file_lines).

(** A line that the block scan keeps: a file line that starts with ["# "],
    is no marker line and comes after a marker line, without its first two
    characters. *)
Definition retained_line (file_lines : list string) (line : string) : Prop :=
  exists before file_line after,
    file_lines = before ++ file_line :: after
    /\ existsb is_marker_line before = true
    /\ is_marker_line file_line = false
    /\ Py.startswith file_line "# "%string = true
    /\ line = Py.slice_from 2 file_line.

(** The block scan before its first line, the text of a block, and the
    blocks of a scan once the block being read is closed. *)
Definition scan_start : cart_memory_search.BlockScan :=
  {| cart_memory_search.blocks := [];
     cart_memory_search.current_block := [];
     cart_memory_search.in_block := false |}.

Definition block_of (lines : list string) : string :=
  Py.join (String Py.newline EmptyString) lines.

Definition closed_blocks (st : cart_memory_search.BlockScan) : list string :=
  match cart_memory_search.current_block st with
  | [] => cart_memory_search.blocks st
  | _ :: _ =>
      cart_memory_search.blocks st
      ++ [block_of (cart_memory_search.current_block st)]
  end.

(** What the block scan has collected after the lines [seen]. *)
Definition scanned (seen : list string) (st : cart_memory_search.BlockScan)
  : Prop :=
  (cart_memory_search.in_block st = existsb is_marker_line seen)
  /\ Forall (retained_line seen) (cart_memory_search.current_block st)
  /\ Forall (fun block =>
               exists kept, kept <> [] /\ Forall (retained_line seen) kept
                            /\ block = block_of kept)
            (cart_memory_search.blocks st)
  /\ (if cart_memory_search.in_block st
      then (length (cart_memory_search.blocks st) + 1
            <= marker_lines seen)%nat
      else cart_memory_search.blocks st = []
           /\ cart_memory_search.current_block st = []
           /\ marker_lines seen = 0%nat).

(** The token search raises [exception] on this entry of the token
    directory: its name ends in [.json] and loading it raises an exception
    that the search does not catch. *)
Definition raises_on
    (entry : string * cart_memory_search.Load) (exception : string) : Prop :=
  Py.endswith (fst entry) ".json" = true
  /\ snd entry = cart_memory_search.LoadRaises exception.

(** One step of the category loop. *)
Definition bump_category
    (line : string) (categories : gmap string nat) (cat : string)
  : gmap string nat :=
  if Py.contains ("# " ++ cat)%string line
  then <[cat := S (default 0%nat (categories !! cat))]> categories
  else categories.

(** *** The activity log *)

(** The document that [save_to_activity_log] starts from: the log file,
    or a fresh log when there is none; [None] when the file is no JSON. *)
Definition log_before (rt : Py.Runtime) (disk : cart_runner.LogDisk)
  : option cart_memory_search.json :=
  match cart_runner.log_file disk with
  | None => Some (cart_runner.new_log rt)
  | Some loaded => loaded
  end.

(** The [activities] list of a log document, when it has one. *)
Definition activities_of (log_data : cart_memory_search.json)
  : option (list cart_memory_search.json) :=
  match log_data with
  | cart_memory_search.JObject members =>
      match cart_runner.json_get "activities" members with
      | Some (cart_memory_search.JArray activities) => Some activities
      | _ => None
      end
  | _ => None
  end.

(** The member [key] of a JSON object, and the names of its members. *)
Definition member (key : string) (j : cart_memory_search.json)
  : option cart_memory_search.json :=
  match j with
  | cart_memory_search.JObject members => cart_runner.json_get key members
  | _ => None
  end.

Definition member_names (j : cart_memory_search.json) : list string :=
  match j with
  | cart_memory_search.JObject members => map fst members
  | _ => []
  end.

(** *** The runner *)

(** The module's [search_brain_memory] is the function of
    [cart_memory_search.py], run on [disk]. *)
Definition searches_brain
    (rt : Py.Runtime) (disk : cart_memory_search.Disk)
    (ms : cart_runner.MemorySearchModule) : Prop :=
  forall query,
    cart_runner.search_brain_memory ms query
    = cart_memory_search.search_brain_memory rt disk query.

(** The [token_value] that the signal stage stores on a default run. *)
Definition default_run_value (imports : cart_runner.Imports) : Q :=
  match cart_runner.cart_signal_generator imports with
  | Some m =>
      cart_signal_generator.token_value
        (cart_runner.generate_quantum_tuned_signal m
           ("demo" ++ Py.zeros 60)%string 18160000000)
  | None => 0
  end.


End Notions.

(** ** Further sample inputs *)

Module MoreSamples.

(** The two demo events of the runner, and a location change. *)
Definition demo_events : list cart_location_tracker.Event :=
  [ cart_location_tracker.track_tap_event
      Samples.runtime_a 100 200 (8 / 10) "demo";
    cart_location_tracker.track_slide_event
      Samples.runtime_a 100 200 300 400 (5 / 10) "demo";
    cart_location_tracker.track_location_change
      Samples.runtime_a 48 2 0 "demo" ].

(** A [brain.py] with two blocks, a token directory with one loadable
    token file, and a ledger with an index. *)
Definition brain_text : string :=
  Py.join (String Py.newline EmptyString)
    [ "intro"; "#====BLOCK===="; "# Cats and water"; "# trees"; "plain";
      "#====BLOCK===="; "# People" ]%string.

Definition disk_a : cart_memory_search.Disk :=
  {| cart_memory_search.brain_py := Some brain_text;
     cart_memory_search.token_dir :=
       Some (cart_memory_search.Listed
               [ ("a.json"%string,
                  cart_memory_search.Loaded cart_memory_search.JNull);
                 ("notes.txt"%string,
                  cart_memory_search.Loaded cart_memory_search.JNull);
                 ("broken.json"%string, cart_memory_search.LoadSkipped) ]);
     cart_memory_search.ledger_dir :=
       Some (Some (cart_memory_search.IndexParsed
                     (cart_memory_search.JArray
                        [cart_memory_search.JString "20240501"]))) |}.

(** The same disk with a token file that is not UTF-8 in front. *)
Definition disk_b : cart_memory_search.Disk :=
  {| cart_memory_search.brain_py := Some brain_text;
     cart_memory_search.token_dir :=
       Some (cart_memory_search.Listed
               [ ("latin1.json"%string,
                  cart_memory_search.LoadRaises "UnicodeDecodeError");
                 ("a.json"%string,
                  cart_memory_search.Loaded cart_memory_search.JNull) ]);
     cart_memory_search.ledger_dir := None |}.

(** What a full search returns on [disk_a], where no read raises. *)
Definition full_search_a (query : string)
  : cart_memory_search.FullSearchResults :=
  let timestamp := (Py.utcnow_isoformat Samples.runtime_a ++ "Z")%string in
  {| cart_memory_search.fs_timestamp := timestamp;
     cart_memory_search.fs_query := query;
     cart_memory_search.brain_results :=
       cart_memory_search.search_brain_memory
         Samples.runtime_a disk_a (Some query);
     cart_memory_search.token_results :=
       {| cart_memory_search.tr_timestamp := timestamp;
          cart_memory_search.tr_pattern := Some query;
          cart_memory_search.tokens :=
            [("a.json"%string, cart_memory_search.JNull)] |};
     cart_memory_search.ledger_results :=
       {| cart_memory_search.lr_timestamp := timestamp;
          cart_memory_search.date_filter := None;
          cart_memory_search.entries :=
            cart_memory_search.JArray
              [cart_memory_search.JString "20240501"];
          cart_memory_search.lr_error := None |} |}.

(** The memory search cart on [disk_a], as the runner sees it. *)
Definition memory_search_a : cart_runner.MemorySearchModule :=
  {| cart_runner.search_brain_memory :=
       cart_memory_search.search_brain_memory Samples.runtime_a disk_a;
     cart_runner.perform_full_search := full_search_a |}.

(** An interpreter whose float sums and quotients happen to be exact. *)
Definition exact_floats : Py.FloatOps :=
  {| Py.float_sum := Py.sum_R; Py.float_div := Rdiv |}.

(** The match that a search for [cats] finds in [disk_a]. *)
Definition cats_match : cart_memory_search.Match :=
  {| cart_memory_search.block_index := 0;
     cart_memory_search.line_index := 0;
     cart_memory_search.content := Some "Cats and water"%string;
     cart_memory_search.context := ["Cats and water"; "trees"]%string |}.

(** No activity log yet, and a disk that can be written. *)
Definition log_disk_new : cart_runner.LogDisk :=
  {| cart_runner.log_file := None;
     cart_runner.write_outcome := cart_runner.Written |}.

(** A stand-in for the builder module: its artifact carries the analysis
    and the build configuration, and no generated text. *)
Definition builder_stub : cart_runner.RoboticBuilderModule :=
  {| cart_runner.create_build_artifact :=
       fun token_hash token_value memory_content =>
         let patterns :=
           cart_robotic_builder.as_patterns
             (cart_robotic_builder.analyze_memory_patterns
                Samples.runtime_a memory_content) in
         {| cart_robotic_builder.art_timestamp := "";
            cart_robotic_builder.art_token_hash := token_hash;
            cart_robotic_builder.art_token_value := token_value;
            cart_robotic_builder.art_patterns := patterns;
            cart_robotic_builder.generated_code :=
              {| cart_robotic_builder.cg_timestamp := "";
                 cart_robotic_builder.language := "python";
                 cart_robotic_builder.code := "";
                 cart_robotic_builder.description := "";
                 cart_robotic_builder.functions := [] |};
            cart_robotic_builder.build_config :=
              cart_robotic_builder.generate_build_config
                Samples.runtime_a token_value patterns;
            cart_robotic_builder.dockerfile := "";
            cart_robotic_builder.art_status := "ready" |} |}.

(** The module globals after a successful import block. *)
Definition imports_all : cart_runner.Imports :=
  cart_runner.import_carts
    (Some memory_search_a)
    (Some (cart_runner.signal_generator_module Samples.runtime_a))
    (Some builder_stub)
    (Some (cart_runner.location_tracker_module Samples.runtime_a)).

End MoreSamples.

(** ** Frequency mapper *)

Section Frequency.

Import cart_signal_generator.
Local Open Scope R_scope.

Lemma max_R_Rmax a b : Py.max_R a b = Rmax a b.
Proof. unfold Py.max_R, Rmax. destruct (Rlt_dec a b), (Rle_dec a b); lra. Qed.

Lemma min_R_Rmin a b : Py.min_R a b = Rmin a b.
Proof. unfold Py.min_R, Rmin. destruct (Rlt_dec b a), (Rle_dec a b); lra. Qed.

Lemma ln10_pos : 0 < ln 10.
Proof. rewrite <- ln_1. apply ln_increasing; lra. Qed.

(** [10 ** (log10(x) / 10)] is the tenth root of [x]. *)
Lemma pow10_log10 x : pow 10 (log10 x / 10) = exp (ln x / 10).
Proof.
  unfold pow, log10, Rpower. f_equal. field.
  pose proof ln10_pos. lra.
Qed.

Lemma ln_le_mono a b : 0 < a -> a <= b -> ln a <= ln b.
Proof.
  intros Ha [Hlt | ->]; [left; now apply ln_increasing | right; reflexivity].
Qed.

Lemma exp_le_mono a b : a <= b -> exp a <= exp b.
Proof.
  intros [Hlt | ->]; [left; now apply exp_increasing | right; reflexivity].
Qed.

Lemma frequency_nonpositive v :
  v <= 0 -> generate_frequency_from_value v = 40.
Proof.
  intros Hv. unfold generate_frequency_from_value.
  destruct (Rle_dec v 0); [reflexivity | contradiction].
Qed.

Lemma frequency_in_range v :
  40 <= generate_frequency_from_value v <= 40000.
Proof.
  unfold generate_frequency_from_value.
  destruct (Rle_dec v 0); [lra|].
  rewrite min_R_Rmin, max_R_Rmax.
  set (f := 40 * pow 10 (log10 (Py.max_R v 1) / 10)).
  split.
  - apply Rmin_glb; [apply Rmax_r | lra].
  - apply Rmin_r.
Qed.

Lemma frequency_monotone a b :
  1 <= a <= b ->
  generate_frequency_from_value a <= generate_frequency_from_value b.
Proof.
  intros [Ha Hab]. unfold generate_frequency_from_value.
  destruct (Rle_dec a 0) as [?|_]; [lra|].
  destruct (Rle_dec b 0) as [?|_]; [lra|].
  rewrite !pow10_log10, !min_R_Rmin, !max_R_Rmax.
  rewrite (Rmax_left a 1), (Rmax_left b 1) by lra.
  apply Rle_min_compat_r, Rle_max_compat_r.
  apply Rmult_le_compat_l; [lra|].
  apply exp_le_mono. pose proof (ln_le_mono a b). lra.
Qed.

(** C2.  [generate_frequency_from_value] returns exactly 40 on every value
    [<= 0]; its result always lies in [[40, 40000]]; and on values [>= 1]
    it is monotonically non-decreasing. *)
Theorem frequency_floor_range_monotone :
  (forall v, v <= 0 -> generate_frequency_from_value v = 40)
  /\ (forall v, 40 <= generate_frequency_from_value v <= 40000)
  /\ (forall a b, 1 <= a <= b ->
        generate_frequency_from_value a <= generate_frequency_from_value b).
Proof.
  split; [exact frequency_nonpositive|].
  split; [exact frequency_in_range | exact frequency_monotone].
Qed.

Lemma frequency_floor_range_monotone_witness :
  generate_frequency_from_value (-3) = 40
  /\ 40 <= generate_frequency_from_value 18160000000 <= 40000
  /\ generate_frequency_from_value 2 <= generate_frequency_from_value 5.
Proof.
  destruct frequency_floor_range_monotone as (Hfloor & Hrange & Hmono).
  split; [apply Hfloor; lra|].
  split; [apply Hrange | apply Hmono; lra].
Defined.

End Frequency.

(** ** Signal generator *)

(** *** What [int(s, 16)] can return on a 16-character prefix *)

Section HexParsing.
Local Open Scope Z_scope.

Lemma hex_digit_range c d : Py.hex_digit c = Some d -> 0 <= d <= 15.
Proof.
  unfold Py.hex_digit.
  repeat match goal with
  | |- context [if ?b then _ else _] => destruct b eqn:?
  end; intros [= <-]; lia.
Qed.

Lemma scan_hex_bound l : forall prev acc n,
  0 <= acc -> Py.scan_hex prev acc l = Some n ->
  0 <= n < (acc + 1) * 16 ^ Z.of_nat (length l).
Proof.
  induction l as [|c t IH]; intros prev acc n Hacc H.
  - simpl in H. destruct prev; [discriminate|]. injection H as <-.
    simpl. lia.
  - rewrite length_cons, Nat2Z.inj_succ, Z.pow_succ_r by lia.
    simpl in H. destruct (Py.is_underscore c).
    + destruct prev; [discriminate|].
      apply IH in H; [|lia]. nia.
    + destruct (Py.hex_digit c) as [d|] eqn:Hd; [|discriminate].
      apply hex_digit_range in Hd. apply IH in H; [|lia]. nia.
Qed.

Lemma skip_prefix_length l : (length (Py.skip_prefix l) <= length l)%nat.
Proof.
  unfold Py.skip_prefix. destruct l as [|z [|x t]]; simpl; try lia.
  destruct (_ && _); simpl; [|lia].
  destruct t as [|u t']; simpl; [lia|].
  destruct (Py.is_underscore u); simpl; lia.
Qed.

Lemma parse_unsigned_bound l n :
  Py.parse_unsigned l = Some n -> 0 <= n < 16 ^ Z.of_nat (length l).
Proof.
  unfold Py.parse_unsigned. intros H.
  pose proof (skip_prefix_length l) as Hlen.
  destruct (Py.skip_prefix l) as [|c t]; [discriminate|].
  destruct (Py.is_underscore c); [discriminate|].
  apply scan_hex_bound in H; [|lia].
  assert (16 ^ Z.of_nat (length (c :: t)) <= 16 ^ Z.of_nat (length l))
    by (apply Z.pow_le_mono_r; lia).
  lia.
Qed.

Lemma lstrip_length l : (length (Py.lstrip l) <= length l)%nat.
Proof.
  induction l as [|c t IH]; simpl; [lia|].
  destruct (Py.is_space c); simpl; lia.
Qed.

Lemma strip_length l : (length (Py.strip l) <= length l)%nat.
Proof.
  unfold Py.strip. rewrite length_rev.
  etransitivity; [apply lstrip_length|]. rewrite length_rev.
  apply lstrip_length.
Qed.

Lemma int16_bound s n :
  Py.int16 s = Some n -> Z.abs n < 16 ^ Z.of_nat (String.length s).
Proof.
  unfold Py.int16. intros H.
  pose proof (strip_length (list_ascii_of_string s)) as Hlen.
  assert (Hs : length (list_ascii_of_string s) = String.length s).
  { clear. induction s; simpl; congruence. }
  rewrite Hs in Hlen. clear Hs.
  destruct (Py.strip (list_ascii_of_string s)) as [|c t]; [discriminate|].
  assert (Hmono : forall k : nat, (k <= String.length s)%nat ->
                    16 ^ Z.of_nat k <= 16 ^ Z.of_nat (String.length s))
    by (intros k Hk; apply Z.pow_le_mono_r; lia).
  pose proof (length_cons c t) as Hcons.
  destruct (Ascii.eqb c "-").
  - destruct (Py.parse_unsigned t) as [m|] eqn:Hm; [|discriminate].
    injection H as <-. apply parse_unsigned_bound in Hm.
    specialize (Hmono (length t)). lia.
  - destruct (Ascii.eqb c "+").
    + apply parse_unsigned_bound in H. specialize (Hmono (length t)). lia.
    + apply parse_unsigned_bound in H.
      specialize (Hmono (length (c :: t))). lia.
Qed.

Lemma substring_length n s : (String.length (substring 0 n s) <= n)%nat.
Proof.
  revert s. induction n as [|n IH]; intros [|c s]; simpl; try lia.
  specialize (IH s). lia.
Qed.

Lemma int16_prefix_bound s n :
  Py.int16 (substring 0 16 s) = Some n -> - 2 ^ 64 < n < 2 ^ 64.
Proof.
  intros H. apply int16_bound in H.
  pose proof (substring_length 16 s).
  assert (16 ^ Z.of_nat (String.length (substring 0 16 s)) <= 16 ^ 16)
    by (apply Z.pow_le_mono_r; lia).
  change (16 ^ 16) with (2 ^ 64) in *. lia.
Qed.
End HexParsing.

(** *** Harmonics, quantum parameters and the source of [hash_int] *)

Section Signal.

Import cart_signal_generator.

Lemma range_1_6 : Py.range 1 6 = [1; 2; 3; 4; 5]%Z.
Proof. reflexivity. Qed.

Lemma harmonics_unfold rt token_hash value :
  harmonics (generate_quantum_tuned_signal rt token_hash value) =
  map (harmonic (generate_frequency_from_value (Q2R value))
                (hash_int rt token_hash))
      [1; 2; 3; 4; 5]%Z.
Proof. unfold generate_quantum_tuned_signal. rewrite range_1_6. reflexivity. Qed.

Lemma land_65535_bounds h : (0 <= Z.land h 65535 <= 65535)%Z.
Proof.
  replace (Z.land h 65535) with (h mod 65536)%Z
    by (symmetry; apply (Z.land_ones h 16); lia).
  pose proof (Z.mod_pos_bound h 65536). lia.
Qed.

Lemma land_255_bounds h : (0 <= Z.land h 255 <= 255)%Z.
Proof.
  replace (Z.land h 255) with (h mod 256)%Z
    by (symmetry; apply (Z.land_ones h 8); lia).
  pose proof (Z.mod_pos_bound h 256). lia.
Qed.

Lemma ratio_65535_bounds n :
  (0 <= n <= 65535)%Z -> (0 <= inject_Z n / 65535 <= 1)%Q.
Proof.
  intros Hn. unfold Qle, Qdiv, Qmult, Qinv, inject_Z. simpl. lia.
Qed.

Lemma hash_int_parsed rt token_hash n :
  Py.int16 (substring 0 16 token_hash) = Some n -> hash_int rt token_hash = n.
Proof.
  intros H. unfold hash_int. destruct token_hash; [discriminate|].
  simpl Py.truthy. cbv iota. rewrite H. reflexivity.
Qed.

Lemma hash_int_unparsed rt token_hash :
  Py.truthy token_hash = true ->
  Py.int16 (substring 0 16 token_hash) = None ->
  hash_int rt token_hash = Z.abs (Py.hash rt token_hash).
Proof. intros Ht Hp. unfold hash_int. rewrite Ht, Hp. reflexivity. Qed.

Lemma hash_int_empty rt : hash_int rt "" = Py.randint_u64 rt.
Proof. reflexivity. Qed.

(** Everything but the timestamp of a signal is a function of the hash
    identifier, the value and [hash_int]. *)
Lemma signal_determined_by_hash_int rt1 rt2 token_hash value :
  hash_int rt1 token_hash = hash_int rt2 token_hash ->
  harmonics (generate_quantum_tuned_signal rt1 token_hash value)
  = harmonics (generate_quantum_tuned_signal rt2 token_hash value)
  /\ quantum_tuning (generate_quantum_tuned_signal rt1 token_hash value)
     = quantum_tuning (generate_quantum_tuned_signal rt2 token_hash value).
Proof.
  intros H. rewrite !harmonics_unfold, H. split; [reflexivity|].
  unfold generate_quantum_tuned_signal. simpl. rewrite H. reflexivity.
Qed.

(** C4.  For every hash identifier and value the signal has exactly five
    harmonics; harmonic [i] (for [i] in 1..5) has frequency
    [base_frequency * i], amplitude [1 / i] and phase
    [(hash_int >> (i*8)) & 0xFF]; amplitudes strictly decrease along the
    list; coherence is [(hash_int & 0xFFFF) / 0xFFFF], entanglement is
    [((hash_int >> 16) & 0xFFFF) / 0xFFFF], both within [[0, 1]], and the
    resonance mode is [(hash_int >> 32) & 0xFF], within [[0, 255]]. *)
Theorem signal_harmonics_and_quantum_parameters rt token_hash value :
  let s := generate_quantum_tuned_signal rt token_hash value in
  let h := hash_int rt token_hash in
  length (harmonics s) = 5%nat
  /\ (forall i : Z, (1 <= i <= 5)%Z ->
        harmonics s !! Z.to_nat (i - 1) =
          Some {| frequency := (base_frequency s * IZR i)%R;
                  amplitude := (1 / inject_Z i)%Q;
                  phase := Z.land (Z.shiftr h (i * 8)) 255 |})
  /\ (forall (i j : nat) (a b : Harmonic),
        harmonics s !! i = Some a -> harmonics s !! j = Some b ->
        (i < j)%nat -> (amplitude b < amplitude a)%Q)
  /\ coherence (quantum_tuning s) = (inject_Z (Z.land h 65535) / 65535)%Q
  /\ entanglement_factor (quantum_tuning s) =
       (inject_Z (Z.land (Z.shiftr h 16) 65535) / 65535)%Q
  /\ resonance_mode (quantum_tuning s) = Z.land (Z.shiftr h 32) 255
  /\ (0 <= coherence (quantum_tuning s) <= 1)%Q
  /\ (0 <= entanglement_factor (quantum_tuning s) <= 1)%Q
  /\ (0 <= resonance_mode (quantum_tuning s) <= 255)%Z.
Proof.
  intros s h.
  assert (Hs : harmonics s =
               map (harmonic (base_frequency s) h) [1; 2; 3; 4; 5]%Z)
    by apply harmonics_unfold.
  split; [rewrite Hs; reflexivity|].
  split.
  { intros i Hi. rewrite Hs.
    assert (i = 1 \/ i = 2 \/ i = 3 \/ i = 4 \/ i = 5)%Z
      as [-> | [-> | [-> | [-> | ->]]]] by lia; reflexivity. }
  split.
  { intros i j a b Ha Hb Hij. rewrite Hs in Ha, Hb.
    destruct i as [|[|[|[|[|i]]]]]; try discriminate Ha;
    destruct j as [|[|[|[|[|j]]]]]; try discriminate Hb; try lia;
    injection Ha as <-; injection Hb as <-; reflexivity. }
  repeat split; try reflexivity.
  all: try apply ratio_65535_bounds, land_65535_bounds.
  all: apply land_255_bounds.
Qed.

Lemma signal_harmonics_and_quantum_parameters_witness :
  let s := generate_quantum_tuned_signal
             Samples.runtime_a "00ff00ff00ff00ffabcd" 18160000000 in
  (1 <= 3 <= 5)%Z
  /\ harmonics s !! 2%nat =
       Some {| frequency := (base_frequency s * 3)%R;
               amplitude := (1 / 3)%Q;
               phase := 0 |}
  /\ (1 / 3 < 1 / 2)%Q.
Proof.
  intros s.
  destruct (signal_harmonics_and_quantum_parameters
              Samples.runtime_a "00ff00ff00ff00ffabcd" 18160000000)
    as (_ & Hi & Hdec & _).
  split; [lia|]. split.
  - exact (Hi 3%Z ltac:(lia)).
  - apply (Hdec 1%nat 2%nat (harmonic (base_frequency s) 71777214294589695 2)
                (harmonic (base_frequency s) 71777214294589695 3));
      [reflexivity | reflexivity | lia].
Defined.

(** C6, as the code has it.  For an ASCII hash identifier the integer is
    derived as follows.  When the first 16 characters parse as a base-16
    integer, it is the parsed integer, of magnitude below [2^64], in every
    call.  When the identifier is non-empty and does not parse, it is
    [abs(hash(hash_id))], so that two calls derive the same integer
    exactly when [hash()] gives values of the same magnitude in both (as
    it does within one process).  When the identifier is empty, it is the
    value drawn by [random.randint], so that two calls derive the same
    integer exactly when the draws coincide.  Two calls that derive the
    same integer have the same harmonic phases and quantum parameters. *)
Theorem hash_int_deterministic_sources rt1 rt2 token_hash value :
  Py.isascii token_hash = true ->
  let s1 := generate_quantum_tuned_signal rt1 token_hash value in
  let s2 := generate_quantum_tuned_signal rt2 token_hash value in
  (forall n, Py.int16 (substring 0 16 token_hash) = Some n ->
     hash_int rt1 token_hash = n /\ hash_int rt2 token_hash = n
     /\ (- 2 ^ 64 < n < 2 ^ 64)%Z)
  /\ (token_hash <> ""%string ->
      Py.int16 (substring 0 16 token_hash) = None ->
      hash_int rt1 token_hash = Z.abs (Py.hash rt1 token_hash)
      /\ hash_int rt2 token_hash = Z.abs (Py.hash rt2 token_hash)
      /\ (hash_int rt1 token_hash = hash_int rt2 token_hash
          <-> Z.abs (Py.hash rt1 token_hash)
              = Z.abs (Py.hash rt2 token_hash))
      /\ (Py.hash rt1 token_hash = Py.hash rt2 token_hash ->
          hash_int rt1 token_hash = hash_int rt2 token_hash))
  /\ (token_hash = ""%string ->
      hash_int rt1 token_hash = Py.randint_u64 rt1
      /\ hash_int rt2 token_hash = Py.randint_u64 rt2
      /\ (hash_int rt1 token_hash = hash_int rt2 token_hash
          <-> Py.randint_u64 rt1 = Py.randint_u64 rt2))
  /\ (hash_int rt1 token_hash = hash_int rt2 token_hash ->
      map phase (harmonics s1) = map phase (harmonics s2)
      /\ quantum_tuning s1 = quantum_tuning s2).
Proof.
  intros _ s1 s2. split; [|split; [|split]].
  - intros n Hn. rewrite !(hash_int_parsed _ _ n Hn).
    split; [reflexivity|]. split; [reflexivity|].
    now apply int16_prefix_bound with (s := token_hash).
  - intros Hne Hp.
    assert (Ht : Py.truthy token_hash = true)
      by (destruct token_hash; [contradiction | reflexivity]).
    rewrite !hash_int_unparsed by assumption.
    split; [reflexivity|]. split; [reflexivity|].
    split; [reflexivity|]. now intros ->.
  - intros ->. rewrite !hash_int_empty.
    split; [reflexivity|]. split; reflexivity.
  - intros Heq.
    destruct (signal_determined_by_hash_int rt1 rt2 token_hash value Heq)
      as [Hh Hq].
    split; [unfold s1, s2; now rewrite Hh | exact Hq].
Qed.

Lemma hash_int_deterministic_sources_witness :
  Py.isascii "00ff00ff00ff00ffabcd" = true
  /\ Py.int16 (substring 0 16 "00ff00ff00ff00ffabcd")
     = Some 71777214294589695%Z
  /\ hash_int Samples.runtime_a "00ff00ff00ff00ffabcd" = 71777214294589695%Z
  /\ hash_int Samples.runtime_b "00ff00ff00ff00ffabcd" = 71777214294589695%Z.
Proof.
  assert (Ha : Py.isascii "00ff00ff00ff00ffabcd" = true) by reflexivity.
  assert (Hn : Py.int16 (substring 0 16 "00ff00ff00ff00ffabcd")
               = Some 71777214294589695%Z) by reflexivity.
  destruct (hash_int_deterministic_sources
              Samples.runtime_a Samples.runtime_b
              "00ff00ff00ff00ffabcd" 18160000000 Ha)
    as (Hparsed & _).
  destruct (Hparsed _ Hn) as (H1 & H2 & _).
  split; [exact Ha|]. split; [exact Hn|]. split; [exact H1 | exact H2].
Defined.

(** C6 as stated fails: with the empty identifier the integer is the
    random draw, and with an identifier that is not hex it is the salted
    [hash()]; two calls then disagree on the integer, on the phases and on
    the quantum parameters. *)
Lemma hash_int_not_deterministic :
  hash_int Samples.runtime_a "" <> hash_int Samples.runtime_b ""
  /\ hash_int Samples.runtime_a "demo0000" <> hash_int Samples.runtime_b "demo0000"
  /\ map phase (harmonics (generate_quantum_tuned_signal
                             Samples.runtime_a "" 18160000000))
     <> map phase (harmonics (generate_quantum_tuned_signal
                                Samples.runtime_b "" 18160000000))
  /\ quantum_tuning (generate_quantum_tuned_signal
                       Samples.runtime_a "" 18160000000)
     <> quantum_tuning (generate_quantum_tuned_signal
                          Samples.runtime_b "" 18160000000).
Proof.
  split; [discriminate|]. split; [discriminate|].
  rewrite !harmonics_unfold. split; discriminate.
Qed.

End Signal.

(** ** Event valuator and token aggregator *)

Section Tracker.

Import cart_location_tracker.

Lemma fold_left_Rplus xs : forall a, fold_left Rplus xs a = (a + Spec.sum_of xs)%R.
Proof.
  induction xs as [|x xs IH]; intros a; simpl; [lra|]. rewrite IH. lra.
Qed.

Lemma sum_R_sum_of xs : Py.sum_R xs = Spec.sum_of xs.
Proof. unfold Py.sum_R. rewrite fold_left_Rplus. lra. Qed.

Lemma fold_left_add_ones {A} (l : list A) : forall a,
  fold_left Nat.add (map (fun _ => 1%nat) l) a = (a + length l)%nat.
Proof.
  induction l as [|x l IH]; intros a; simpl; [lia|]. rewrite IH. lia.
Qed.

Lemma sum_nat_ones {A} (l : list A) :
  Py.sum_nat (map (fun _ => 1%nat) l) = length l.
Proof. unfold Py.sum_nat. now rewrite fold_left_add_ones. Qed.

Lemma count_kind_number_of kind events :
  count_kind kind events = Spec.number_of kind events.
Proof. unfold count_kind, Spec.number_of. now rewrite sum_nat_ones. Qed.

Lemma sum_of_app xs ys : Spec.sum_of (xs ++ ys) = (Spec.sum_of xs + Spec.sum_of ys)%R.
Proof. induction xs as [|x xs IH]; simpl; [lra|]. rewrite IH. lra. Qed.

Lemma number_of_app kind xs ys :
  Spec.number_of kind (xs ++ ys)
  = (Spec.number_of kind xs + Spec.number_of kind ys)%nat.
Proof. unfold Spec.number_of. now rewrite List.filter_app, length_app. Qed.

Lemma number_of_cons kind e events :
  Spec.number_of kind (e :: events)
  = ((if bool_decide (type e = Some kind) then 1 else 0)
     + Spec.number_of kind events)%nat.
Proof. unfold Spec.number_of. simpl. now destruct (bool_decide _). Qed.

Lemma kinds_disjoint events :
  (Spec.number_of "tap" events + Spec.number_of "slide" events
   + Spec.number_of "location" events <= length events)%nat.
Proof.
  induction events as [|e events IH]; [reflexivity|].
  rewrite !number_of_cons. simpl length.
  repeat case_bool_decide; try congruence; lia.
Qed.

Lemma movement_token_fields rt e events :
  exists tok,
    calculate_movement_token rt (e :: events) = Movement tok
    /\ total_value tok = Spec.sum_of (Spec.values_of (e :: events))
    /\ event_count tok = length (e :: events)
    /\ taps (pattern tok) = Spec.number_of "tap" (e :: events)
    /\ slides (pattern tok) = Spec.number_of "slide" (e :: events)
    /\ locations (pattern tok) = Spec.number_of "location" (e :: events).
Proof.
  eexists. split; [reflexivity|]. cbn [total_value event_count pattern taps slides locations].
  rewrite sum_R_sum_of, !count_kind_number_of. repeat split; reflexivity.
Qed.

(** C1.  On the empty list [calculate_movement_token] returns the dict
    with an [error] field; on every non-empty list it returns a token whose
    [total_value] is the sum of the events' [token_value] fields, whose
    [event_count] is the length of the list and whose [taps], [slides] and
    [locations] are the numbers of events tagged with that kind. *)
Theorem movement_token_aggregates rt :
  calculate_movement_token rt [] = Error "No events provided"
  /\ forall events : list Event,
       events <> [] ->
       exists tok,
         calculate_movement_token rt events = Movement tok
         /\ total_value tok = Spec.sum_of (Spec.values_of events)
         /\ event_count tok = length events
         /\ taps (pattern tok) = Spec.number_of "tap" events
         /\ slides (pattern tok) = Spec.number_of "slide" events
         /\ locations (pattern tok) = Spec.number_of "location" events.
Proof.
  split; [reflexivity|].
  intros [|e events] Hne; [contradiction|].
  apply movement_token_fields.
Qed.

Lemma movement_token_aggregates_witness :
  let events := [track_tap_event Samples.runtime_a 100 200 (8 / 10) "demo";
                 track_location_change Samples.runtime_a 48 2 0 "demo"] in
  events <> []
  /\ exists tok,
       calculate_movement_token Samples.runtime_a events = Movement tok
       /\ total_value tok = Spec.sum_of (Spec.values_of events)
       /\ event_count tok = 2%nat
       /\ taps (pattern tok) = 1%nat
       /\ slides (pattern tok) = 0%nat
       /\ locations (pattern tok) = 1%nat.
Proof.
  intros events.
  assert (Hne : events <> []) by discriminate.
  split; [exact Hne|].
  destruct (movement_token_aggregates Samples.runtime_a) as [_ Hagg].
  destruct (Hagg events Hne) as (tok & Htok & Hsum & Hcount & Ht & Hs & Hl).
  exists tok. repeat split; assumption.
Defined.

(** C10.  [calculate_movement_token] returns a token on every non-empty
    list of event dicts, whatever keys they lack.  An event without
    [token_value] adds nothing to [total_value]; an event whose [type] is
    missing or is none of [tap], [slide], [location] is counted in
    [event_count] and in none of the per-kind counts, and then
    [taps + slides + locations] is strictly below [event_count]; in
    general it is at most [event_count]. *)
Theorem movement_token_total_on_partial_events
    rt (before : list Event) (e : Event) (after : list Event) :
  exists tok,
    calculate_movement_token rt (before ++ e :: after) = Movement tok
    /\ (token_value e = None ->
        total_value tok = Spec.sum_of (Spec.values_of (before ++ after)))
    /\ (type e <> Some "tap"%string -> type e <> Some "slide"%string ->
        type e <> Some "location"%string ->
        event_count tok = S (length (before ++ after))
        /\ taps (pattern tok) = Spec.number_of "tap" (before ++ after)
        /\ slides (pattern tok) = Spec.number_of "slide" (before ++ after)
        /\ locations (pattern tok)
           = Spec.number_of "location" (before ++ after)
        /\ (taps (pattern tok) + slides (pattern tok)
            + locations (pattern tok) < event_count tok)%nat)
    /\ (taps (pattern tok) + slides (pattern tok) + locations (pattern tok)
        <= event_count tok)%nat.
Proof.
  assert (Hne : exists x l, before ++ e :: after = x :: l)
    by (destruct before; simpl; eauto).
  destruct Hne as (x & l & Hxl).
  destruct (movement_token_fields rt x l)
    as (tok & Htok & Hsum & Hcount & Ht & Hs & Hl).
  rewrite <- Hxl in *. clear x l Hxl.
  exists tok. split; [exact Htok|].
  assert (Hk : forall kind, type e <> Some kind ->
                 Spec.number_of kind (before ++ e :: after)
                 = Spec.number_of kind (before ++ after)).
  { intros kind Hkind. rewrite !number_of_app, number_of_cons.
    case_bool_decide; [contradiction | reflexivity]. }
  split; [|split].
  - intros Hnone. rewrite Hsum. unfold Spec.values_of.
    rewrite !map_app, !sum_of_app. simpl. rewrite Hnone. simpl. lra.
  - intros Htap Hslide Hloc.
    rewrite Hcount, Ht, Hs, Hl, !Hk by assumption.
    rewrite !length_app. simpl length.
    pose proof (kinds_disjoint (before ++ after)) as Hd.
    rewrite length_app in Hd.
    repeat split; lia.
  - rewrite Hcount, Ht, Hs, Hl. apply kinds_disjoint.
Qed.

Lemma movement_token_total_on_partial_events_witness :
  let tap := track_tap_event Samples.runtime_a 100 200 (8 / 10) "demo" in
  token_value Samples.bare_event = None
  /\ type Samples.bare_event <> Some "tap"%string
  /\ exists tok,
       calculate_movement_token Samples.runtime_a [tap; Samples.bare_event]
       = Movement tok
       /\ total_value tok = Spec.sum_of (Spec.values_of [tap])
       /\ event_count tok = 2%nat
       /\ taps (pattern tok) = 1%nat
       /\ (taps (pattern tok) + slides (pattern tok)
           + locations (pattern tok) < event_count tok)%nat.
Proof.
  intros tap.
  split; [reflexivity|]. split; [discriminate|].
  destruct (movement_token_total_on_partial_events
              Samples.runtime_a [tap] Samples.bare_event [])
    as (tok & Htok & Hval & Hkind & _).
  destruct Hkind as (Hcount & Ht & _ & _ & Hlt); try discriminate.
  exists tok. split; [exact Htok|]. split; [apply Hval; reflexivity|].
  split; [exact Hcount|]. split; [exact Ht | exact Hlt].
Defined.

(** *** Slides *)

Local Open Scope R_scope.

Lemma min_R_cap x : 0 <= x -> 0 <= Py.min_R x 10 <= 10.
Proof. intros Hx. unfold Py.min_R. destruct (Rlt_dec 10 x); lra. Qed.

Lemma velocity_nonneg distance duration :
  0 <= distance -> 0 <= distance / Py.max_R duration (1 / 100).
Proof.
  intros Hd. apply Rmult_le_pos; [exact Hd|].
  left. apply Rinv_0_lt_compat.
  unfold Py.max_R. destruct (Rlt_dec duration (1 / 100)); lra.
Qed.

Lemma slide_value_bounds distance velocity :
  0 <= distance -> 0 <= velocity ->
  10 <= calculate_slide_value distance velocity <= 210.
Proof.
  intros Hd Hv. unfold calculate_slide_value.
  pose proof (min_R_cap (distance / 100)).
  pose proof (min_R_cap (velocity / 100)). lra.
Qed.

Lemma slide_value_bottom : Spec.slide_value_of 0 1 = 10.
Proof.
  unfold Spec.slide_value_of, calculate_slide_value, Py.min_R, Py.max_R.
  repeat match goal with
  | |- context [Rlt_dec ?a ?b] => destruct (Rlt_dec a b)
  end; lra.
Qed.

Lemma slide_value_top : Spec.slide_value_of 1000 1 = 210.
Proof.
  unfold Spec.slide_value_of, calculate_slide_value, Py.min_R, Py.max_R.
  repeat match goal with
  | |- context [Rlt_dec ?a ?b] => destruct (Rlt_dec a b)
  end; lra.
Qed.

Lemma slide_upper_bound_210 : Spec.slide_upper_bound 210.
Proof.
  intros distance duration Hd _.
  apply slide_value_bounds; [exact Hd | now apply velocity_nonneg].
Qed.

(** What the slide formula computes.  A slide event records
    [velocity = distance / max(duration, 0.01)] and its value is
    [10 * (1 + min(distance/100, 10) + min(velocity/100, 10))]; over
    non-negative distances and positive durations this value stays within
    [[10, 210]], both ends being attained. *)
Lemma slide_value_formula_and_range :
  (forall rt start_x start_y end_x end_y duration user,
      let e := track_slide_event rt start_x start_y end_x end_y
                                 duration user in
      exists distance velocity,
        details e = SlideDetails start_x start_y end_x end_y
                                 distance duration velocity
        /\ distance = sqrt ((end_x - start_x) ^ 2 + (end_y - start_y) ^ 2)
        /\ velocity = distance / Rmax duration (1 / 100)
        /\ token_value e =
             Some (10 * (1 + Rmin (distance / 100) 10
                           + Rmin (velocity / 100) 10))
        /\ token_value e = Some (Spec.slide_value_of distance duration))
  /\ (forall distance duration,
        0 <= distance -> 0 < duration ->
        10 <= Spec.slide_value_of distance duration <= 210)
  /\ Spec.slide_value_of 0 1 = 10
  /\ Spec.slide_value_of 1000 1 = 210
  /\ Spec.slide_least_upper_bound 210.
Proof.
  split.
  { intros rt sx sy ex ey duration user e.
    eexists _, _. split; [reflexivity|]. split; [reflexivity|].
    split; [now rewrite max_R_Rmax|]. split; [|reflexivity].
    simpl. unfold calculate_slide_value.
    now rewrite !min_R_Rmin, max_R_Rmax. }
  split.
  { intros distance duration Hd _.
    apply slide_value_bounds; [exact Hd | now apply velocity_nonneg]. }
  split; [exact slide_value_bottom|].
  split; [exact slide_value_top|].
  split; [exact slide_upper_bound_210|].
  intros b Hb. rewrite <- slide_value_top. apply Hb; lra.
Qed.

Lemma slide_value_formula_and_range_witness :
  0 <= 250 /\ 0 < 1 / 2
  /\ 10 <= Spec.slide_value_of 250 (1 / 2) <= 210.
Proof.
  destruct slide_value_formula_and_range as (_ & Hrange & _).
  split; [lra|]. split; [lra|]. apply Hrange; lra.
Defined.

Lemma slide_value_lub_is_not_1000 : ~ Spec.slide_least_upper_bound 1000.
Proof.
  intros [_ Hleast]. specialize (Hleast 210 slide_upper_bound_210). lra.
Qed.

(** C7.  The code at the slide where both factors reach their cap of 10,
    1000 pixels in one second: the distance and the velocity are 1000 and
    the value is $210, where the range $10 - $1000 of the code's comment
    and of the claim has $1000.  The two capped factors are added instead
    of multiplied, so that no slide is worth more than $210 and $1000 is
    not the least upper bound. *)
Theorem slide_value_at_both_caps rt user :
  let e := track_slide_event rt 0 0 1000 0 1 user in
  details e = SlideDetails 0 0 1000 0 1000 1 1000
  /\ token_value e = Some 210
  /\ token_value e <> Some 1000
  /\ Spec.slide_upper_bound 210
  /\ ~ Spec.slide_least_upper_bound 1000.
Proof.
  intros e. subst e. unfold track_slide_event.
  assert (Hd : sqrt ((1000 - 0) ^ 2 + (0 - 0) ^ 2) = 1000).
  { replace ((1000 - 0) ^ 2 + (0 - 0) ^ 2) with (1000 ^ 2) by lra.
    apply sqrt_pow2. lra. }
  rewrite Hd.
  assert (Hm : Py.max_R 1 (1 / 100) = 1).
  { unfold Py.max_R. destruct (Rlt_dec 1 (1 / 100)); lra. }
  rewrite Hm.
  assert (Hv : calculate_slide_value 1000 (1000 / 1) = 210).
  { unfold calculate_slide_value, Py.min_R.
    repeat match goal with
    | |- context [Rlt_dec ?a ?b] => destruct (Rlt_dec a b)
    end; lra. }
  cbn [details token_value]. rewrite Hv.
  split; [f_equal; lra|]. split; [reflexivity|].
  split; [intros [= H]; lra|].
  split; [exact slide_upper_bound_210 | exact slide_value_lub_is_not_1000].
Qed.

End Tracker.

(** ** Build tier mapper *)

Section Builder.

Import cart_robotic_builder.
Local Open Scope Q_scope.

Lemma min_Q_Qmin a b : Py.min_Q a b = Qmin a b.
Proof.
  unfold Py.min_Q, Qmin, GenericMinMax.gmin.
  destruct (Qlt_le_dec b a) as [Hlt | Hle].
  - apply Qgt_alt in Hlt. now rewrite Hlt.
  - destruct (a ?= b) eqn:E; try reflexivity.
    apply Qgt_alt in E. Lqa.lra.
Qed.

Lemma min_Z_Zmin a b : Py.min_Z a b = Z.min a b.
Proof. unfold Py.min_Z. destruct (Z.ltb_spec b a); lia. Qed.

Lemma build_tier_tier_of rt value patterns :
  build_tier (generate_build_config rt value patterns) = fst (tier_of value).
Proof.
  unfold generate_build_config. now destruct (tier_of value).
Qed.

Lemma tier_of_cases value :
  (1000000000000 < value /\ fst (tier_of value) = "quantum"%string)
  \/ (1000000000 < value <= 1000000000000
      /\ fst (tier_of value) = "advanced"%string)
  \/ (1000000 < value <= 1000000000
      /\ fst (tier_of value) = "professional"%string)
  \/ (value <= 1000000 /\ fst (tier_of value) = "basic"%string).
Proof.
  unfold tier_of.
  destruct (Qlt_le_dec 1000000000000 value); [left; now split|].
  destruct (Qlt_le_dec 1000000000 value); [right; left; now split|].
  destruct (Qlt_le_dec 1000000 value); [right; right; left; now split|].
  right; right; right; now split.
Qed.

(** C3.  [build_tier] is a step function of [token_value] with exclusive
    lower bounds: [quantum] iff the value exceeds 1e12, [advanced] iff it
    lies in (1e9, 1e12], [professional] iff it lies in (1e6, 1e9], [basic]
    otherwise, so that 1e6 and 999999 both give [basic]; the config has
    [memory_limit = min(value/1000, 1000000)],
    [thread_count = min(int(value/1e6), 64)] and [optimization_level]
    equal to the number of features. *)
Theorem build_tier_thresholds_and_config rt value patterns :
  let b := generate_build_config rt value patterns in
  (build_tier b = "quantum"%string <-> 1000000000000 < value)
  /\ (build_tier b = "advanced"%string
      <-> 1000000000 < value <= 1000000000000)
  /\ (build_tier b = "professional"%string
      <-> 1000000 < value <= 1000000000)
  /\ (build_tier b = "basic"%string <-> value <= 1000000)
  /\ memory_limit (config b) = Qmin (value / 1000) 1000000
  /\ thread_count (config b) = Z.min (Py.int_of_Q (value / 1000000)) 64
  /\ optimization_level (config b) = length (features b)
  /\ build_tier (generate_build_config rt 1000000 patterns) = "basic"%string
  /\ build_tier (generate_build_config rt 999999 patterns) = "basic"%string.
Proof.
  intros b.
  assert (Hconfig :
    memory_limit (config b) = Qmin (value / 1000) 1000000
    /\ thread_count (config b) = Z.min (Py.int_of_Q (value / 1000000)) 64
    /\ optimization_level (config b) = length (features b)
    /\ build_tier (generate_build_config rt 1000000 patterns)
       = "basic"%string
    /\ build_tier (generate_build_config rt 999999 patterns)
       = "basic"%string).
  { unfold b, generate_build_config. destruct (tier_of value). simpl.
    rewrite min_Q_Qmin, min_Z_Zmin. repeat split;
      unfold generate_build_config; reflexivity. }
  unfold b. rewrite build_tier_tier_of.
  destruct (tier_of_cases value)
    as [[H ->] | [[H ->] | [[H ->] | [H ->]]]];
    (split; [|split; [|split; [|split; [|exact Hconfig]]]]);
    (split; intros Hx; try discriminate Hx; try reflexivity;
     try split; Lqa.lra).
Qed.

Lemma build_tier_thresholds_and_config_witness :
  let b := generate_build_config
             Samples.runtime_a 18160000000
             {| themes := Some (<["nature"%string := 2%Z]> ∅) |} in
  1000000000 < 18160000000 <= 1000000000000
  /\ build_tier b = "advanced"%string
  /\ thread_count (config b) = 64%Z
  /\ optimization_level (config b) = 4%nat.
Proof.
  intros b.
  destruct (build_tier_thresholds_and_config
              Samples.runtime_a 18160000000
              {| themes := Some (<["nature"%string := 2%Z]> ∅) |})
    as (_ & [_ Hadv] & _ & _ & _ & Hthreads & Hopt & _).
  assert (Hv : 1000000000 < 18160000000 <= 1000000000000)
    by (split; [reflexivity | discriminate]).
  split; [exact Hv|]. split; [exact (Hadv Hv)|].
  split; [exact Hthreads | exact Hopt].
Defined.

End Builder.

(** ** Run orchestrator *)

Section Runner.

Import cart_runner.
Import Spec.

#[local] Set Warnings "-clear-no-such-hyp".

Variable imports : Imports.

Lemma run_memory_search_effect query self :
  stage_effect (cart_memory_search imports) "memory_search"
               self (snd (run_memory_search imports query self)).
Proof.
  unfold run_memory_search, stage_effect.
  destruct (cart_memory_search imports); simpl; [|now split].
  split; [reflexivity|]. eexists. split; [|reflexivity]. reflexivity.
Qed.

Lemma run_signal_generator_effect token_hash token_value self :
  stage_effect (cart_signal_generator imports) "signal_generator"
    self (snd (run_signal_generator imports token_hash token_value self)).
Proof.
  unfold run_signal_generator, stage_effect.
  destruct (cart_signal_generator imports); simpl; [|now split].
  split; [reflexivity|]. eexists. split; [|reflexivity]. reflexivity.
Qed.

Lemma run_robotic_builder_effect token_hash token_value self :
  stage_effect (cart_robotic_builder imports) "robotic_builder"
    self (snd (run_robotic_builder imports token_hash token_value self)).
Proof.
  unfold run_robotic_builder, stage_effect.
  destruct (cart_robotic_builder imports); simpl; [|now split].
  split; [reflexivity|]. eexists. split; [|reflexivity]. reflexivity.
Qed.

Lemma run_location_tracker_effect demo_mode self :
  stage_effect (cart_location_tracker imports) "location_tracker"
    self (snd (run_location_tracker imports demo_mode self)).
Proof.
  unfold run_location_tracker, stage_effect.
  destruct (cart_location_tracker imports); simpl; [|now split].
  split; [reflexivity|]. eexists. split; [|reflexivity]. reflexivity.
Qed.

Lemma stage_effect_completed {A} (module : option A) name before after :
  stage_effect module name before after ->
  all_completed (carts (results before)) ->
  all_completed (carts (results after)).
Proof.
  intros [_ H] Hall. destruct module; [|now rewrite H].
  destruct H as (entry & Hst & ->). now apply map_Forall_insert_2.
Qed.

Lemma stage_effect_dom {A} (module : option A) name before after :
  stage_effect module name before after ->
  dom (carts (results after))
  = name_if module name ∪ dom (carts (results before)).
Proof.
  intros [_ H]. destruct module; simpl.
  - destruct H as (entry & _ & ->). now rewrite dom_insert_L.
  - rewrite H. set_solver.
Qed.

Lemma bind_unfold {A B} (m : M A) (k : A -> M B) self :
  bind m k self = k (fst (m self)) (snd (m self)).
Proof. unfold bind. now destruct (m self). Qed.

Lemma run_all_carts_unfold rt query token_hash token_value self :
  let th := default_token_hash token_hash in
  let tv := default_token_value token_value in
  let s1 := snd (run_memory_search imports query self) in
  let s2 := snd (run_signal_generator imports th tv s1) in
  let s3 := snd (run_robotic_builder imports th tv s2) in
  let s4 := snd (run_location_tracker imports true s3) in
  let s5 := snd (set_summary
                   {| total_carts := size (carts (results s4));
                      completed := count_completed (carts (results s4));
                      summary_timestamp :=
                        (Py.utcnow_isoformat rt ++ "Z")%string |} s4) in
  run_all_carts rt imports query token_hash token_value self
  = (results s5, s5).
Proof.
  intros th tv s1 s2 s3 s4 s5.
  unfold run_all_carts. rewrite !bind_unfold. reflexivity.
Qed.

Lemma stage_effect_other {A} (module : option A) name other before after :
  stage_effect module name before after ->
  other <> name ->
  carts (results after) !! other = carts (results before) !! other.
Proof.
  intros [_ H] Hne. destruct module; [|now rewrite H].
  destruct H as (entry & _ & ->). now rewrite lookup_insert_ne.
Qed.

Lemma run_all_carts_dom rt query token_hash token_value self :
  dom (carts (results
         (snd (run_all_carts rt imports query token_hash token_value self))))
  = available_stages imports ∪ dom (carts (results self)).
Proof.
  rewrite run_all_carts_unfold. cbn [snd set_summary results carts].
  rewrite (stage_effect_dom _ _ _ _ (run_location_tracker_effect _ _)).
  rewrite (stage_effect_dom _ _ _ _ (run_robotic_builder_effect _ _ _)).
  rewrite (stage_effect_dom _ _ _ _ (run_signal_generator_effect _ _ _)).
  rewrite (stage_effect_dom _ _ _ _ (run_memory_search_effect _ _)).
  unfold available_stages. set_solver.
Qed.

Lemma run_all_carts_completed rt query token_hash token_value self :
  all_completed (carts (results self)) ->
  all_completed
    (carts (results
       (snd (run_all_carts rt imports query token_hash token_value self)))).
Proof.
  intros Hall. rewrite run_all_carts_unfold.
  cbn [snd set_summary results carts].
  eapply stage_effect_completed; [apply run_location_tracker_effect|].
  eapply stage_effect_completed; [apply run_robotic_builder_effect|].
  eapply stage_effect_completed; [apply run_signal_generator_effect|].
  eapply stage_effect_completed; [apply run_memory_search_effect|].
  exact Hall.
Qed.

Lemma reachable_invariant self :
  reachable imports self ->
  all_completed (carts (results self))
  /\ dom (carts (results self)) ⊆ available_stages imports.
Proof.
  induction 1 as [rt | q self _ [IHc IHd] | th tv self _ [IHc IHd]
                 | th tv self _ [IHc IHd] | dm self _ [IHc IHd]
                 | rt q th tv self _ [IHc IHd]].
  - split; [apply map_Forall_empty | simpl; set_solver].
  - split; [eapply stage_effect_completed;
              [apply run_memory_search_effect | exact IHc]|].
    rewrite (stage_effect_dom _ _ _ _ (run_memory_search_effect _ _)).
    unfold available_stages. set_solver.
  - split; [eapply stage_effect_completed;
              [apply run_signal_generator_effect | exact IHc]|].
    rewrite (stage_effect_dom _ _ _ _ (run_signal_generator_effect _ _ _)).
    unfold available_stages. set_solver.
  - split; [eapply stage_effect_completed;
              [apply run_robotic_builder_effect | exact IHc]|].
    rewrite (stage_effect_dom _ _ _ _ (run_robotic_builder_effect _ _ _)).
    unfold available_stages. set_solver.
  - split; [eapply stage_effect_completed;
              [apply run_location_tracker_effect | exact IHc]|].
    rewrite (stage_effect_dom _ _ _ _ (run_location_tracker_effect _ _)).
    unfold available_stages. set_solver.
  - split; [now apply run_all_carts_completed|].
    rewrite run_all_carts_dom. set_solver.
Qed.

Lemma size_available_stages :
  size (available_stages imports) = available_modules imports.
Proof.
  unfold available_stages, available_modules.
  destruct (cart_memory_search imports), (cart_signal_generator imports),
    (cart_robotic_builder imports), (cart_location_tracker imports);
    reflexivity.
Qed.

Lemma filter_all {A} (p : A -> bool) (l : list A) :
  Forall (fun x => p x = true) l -> List.filter p l = l.
Proof.
  induction 1 as [|x l Hx _ IH]; simpl; [reflexivity|].
  now rewrite Hx, IH.
Qed.

Lemma count_completed_all (m : gmap string CartEntry) :
  all_completed m -> count_completed m = size m.
Proof.
  intros Hall. unfold count_completed, Py.sum_nat.
  rewrite fold_left_add_ones. simpl.
  rewrite filter_all.
  - now rewrite length_map, length_map_to_list.
  - apply Forall_map. apply map_Forall_to_list in Hall.
    eapply Forall_impl; [exact Hall|].
    intros [k c] Hc. simpl in *. now apply bool_decide_eq_true.
Qed.


Lemma unavailable_memory_search query self :
  cart_memory_search imports = None ->
  run_memory_search imports query self
  = (ModuleError "Module not available", self).
Proof. intros H. unfold run_memory_search. now rewrite H. Qed.

Lemma unavailable_signal_generator token_hash token_value self :
  cart_signal_generator imports = None ->
  run_signal_generator imports token_hash token_value self
  = (ModuleError "Module not available", self).
Proof. intros H. unfold run_signal_generator. now rewrite H. Qed.

Lemma unavailable_robotic_builder token_hash token_value self :
  cart_robotic_builder imports = None ->
  run_robotic_builder imports token_hash token_value self
  = (ModuleError "Module not available", self).
Proof. intros H. unfold run_robotic_builder. now rewrite H. Qed.

Lemma unavailable_location_tracker demo_mode self :
  cart_location_tracker imports = None ->
  run_location_tracker imports demo_mode self
  = (ModuleError "Module not available", self).
Proof. intros H. unfold run_location_tracker. now rewrite H. Qed.

Lemma run_all_carts_summary rt query token_hash token_value self :
  let self' :=
    snd (run_all_carts rt imports query token_hash token_value self) in
  summary (results self')
  = Some {| total_carts := size (carts (results self'));
            completed := count_completed (carts (results self'));
            summary_timestamp := (Py.utcnow_isoformat rt ++ "Z")%string |}
  /\ fst (run_all_carts rt imports query token_hash token_value self)
     = results self'
  /\ run_id (results self') = run_id (results self).
Proof.
  intros self'. unfold self'. rewrite run_all_carts_unfold.
  cbn [fst snd set_summary results carts summary run_id].
  split; [reflexivity|]. split; [reflexivity|].
  rewrite (proj1 (run_location_tracker_effect _ _)).
  rewrite (proj1 (run_robotic_builder_effect _ _ _)).
  rewrite (proj1 (run_signal_generator_effect _ _ _)).
  now rewrite (proj1 (run_memory_search_effect _ _)).
Qed.

Lemma name_if_none {A} (module : option A) name other :
  name ∈ name_if module other -> module <> None /\ name = other.
Proof. destruct module; simpl; set_solver. Qed.

Lemma not_available_memory_search :
  cart_memory_search imports = None ->
  "memory_search"%string ∉ available_stages imports.
Proof.
  intros H Hin. unfold available_stages in Hin.
  repeat (apply elem_of_union in Hin as [Hin | Hin]);
    apply name_if_none in Hin as [Hm Hn]; congruence.
Qed.

Lemma not_available_signal_generator :
  cart_signal_generator imports = None ->
  "signal_generator"%string ∉ available_stages imports.
Proof.
  intros H Hin. unfold available_stages in Hin.
  repeat (apply elem_of_union in Hin as [Hin | Hin]);
    apply name_if_none in Hin as [Hm Hn]; congruence.
Qed.

Lemma not_available_robotic_builder :
  cart_robotic_builder imports = None ->
  "robotic_builder"%string ∉ available_stages imports.
Proof.
  intros H Hin. unfold available_stages in Hin.
  repeat (apply elem_of_union in Hin as [Hin | Hin]);
    apply name_if_none in Hin as [Hm Hn]; congruence.
Qed.

Lemma not_available_location_tracker :
  cart_location_tracker imports = None ->
  "location_tracker"%string ∉ available_stages imports.
Proof.
  intros H Hin. unfold available_stages in Hin.
  repeat (apply elem_of_union in Hin as [Hin | Hin]);
    apply name_if_none in Hin as [Hm Hn]; congruence.
Qed.

(** After [run_all_carts] on a reachable runner the carts map holds
    exactly the stages whose module is bound, all with status
    [completed]. *)
Lemma run_all_carts_outcome rt query token_hash token_value self :
  reachable imports self ->
  let self' :=
    snd (run_all_carts rt imports query token_hash token_value self) in
  all_completed (carts (results self'))
  /\ dom (carts (results self')) = available_stages imports
  /\ size (carts (results self')) = available_modules imports
  /\ count_completed (carts (results self')) = available_modules imports.
Proof.
  intros Hreach self'.
  destruct (reachable_invariant self Hreach) as [Hall Hdom].
  assert (Hall' : all_completed (carts (results self')))
    by now apply run_all_carts_completed.
  assert (Hdom' : dom (carts (results self')) = available_stages imports).
  { unfold self'. rewrite run_all_carts_dom. set_solver. }
  assert (Hsize : size (carts (results self')) = available_modules imports).
  { rewrite <- size_dom, Hdom'. apply size_available_stages. }
  repeat split; try assumption.
  now rewrite count_completed_all.
Qed.

(** C5, as the code has it.  A stage whose module is unavailable returns
    [{'error': 'Module not available'}] to its caller and leaves the runner
    as it was: nothing is recorded in the carts map.  The run goes on with
    the other stages, so that after [run_all_carts] the carts map holds an
    entry for exactly the stages whose module is available; [total_carts]
    is the number of those stages, and [completed] is the number of entries
    with status [completed]. *)
Theorem unavailable_stage_is_skipped rt query token_hash token_value self :
  reachable imports self ->
  let self' :=
    snd (run_all_carts rt imports query token_hash token_value self) in
  (cart_memory_search imports = None ->
     forall q st, run_memory_search imports q st
                  = (ModuleError "Module not available", st))
  /\ (cart_signal_generator imports = None ->
       forall th tv st, run_signal_generator imports th tv st
                        = (ModuleError "Module not available", st))
  /\ (cart_robotic_builder imports = None ->
       forall th tv st, run_robotic_builder imports th tv st
                        = (ModuleError "Module not available", st))
  /\ (cart_location_tracker imports = None ->
       forall dm st, run_location_tracker imports dm st
                     = (ModuleError "Module not available", st))
  /\ dom (carts (results self')) = available_stages imports
  /\ exists s,
       summary (results self') = Some s
       /\ total_carts s = available_modules imports
       /\ completed s
          = size (filter (fun kv => status kv.2 = "completed"%string)
                         (carts (results self'))).
Proof.
  intros Hreach self'.
  destruct (run_all_carts_outcome rt query token_hash token_value self Hreach)
    as (Hall & Hdom & Hsize & Hcount).
  destruct (run_all_carts_summary rt query token_hash token_value self)
    as (Hsum & _ & _).
  fold self' in Hall, Hdom, Hsize, Hcount, Hsum.
  split; [intros H q st; now apply unavailable_memory_search|].
  split; [intros H th tv st; now apply unavailable_signal_generator|].
  split; [intros H th tv st; now apply unavailable_robotic_builder|].
  split; [intros H dm st; now apply unavailable_location_tracker|].
  split; [exact Hdom|].
  eexists. split; [exact Hsum|]. cbn [total_carts completed].
  split; [exact Hsize|].
  rewrite map_filter_id; [now rewrite Hcount, Hsize|].
  intros i x Hix. exact (Hall i x Hix).
Qed.

(** C9.  After every [run_all_carts] run, every entry of the carts map
    has status [completed], so the summary has [completed = total_carts];
    a stage whose module failed to import has no entry in the carts map:
    its error result is returned to the caller and recorded nowhere. *)
Theorem carts_hold_only_completed_entries
    rt query token_hash token_value self :
  reachable imports self ->
  let run := run_all_carts rt imports query token_hash token_value self in
  let self' := snd run in
  fst run = results self'
  /\ all_completed (carts (results self'))
  /\ (exists s,
        summary (results self') = Some s
        /\ total_carts s = size (carts (results self'))
        /\ completed s = total_carts s)
  /\ (cart_memory_search imports = None ->
       carts (results self') !! "memory_search"%string = None
       /\ forall q st, run_memory_search imports q st
                       = (ModuleError "Module not available", st))
  /\ (cart_signal_generator imports = None ->
       carts (results self') !! "signal_generator"%string = None
       /\ forall th tv st, run_signal_generator imports th tv st
                           = (ModuleError "Module not available", st))
  /\ (cart_robotic_builder imports = None ->
       carts (results self') !! "robotic_builder"%string = None
       /\ forall th tv st, run_robotic_builder imports th tv st
                           = (ModuleError "Module not available", st))
  /\ (cart_location_tracker imports = None ->
       carts (results self') !! "location_tracker"%string = None
       /\ forall dm st, run_location_tracker imports dm st
                        = (ModuleError "Module not available", st)).
Proof.
  intros Hreach. cbv zeta.
  destruct (run_all_carts_outcome rt query token_hash token_value self Hreach)
    as (Hall & Hdom & Hsize & Hcount).
  destruct (run_all_carts_summary rt query token_hash token_value self)
    as (Hsum & Hfst & _).
  cbv zeta in Hall, Hdom, Hsize, Hcount, Hsum, Hfst.
  split; [exact Hfst|]. split; [exact Hall|].
  split.
  { eexists. split; [exact Hsum|]. cbn [total_carts completed].
    split; [reflexivity | now rewrite Hcount, Hsize]. }
  split; [|split; [|split]]; intros H; (split; [apply not_elem_of_dom|]).
  - rewrite Hdom. now apply not_available_memory_search.
  - intros q st. now apply unavailable_memory_search.
  - rewrite Hdom. now apply not_available_signal_generator.
  - intros th tv st. now apply unavailable_signal_generator.
  - rewrite Hdom. now apply not_available_robotic_builder.
  - intros th tv st. now apply unavailable_robotic_builder.
  - rewrite Hdom. now apply not_available_location_tracker.
  - intros dm st. now apply unavailable_location_tracker.
Qed.

(** *** The run message *)

Lemma signal_entry_after_run m rt query token_hash token_value self :
  cart_signal_generator imports = Some m ->
  carts (results
           (snd (run_all_carts rt imports query token_hash token_value self)))
    !! "signal_generator"%string
  = Some {| status := "completed";
            results_of :=
              SignalResults
                (generate_quantum_tuned_signal m
                   (default_token_hash token_hash)
                   (default_token_value token_value)) |}.
Proof.
  intros Hm. rewrite run_all_carts_unfold.
  cbn [snd set_summary results carts].
  rewrite (stage_effect_other _ _ _ _ _ (run_location_tracker_effect _ _))
    by discriminate.
  rewrite (stage_effect_other _ _ _ _ _ (run_robotic_builder_effect _ _ _))
    by discriminate.
  unfold run_signal_generator. rewrite Hm. simpl.
  apply lookup_insert_eq.
Qed.



End Runner.

(** *** Sample runs *)

Section RunnerSamples.

Import cart_runner.
Import Spec.

Lemma unavailable_stage_is_skipped_witness :
  reachable Samples.imports_failed (init Samples.runtime_a)
  /\ cart_memory_search Samples.imports_failed = None
  /\ run_memory_search Samples.imports_failed None (init Samples.runtime_a)
     = (ModuleError "Module not available", init Samples.runtime_a).
Proof.
  assert (Hreach : reachable Samples.imports_failed (init Samples.runtime_a))
    by constructor.
  assert (Hnone : cart_memory_search Samples.imports_failed = None)
    by reflexivity.
  split; [exact Hreach|]. split; [exact Hnone|].
  destruct (unavailable_stage_is_skipped
              Samples.imports_failed Samples.runtime_a None None None
              (init Samples.runtime_a) Hreach)
    as (Hms & _).
  exact (Hms Hnone None (init Samples.runtime_a)).
Defined.


Lemma carts_hold_only_completed_entries_witness :
  let self' :=
    snd (run_all_carts Samples.runtime_a Samples.imports_failed
                       None None None (init Samples.runtime_a)) in
  reachable Samples.imports_failed (init Samples.runtime_a)
  /\ cart_memory_search Samples.imports_failed = None
  /\ all_completed (carts (results self'))
  /\ carts (results self') !! "memory_search"%string = None.
Proof.
  intros self'.
  assert (Hreach : reachable Samples.imports_failed (init Samples.runtime_a))
    by constructor.
  assert (Hnone : cart_memory_search Samples.imports_failed = None)
    by reflexivity.
  destruct (carts_hold_only_completed_entries
              Samples.imports_failed Samples.runtime_a None None None
              (init Samples.runtime_a) Hreach)
    as (_ & Hall & _ & Hms & _).
  split; [exact Hreach|]. split; [exact Hnone|]. split; [exact Hall|].
  exact (proj1 (Hms Hnone)).
Defined.

(** C5 as stated fails: when the import block has failed, the run records
    no [{'error': ...}] entry for the memory search (nor for any other
    stage), and the summary counts 0 stages, not 4. *)
Lemma failed_import_records_nothing :
  let self' :=
    snd (run_all_carts Samples.runtime_a Samples.imports_failed
                       None None None (init Samples.runtime_a)) in
  cart_memory_search Samples.imports_failed = None
  /\ fst (run_memory_search Samples.imports_failed None
                            (init Samples.runtime_a))
     = ModuleError "Module not available"
  /\ carts (results self') !! "memory_search"%string = None
  /\ carts (results self') = ∅
  /\ total_carts <$> summary (results self') = Some 0%nat
  /\ total_carts <$> summary (results self') <> Some 4%nat.
Proof.
  intros self'.
  assert (Hcarts : carts (results self') = ∅) by reflexivity.
  assert (Htotal : total_carts <$> summary (results self') = Some 0%nat)
    by reflexivity.
  split; [reflexivity|]. split; [reflexivity|].
  split; [now rewrite Hcarts|]. split; [exact Hcarts|].
  split; [exact Htotal|]. rewrite Htotal. discriminate.
Qed.



End RunnerSamples.

(** ** The frequency mapper and the sweep *)

Section MoreFrequency.
Import cart_signal_generator.
Local Open Scope R_scope.

Lemma frequency_raw v :
  1 <= v ->
  generate_frequency_from_value v
  = Rmin (Rmax (40 * exp (ln v / 10)) 40) 40000.
Proof.
  intros Hv. unfold generate_frequency_from_value.
  destruct (Rle_dec v 0); [lra|].
  rewrite pow10_log10, min_R_Rmin, !max_R_Rmax.
  now rewrite (Rmax_left v 1) by lra.
Qed.

Lemma ln_1e30 : ln (10 ^ 30) = 10 * ln 1000.
Proof.
  replace (10 ^ 30) with (1000 ^ 10) by lra.
  rewrite ln_pow by lra. simpl INR. lra.
Qed.

Lemma exp_times n x : exp x ^ n = exp (INR n * x).
Proof.
  induction n as [|n IH].
  - simpl. now rewrite Rmult_0_l, exp_0.
  - rewrite S_INR, <- tech_pow_Rmult, IH, <- exp_plus. f_equal. lra.
Qed.

Lemma exp_tenth_pow x : exp (x / 10) ^ 10 = exp x.
Proof. rewrite exp_times. f_equal. simpl INR. lra. Qed.

(** X1.  The frequency of a value is 40 Hz times the tenth root of the
    value, clamped: every value up to 1 gives the floor of 40 Hz, a value
    between 1 and 1e30 gives 40 * value^(1/10) (so that (frequency/40)^10
    gives the value back), and every value from 1e30 on gives the cap of
    40000 Hz. *)
Theorem frequency_is_clamped_tenth_root v :
  (v <= 1 -> generate_frequency_from_value v = 40)
  /\ (1 <= v <= 10 ^ 30 ->
        generate_frequency_from_value v = 40 * exp (ln v / 10)
        /\ (generate_frequency_from_value v / 40) ^ 10 = v)
  /\ (10 ^ 30 <= v -> generate_frequency_from_value v = 40000).
Proof.
  assert (H1000 : exp (ln 1000) = 1000) by (apply exp_ln; lra).
  split; [|split].
  - intros Hv. unfold generate_frequency_from_value.
    destruct (Rle_dec v 0); [reflexivity|].
    rewrite pow10_log10, min_R_Rmin, !max_R_Rmax.
    rewrite (Rmax_right v 1) by lra. rewrite ln_1.
    replace (0 / 10) with 0 by lra. rewrite exp_0.
    rewrite Rmax_left, Rmin_left by lra. lra.
  - intros [Hlo Hhi].
    assert (Hln : 0 <= ln v <= 10 * ln 1000).
    { split; [rewrite <- ln_1; apply ln_le_mono; lra|].
      rewrite <- ln_1e30. apply ln_le_mono; lra. }
    assert (Hexp : 1 <= exp (ln v / 10) <= 1000).
    { split; [rewrite <- exp_0; apply exp_le_mono; lra|].
      rewrite <- H1000. apply exp_le_mono. lra. }
    assert (Heq : generate_frequency_from_value v = 40 * exp (ln v / 10)).
    { rewrite frequency_raw by exact Hlo.
      rewrite Rmax_left, Rmin_left by lra. reflexivity. }
    split; [exact Heq|]. rewrite Heq.
    replace (40 * exp (ln v / 10) / 40) with (exp (ln v / 10)) by lra.
    rewrite exp_tenth_pow. apply exp_ln. lra.
  - intros Hv.
    assert (Hpos : 0 < 10 ^ 30) by lra.
    assert (Hln : 10 * ln 1000 <= ln v).
    { rewrite <- ln_1e30. apply ln_le_mono; lra. }
    assert (Hexp : 1000 <= exp (ln v / 10)).
    { rewrite <- H1000. apply exp_le_mono. lra. }
    rewrite frequency_raw by lra.
    rewrite Rmax_left, Rmin_right by lra. reflexivity.
Qed.
End MoreFrequency.

Section Sweeps.
Import cart_signal_generator.
Import Notions.

Lemma fold_left_snoc {A B} (f : A -> B) (l : list A) : forall acc,
  fold_left (fun out a => out ++ [f a]) l acc = acc ++ map f l.
Proof.
  induction l as [|a l IH]; intros acc; simpl.
  - now rewrite app_nil_r.
  - rewrite IH, <- app_assoc. reflexivity.
Qed.

Lemma sweep_frequencies rt start_value end_value steps :
  frequencies (generate_biotuner_sweep rt start_value end_value steps)
  = map (sweep_entry start_value end_value (sweep_length steps))
        (seqZ 0 (sweep_length steps)).
Proof.
  unfold generate_biotuner_sweep, sweep_length. cbn [frequencies].
  rewrite fold_left_snoc. unfold Py.range. rewrite Z.sub_0_r. reflexivity.
Qed.

Lemma sweep_length_ge_2 steps : (2 <= sweep_length steps)%Z.
Proof. unfold sweep_length. destruct (Z.leb_spec steps 1); lia. Qed.

Lemma sweep_lookup rt start_value end_value steps (k : nat) entry :
  frequencies (generate_biotuner_sweep rt start_value end_value steps) !! k
  = Some entry ->
  (Z.of_nat k < sweep_length steps)%Z
  /\ entry = sweep_entry start_value end_value (sweep_length steps) (Z.of_nat k).
Proof.
  rewrite sweep_frequencies, list_lookup_fmap.
  destruct (seqZ 0 (sweep_length steps) !! k) as [i|] eqn:Hi; [|discriminate].
  apply lookup_seqZ in Hi as [-> Hk]. simpl. intros [= <-]. now split.
Qed.

(** X2.  [generate_biotuner_sweep] records the caller's [steps] but runs
    at least two steps: it yields [max(steps, 2)] entries (two when [steps]
    is 1, 0 or negative), entry [k] holding step [k], the value
    [start + (end - start) * k / (n - 1)] and the frequency of that value,
    which lies in [40, 40000]; the first entry is at [start_value] and the
    last at [end_value]. *)
Theorem sweep_covers_the_range rt start_value end_value steps :
  let sweep := generate_biotuner_sweep rt start_value end_value steps in
  let n := if (steps <=? 1)%Z then 2%Z else steps in
  cart_signal_generator.steps sweep = steps
  /\ length (frequencies sweep) = Z.to_nat n
  /\ (forall (k : nat) entry,
        frequencies sweep !! k = Some entry ->
        step entry = Z.of_nat k
        /\ step_value entry
           = (start_value
              + (end_value - start_value) * inject_Z (Z.of_nat k)
                / inject_Z (n - 1))%Q
        /\ step_frequency entry
           = generate_frequency_from_value (Q2R (step_value entry))
        /\ (40 <= step_frequency entry <= 40000)%R)
  /\ (exists first,
        frequencies sweep !! 0%nat = Some first
        /\ (step_value first == start_value)%Q)
  /\ (exists last,
        frequencies sweep !! (Z.to_nat n - 1)%nat = Some last
        /\ (step_value last == end_value)%Q).
Proof.
  intros sweep n. fold (sweep_length steps) in n.
  pose proof (sweep_length_ge_2 steps) as Hn. fold n in Hn.
  split; [reflexivity|].
  split.
  { unfold sweep. now rewrite sweep_frequencies, length_map, length_seqZ. }
  split.
  { intros k entry Hk. apply sweep_lookup in Hk as [_ ->].
    repeat split; try reflexivity; apply frequency_in_range. }
  split.
  - exists (sweep_entry start_value end_value n 0). split.
    + unfold sweep. rewrite sweep_frequencies, list_lookup_fmap.
      fold n. rewrite (lookup_seqZ_lt 0 n 0) by lia. reflexivity.
    + simpl. field. intros H. unfold Qeq in H. simpl in H. lia.
  - exists (sweep_entry start_value end_value n (n - 1)). split.
    + unfold sweep. rewrite sweep_frequencies, list_lookup_fmap.
      fold n. rewrite (lookup_seqZ_lt 0 n) by lia. simpl.
      do 2 f_equal. lia.
    + simpl. field. intros H. unfold Qeq in H. simpl in H. lia.
Qed.

Lemma Q2R_inject_Z z : Q2R (inject_Z z) = IZR z.
Proof. unfold Q2R, inject_Z. simpl. lra. Qed.

Lemma sweep_value_R start_value end_value n i :
  (2 <= n)%Z ->
  Q2R (step_value (sweep_entry start_value end_value n i))
  = (Q2R start_value
     + (Q2R end_value - Q2R start_value) * IZR i / IZR (n - 1))%R.
Proof.
  intros Hn. simpl.
  rewrite Q2R_plus, Q2R_div, Q2R_mult, Q2R_minus, !Q2R_inject_Z;
    [reflexivity|].
  intros H. unfold Qeq in H. simpl in H. lia.
Qed.

(** X3.  In a sweep from [start_value >= 1] up to [end_value], the values
    and the frequencies never decrease from one entry to a later one. *)
Theorem ascending_sweep_is_monotone rt start_value end_value steps :
  (1 <= start_value)%Q -> (start_value <= end_value)%Q ->
  forall (i j : nat) a b,
    frequencies (generate_biotuner_sweep rt start_value end_value steps) !! i
    = Some a ->
    frequencies (generate_biotuner_sweep rt start_value end_value steps) !! j
    = Some b ->
    (i <= j)%nat ->
    (step_value a <= step_value b)%Q
    /\ (step_frequency a <= step_frequency b)%R.
Proof.
  intros Hstart Hle i j a b Ha Hb Hij.
  apply sweep_lookup in Ha as [Hi ->]. apply sweep_lookup in Hb as [Hj ->].
  pose proof (sweep_length_ge_2 steps) as Hn.
  set (n := sweep_length steps) in *.
  assert (H1 : (1 <= Q2R start_value)%R).
  { apply Qle_Rle in Hstart. unfold Q2R in Hstart at 1. simpl in Hstart. lra. }
  assert (H2 : (Q2R start_value <= Q2R end_value)%R) by now apply Qle_Rle.
  assert (Hm : (0 < IZR (n - 1))%R) by (apply IZR_lt; lia).
  assert (Hi0 : (0 <= IZR (Z.of_nat i))%R) by (apply IZR_le; lia).
  assert (Hij' : (IZR (Z.of_nat i) <= IZR (Z.of_nat j))%R)
    by (apply IZR_le; lia).
  assert (Hfrac : forall x y : R, (0 <= x <= y)%R ->
            (0 <= (Q2R end_value - Q2R start_value) * x / IZR (n - 1)
             <= (Q2R end_value - Q2R start_value) * y / IZR (n - 1))%R).
  { intros x y [Hx Hxy]. unfold Rdiv. split.
    - apply Rmult_le_pos; [apply Rmult_le_pos; lra|].
      left. now apply Rinv_0_lt_compat.
    - apply Rmult_le_compat_r; [left; now apply Rinv_0_lt_compat|].
      apply Rmult_le_compat_l; lra. }
  pose proof (Hfrac _ _ (conj Hi0 Hij')) as [Hf0 Hf1].
  assert (Hvals :
    (1 <= Q2R (step_value (sweep_entry start_value end_value n (Z.of_nat i)))
     <= Q2R (step_value (sweep_entry start_value end_value n (Z.of_nat j))))%R).
  { rewrite !sweep_value_R by exact Hn. lra. }
  split; [apply Rle_Qle; lra|].
  cbn [step_frequency sweep_entry]. now apply frequency_monotone.
Qed.
End Sweeps.

(** ** Composite and pattern signals *)

Section Extremes.
Local Open Scope R_scope.

Lemma min_list_R_spec rest : forall x,
  Py.min_list_R x rest <= x
  /\ Forall (fun y => Py.min_list_R x rest <= y) rest
  /\ In (Py.min_list_R x rest) (x :: rest).
Proof.
  unfold Py.min_list_R.
  induction rest as [|y rest IH]; intros x; simpl.
  - split; [lra|]. split; [constructor | now left].
  - destruct (Rlt_dec y x) as [Hlt | Hge].
    + destruct (IH y) as (H1 & H2 & H3).
      split; [lra|]. split; [constructor; assumption|].
      destruct H3 as [<- | H3]; [right; now left | right; now right].
    + destruct (IH x) as (H1 & H2 & H3).
      split; [exact H1|]. split; [constructor; [lra | exact H2]|].
      destruct H3 as [<- | H3]; [now left | right; now right].
Qed.

Lemma max_list_R_spec rest : forall x,
  x <= Py.max_list_R x rest
  /\ Forall (fun y => y <= Py.max_list_R x rest) rest
  /\ In (Py.max_list_R x rest) (x :: rest).
Proof.
  unfold Py.max_list_R.
  induction rest as [|y rest IH]; intros x; simpl.
  - split; [lra|]. split; [constructor | now left].
  - destruct (Rlt_dec x y) as [Hlt | Hge].
    + destruct (IH y) as (H1 & H2 & H3).
      split; [lra|]. split; [constructor; assumption|].
      destruct H3 as [<- | H3]; [right; now left | right; now right].
    + destruct (IH x) as (H1 & H2 & H3).
      split; [exact H1|]. split; [constructor; [lra | exact H2]|].
      destruct H3 as [<- | H3]; [now left | right; now right].
Qed.

Lemma extremes_bound x rest :
  Forall (fun y => Py.min_list_R x rest <= y <= Py.max_list_R x rest)
         (x :: rest).
Proof.
  destruct (min_list_R_spec rest x) as (Hm1 & Hm2 & _).
  destruct (max_list_R_spec rest x) as (HM1 & HM2 & _).
  constructor; [lra|].
  rewrite Forall_forall in *. intros y Hy. split; auto.
Qed.
End Extremes.

Section Composite.
Import cart_signal_generator.
Local Open Scope R_scope.

(** X4.  [generate_composite_signal] returns the error dict on an empty
    list; on a non-empty list it keeps the signals as components and counts
    them, and its [frequency_range] holds the smallest and the largest
    base frequency among them (a signal without one counting for 440):
    both are attained by a signal, every signal lies between them, and
    the first is at most the second.  The average is the float mean of
    the base frequencies, of which nothing more is said. *)
Theorem composite_range_holds_the_extremes rt fl :
  generate_composite_signal rt fl [] = CompositeError "No signals provided"
  /\ forall signals : list AnySignal,
       signals <> [] ->
       exists c,
         generate_composite_signal rt fl signals = CompositeSignal c
         /\ component_count c = length signals
         /\ components c = signals
         /\ average_frequency c
            = Py.mean fl (map get_base_frequency signals)
         /\ fst (frequency_range c) <= snd (frequency_range c)
         /\ (forall s, In s signals ->
               fst (frequency_range c) <= get_base_frequency s
               <= snd (frequency_range c))
         /\ (exists s, In s signals
               /\ get_base_frequency s = fst (frequency_range c))
         /\ (exists s, In s signals
               /\ get_base_frequency s = snd (frequency_range c)).
Proof.
  split; [reflexivity|].
  intros [|first others] Hne; [contradiction|].
  eexists. split; [reflexivity|]. cbn [component_count components
    frequency_range average_frequency fst snd].
  set (f := get_base_frequency first).
  set (fs := map get_base_frequency others).
  pose proof (extremes_bound f fs) as Hall.
  split; [reflexivity|]. split; [reflexivity|]. split; [reflexivity|].
  split; [inversion Hall; lra|].
  split.
  { intros s Hs. apply (proj1 (List.Forall_forall _ _) Hall).
    change (f :: fs) with (map get_base_frequency (first :: others)).
    now apply in_map. }
  split.
  - destruct (min_list_R_spec fs f) as (_ & _ & Hin).
    change (f :: fs) with (map get_base_frequency (first :: others)) in Hin.
    apply in_map_iff in Hin as (s & Hs & Hin). eauto.
  - destruct (max_list_R_spec fs f) as (_ & _ & Hin).
    change (f :: fs) with (map get_base_frequency (first :: others)) in Hin.
    apply in_map_iff in Hin as (s & Hs & Hin). eauto.
Qed.
End Composite.

Section Words.

Lemma length_string_of_list_ascii l :
  String.length (string_of_list_ascii l) = length l.
Proof. induction l; simpl; congruence. Qed.

Lemma length_list_ascii_of_string s :
  length (list_ascii_of_string s) = String.length s.
Proof. induction s; simpl; congruence. Qed.

Lemma length_lower s : String.length (Py.lower s) = String.length s.
Proof. induction s; simpl; congruence. Qed.

(** The words of [s.split()] are non-empty and together no longer than
    the text. *)
Lemma length_flushed (a : ascii) (word : list ascii) :
  String.length (string_of_list_ascii (rev (a :: word))) = S (length word).
Proof.
  rewrite length_string_of_list_ascii, length_rev. reflexivity.
Qed.

Lemma split_words_spec s : forall word,
  Forall (fun w => (1 <= String.length w)%nat) (Py.split_words word s)
  /\ (list_sum (map String.length (Py.split_words word s))
      <= length word + String.length s)%nat.
Proof.
  induction s as [|c s IH]; intros word.
  - cbn [Py.split_words]. destruct word as [|a word].
    + split; [constructor | simpl; lia].
    + split.
      * constructor; [rewrite length_flushed; lia | constructor].
      * cbn [map list_sum]. rewrite length_flushed. simpl. lia.
  - cbn [Py.split_words]. destruct (Py.isspace c).
    + destruct (IH []) as [H1 H2]. simpl in H2.
      destruct word as [|a word].
      * split; [exact H1 | simpl; lia].
      * split.
        -- constructor; [rewrite length_flushed; lia | exact H1].
        -- cbn [map list_sum]. rewrite length_flushed. simpl. lia.
    + destruct (IH (c :: word)) as [H1 H2]. simpl in H2.
      split; [exact H1 | simpl; lia].
Qed.

Lemma count_le_sum (l : list nat) :
  Forall (fun n => (1 <= n)%nat) l -> (length l <= list_sum l)%nat.
Proof. induction 1; simpl; lia. Qed.

Lemma split_count_le s : (length (Py.split s) <= String.length s)%nat.
Proof.
  destruct (split_words_spec s []) as [H1 H2]. simpl in H2.
  etransitivity; [|exact H2].
  rewrite <- (length_map String.length). apply count_le_sum.
  now apply Forall_map.
Qed.
End Words.

Section PatternSignals.
Import cart_signal_generator.

Lemma ratio_bounds (a b : nat) :
  (a <= b)%nat -> (1 <= b)%nat ->
  (0 <= inject_Z (Z.of_nat a) / inject_Z (Z.of_nat b) <= 1)%Q.
Proof.
  intros Hab Hb.
  assert (Hpos : (0 < inject_Z (Z.of_nat b))%Q)
    by (unfold Qlt, inject_Z; simpl; lia).
  split.
  - apply Qle_shift_div_l; [exact Hpos|].
    unfold Qle, inject_Z; simpl; lia.
  - apply Qle_shift_div_r; [exact Hpos|].
    unfold Qle, inject_Z; simpl; lia.
Qed.

(** X5.  For every text, [generate_signal_from_memory_pattern] reports
    the text's length as [char_count], at most as many words as characters,
    a modulation pattern with the lengths of the first ten words (each
    between 1 and the length of the text), a rate and a vowel density in
    [0, 1], and a base frequency in [40, 40000]; on the empty text there are
    no words, the pattern is empty and the frequency is the 40 Hz floor, the
    division by [max(char_count, 1)] being defined. *)
Theorem pattern_signal_is_bounded rt pattern_text :
  let sig := generate_signal_from_memory_pattern rt pattern_text in
  let c := characteristics sig in
  let m := modulation sig in
  char_count c = String.length pattern_text
  /\ (word_count c <= char_count c)%nat
  /\ length (modulation_pattern m) = Nat.min 10 (word_count c)
  /\ Forall (fun n => (1 <= n <= char_count c)%nat) (modulation_pattern m)
  /\ (0 <= rate m <= 1)%Q
  /\ (0 <= vowel_density c <= 1)%Q
  /\ (40 <= pattern_base_frequency sig <= 40000)%R
  /\ (pattern_text = ""%string ->
        word_count c = 0%nat /\ modulation_pattern m = []
        /\ pattern_base_frequency sig = 40%R).
Proof.
  intros sig c m. subst sig c m.
  unfold generate_signal_from_memory_pattern.
  cbn [characteristics modulation char_count word_count modulation_pattern
       rate vowel_density pattern_base_frequency].
  pose proof (split_count_le pattern_text) as Hwords.
  destruct (split_words_spec pattern_text []) as [Hne Hsum].
  fold (Py.split pattern_text) in Hne, Hsum. simpl in Hsum.
  split; [reflexivity|]. split; [exact Hwords|].
  split; [rewrite length_map, length_take; lia|].
  split.
  { apply Forall_map, Forall_take.
    rewrite List.Forall_forall in *. intros w Hw. split; [now apply Hne|].
    etransitivity; [|exact Hsum].
    clear -Hw. induction (Py.split pattern_text) as [|x l IH];
      [contradiction|].
    simpl. destruct Hw as [-> | Hw]; [lia | specialize (IH Hw); lia]. }
  split.
  { rewrite length_map, length_take.
    replace 10%Q with (inject_Z (Z.of_nat 10)) by reflexivity.
    apply ratio_bounds; lia. }
  split.
  { apply ratio_bounds; [|lia].
    rewrite sum_nat_ones.
    etransitivity; [apply List.filter_length_le|].
    rewrite length_list_ascii_of_string, length_lower. lia. }
  split; [apply frequency_in_range|].
  intros ->. split; [reflexivity|]. split; [reflexivity|].
  apply frequency_nonpositive. simpl. lra.
Qed.
End PatternSignals.

(** ** Gestures *)

Section Gestures.
Import cart_location_tracker.
Import Notions.
Local Open Scope R_scope.

Lemma sqrt_squares_nonneg a b : 0 <= sqrt (a ^ 2 + b ^ 2).
Proof. apply sqrt_pos. Qed.

(** X6.  For all coordinates and every duration, also zero or negative,
    [track_slide_event] builds an event with a non-negative distance, a
    velocity between 0 and 100 times the distance (the duration is floored
    at 0.01) and a token value between 10 and 210; a slide that does not
    move is worth exactly 10. *)
Theorem slide_event_value_always_in_range
    rt start_x start_y end_x end_y duration user :
  let e := track_slide_event rt start_x start_y end_x end_y duration user in
  exists distance velocity value,
    details e = SlideDetails start_x start_y end_x end_y
                             distance duration velocity
    /\ token_value e = Some value
    /\ 0 <= distance
    /\ 0 <= velocity <= 100 * distance
    /\ 10 <= value <= 210
    /\ (start_x = end_x -> start_y = end_y -> value = 10).
Proof.
  intros e. eexists _, _, _. split; [reflexivity|]. split; [reflexivity|].
  set (distance := sqrt ((end_x - start_x) ^ 2 + (end_y - start_y) ^ 2)).
  assert (Hd : 0 <= distance) by apply sqrt_pos.
  assert (Hm : 1 / 100 <= Py.max_R duration (1 / 100)).
  { unfold Py.max_R. destruct (Rlt_dec duration (1 / 100)); lra. }
  assert (Hv : 0 <= distance / Py.max_R duration (1 / 100) <= 100 * distance).
  { split; [now apply velocity_nonneg|].
    unfold Rdiv. rewrite (Rmult_comm 100).
    apply Rmult_le_compat_l; [exact Hd|].
    apply Rmult_le_reg_r with (Py.max_R duration (1 / 100)); [lra|].
    rewrite Rinv_l by lra. lra. }
  split; [exact Hd|]. split; [exact Hv|].
  split; [apply slide_value_bounds; [exact Hd | apply Hv]|].
  intros -> ->. subst distance.
  replace ((end_x - end_x) ^ 2 + (end_y - end_y) ^ 2) with 0 by lra.
  rewrite sqrt_0. unfold calculate_slide_value, Py.min_R.
  replace (0 / Py.max_R duration (1 / 100) / 100) with 0
    by (unfold Rdiv; lra).
  replace (0 / 100) with 0 by lra.
  destruct (Rlt_dec 10 0); lra.
Qed.
End Gestures.

Section Analysis.
Import cart_location_tracker.
Import Notions.
Local Open Scope R_scope.

Variable fl : Py.FloatOps.

Lemma comprehension_inl {A} (f : A -> string + R) l key :
  comprehension f l = inl key -> exists a, In a l /\ f a = inl key.
Proof.
  induction l as [|a l IH]; simpl; [discriminate|].
  destruct (f a) as [k|x] eqn:Hfa.
  - intros [= <-]. exists a. auto.
  - destruct (comprehension f l) as [k|xs]; [|discriminate].
    intros [= <-]. destruct (IH eq_refl) as (b & Hb & Hfb). eauto.
Qed.

Lemma comprehension_inr {A} (f : A -> string + R) l xs :
  comprehension f l = inr xs -> Forall2 (fun a x => f a = inr x) l xs.
Proof.
  revert xs. induction l as [|a l IH]; simpl; intros xs.
  - intros [= <-]. constructor.
  - destruct (f a) as [k|x] eqn:Hfa; [discriminate|].
    destruct (comprehension f l) as [k|ys]; [discriminate|].
    intros [= <-]. constructor; auto.
Qed.

Lemma Forall2_in_l {A B} (P : A -> B -> Prop) l xs a :
  Forall2 P l xs -> In a l -> exists x, In x xs /\ P a x.
Proof.
  induction 1 as [|b y l ys Hby _ IH]; intros Hin; [contradiction|].
  destruct Hin as [-> | Hin]; [exists y; split; [now left | exact Hby]|].
  destruct (IH Hin) as (x & Hx & HP). exists x. split; [now right | exact HP].
Qed.

Lemma comprehension_total {A} (f : A -> string + R) l :
  (forall a, In a l -> exists x, f a = inr x) ->
  exists xs, comprehension f l = inr xs.
Proof.
  induction l as [|a l IH]; intros H; simpl; [eauto|].
  destruct (H a (or_introl eq_refl)) as [x ->].
  destruct IH as [xs ->]; [intros b Hb; apply H; now right|]. eauto.
Qed.

Lemma in_filter_type kind e events :
  In e (List.filter (type_is kind) events)
  <-> In e events /\ type e = Some kind.
Proof.
  rewrite List.filter_In. unfold type_is.
  now rewrite bool_decide_eq_true.
Qed.

Lemma coordinate_x_tap e :
  (exists x, coordinate_x e = inr x)
  <-> exists x y force, details e = TapDetails x y force.
Proof.
  unfold coordinate_x. destruct (details e); split;
    intros H; try (destruct H as [? H]; discriminate H);
    try (destruct H as (? & ? & ? & H); discriminate H); eauto.
Qed.

Lemma coordinate_y_tap e :
  (exists y, coordinate_y e = inr y)
  <-> exists x y force, details e = TapDetails x y force.
Proof.
  unfold coordinate_y. destruct (details e); split;
    intros H; try (destruct H as [? H]; discriminate H);
    try (destruct H as (? & ? & ? & H); discriminate H); eauto.
Qed.

Lemma slide_velocity_slide e :
  (exists v, slide_velocity e = inr v)
  <-> exists sx sy ex ey d t v, details e = SlideDetails sx sy ex ey d t v.
Proof.
  unfold slide_velocity. destruct (details e); split;
    intros H; try (destruct H as [? H]; discriminate H);
    try (destruct H as (? & ? & ? & ? & ? & ? & ? & H); discriminate H);
    eauto 10.
Qed.

Lemma not_inr_inl (r : string + R) :
  ~ (exists x, r = inr x) <-> exists key, r = inl key.
Proof.
  destruct r as [k|x]; split; intros H.
  - eauto.
  - intros [x Hx]. discriminate.
  - exfalso. apply H. eauto.
  - destruct H as [k Hk]. discriminate.
Qed.

(** When the spatial or the velocity step raises. *)
Lemma analyze_spatial_raises events :
  (exists key, analyze_spatial fl events = inl key)
  <-> exists e, In e events /\ type e = Some "tap"%string
               /\ forall x y force, details e <> TapDetails x y force.
Proof.
  unfold analyze_spatial.
  destruct (List.filter (type_is "tap") events) as [|t ts] eqn:Hf.
  - split; [intros [k Hk]; discriminate|].
    intros (e & He & Ht & _).
    assert (Hin : In e (List.filter (type_is "tap") events))
      by now apply in_filter_type.
    rewrite Hf in Hin. contradiction.
  - rewrite <- Hf. set (taps := List.filter (type_is "tap") events).
    split.
    + intros [key Hkey].
      destruct (comprehension coordinate_x taps) as [k|xs] eqn:Hx.
      * apply comprehension_inl in Hx as (e & He & Hk).
        apply in_filter_type in He as [He Ht].
        exists e. split; [exact He|]. split; [exact Ht|].
        intros x y force Hd.
        assert (Hex : exists x, coordinate_x e = inr x)
          by (apply coordinate_x_tap; eauto).
        destruct Hex as [x' Hx']. congruence.
      * destruct (comprehension coordinate_y taps) as [k|ys] eqn:Hy;
          [|discriminate].
        apply comprehension_inl in Hy as (e & He & Hk).
        apply in_filter_type in He as [He Ht].
        exists e. split; [exact He|]. split; [exact Ht|].
        intros x y force Hd.
        assert (Hex : exists y, coordinate_y e = inr y)
          by (apply coordinate_y_tap; eauto).
        destruct Hex as [y' Hy']. congruence.
    + intros (e & He & Ht & Hd).
      assert (Hin : In e taps) by now apply in_filter_type.
      destruct (comprehension coordinate_x taps) as [k|xs] eqn:Hx; [eauto|].
      apply comprehension_inr in Hx.
      destruct (Forall2_in_l _ _ _ _ Hx Hin) as (x & _ & Hex).
      assert (Htap : exists x y force, details e = TapDetails x y force)
        by (apply coordinate_x_tap; eauto).
      destruct Htap as (x' & y' & f' & Htap). now apply Hd in Htap.
Qed.

Lemma analyze_velocity_raises events :
  (exists key, analyze_velocity fl events = inl key)
  <-> exists e, In e events /\ type e = Some "slide"%string
               /\ forall sx sy ex ey d t v,
                    details e <> SlideDetails sx sy ex ey d t v.
Proof.
  unfold analyze_velocity.
  destruct (List.filter (type_is "slide") events) as [|s ss] eqn:Hf.
  - split; [intros [k Hk]; discriminate|].
    intros (e & He & Ht & _).
    assert (Hin : In e (List.filter (type_is "slide") events))
      by now apply in_filter_type.
    rewrite Hf in Hin. contradiction.
  - rewrite <- Hf. set (slides := List.filter (type_is "slide") events).
    split.
    + intros [key Hkey].
      destruct (comprehension slide_velocity slides) as [k|vs] eqn:Hv;
        [|discriminate].
      apply comprehension_inl in Hv as (e & He & Hk).
      apply in_filter_type in He as [He Ht].
      exists e. split; [exact He|]. split; [exact Ht|].
      intros sx sy ex ey d t v Hd.
      assert (Hex : exists v, slide_velocity e = inr v)
        by (apply slide_velocity_slide; eauto 10).
      destruct Hex as [v' Hv']. congruence.
    + intros (e & He & Ht & Hd).
      assert (Hin : In e slides) by now apply in_filter_type.
      destruct (comprehension slide_velocity slides) as [k|vs] eqn:Hv;
        [eauto|].
      apply comprehension_inr in Hv.
      destruct (Forall2_in_l _ _ _ _ Hv Hin) as (x & _ & Hex).
      assert (Hsl : exists sx sy ex ey d t v,
                      details e = SlideDetails sx sy ex ey d t v)
        by (apply slide_velocity_slide; eauto).
      destruct Hsl as (sx & sy & ex & ey & d & t & v & Hsl).
      now apply Hd in Hsl.
Qed.

Lemma analysis_outcome rt events :
  events <> [] ->
  ((exists key, analyze_gesture_pattern rt fl events = KeyError key)
   <-> exists e, In e events /\ mistagged e)
  /\ ((exists a, analyze_gesture_pattern rt fl events = Analysed a
                 /\ analysis_event_count a = length events)
      <-> forall e, In e events -> ~ mistagged e)
  /\ exists tok, calculate_movement_token rt events = Movement tok.
Proof.
  intros Hne.
  assert (Hcases :
    (exists key, analyze_gesture_pattern rt fl events = KeyError key)
    \/ (exists a, analyze_gesture_pattern rt fl events = Analysed a
                  /\ analysis_event_count a = length events)).
  { destruct events as [|e0 rest]; [contradiction|].
    unfold analyze_gesture_pattern.
    destruct (analyze_spatial fl (e0 :: rest)); [eauto|].
    destruct (analyze_velocity fl (e0 :: rest)); [eauto|].
    right. eexists. split; reflexivity. }
  assert (Hraise :
    (exists key, analyze_gesture_pattern rt fl events = KeyError key)
    <-> exists e, In e events /\ mistagged e).
  { destruct events as [|e0 rest]; [contradiction|].
    unfold analyze_gesture_pattern, mistagged.
    pose proof (analyze_spatial_raises (e0 :: rest)) as Hs.
    pose proof (analyze_velocity_raises (e0 :: rest)) as Hv.
    destruct (analyze_spatial fl (e0 :: rest)) as [k|sp].
    - split; [|eauto]. intros _.
      destruct (proj1 Hs (ex_intro _ k eq_refl)) as (e & He & Hd).
      exists e. split; [exact He | left; exact Hd].
    - destruct (analyze_velocity fl (e0 :: rest)) as [k|v].
      + split; [|eauto]. intros _.
        destruct (proj1 Hv (ex_intro _ k eq_refl)) as (e & He & Hd).
        exists e. split; [exact He | right; exact Hd].
      + split; [intros [k Hk]; discriminate|].
        intros (e & He & [Hd | Hd]).
        * destruct (proj2 Hs (ex_intro _ e (conj He Hd))) as [k Hk].
          discriminate.
        * destruct (proj2 Hv (ex_intro _ e (conj He Hd))) as [k Hk].
          discriminate. }
  split; [exact Hraise|]. split.
  - split.
    + intros (a & Ha & _) e He Hm.
      destruct (proj2 Hraise (ex_intro _ e (conj He Hm))) as [k Hk].
      congruence.
    + intros Hnone. destruct Hcases as [Hk | Ha]; [|exact Ha].
      apply Hraise in Hk as (e & He & Hm). now apply Hnone in Hm.
  - destruct events as [|e0 rest]; [contradiction|].
    destruct (movement_token_fields rt e0 rest) as (tok & Htok & _). eauto.
Qed.

(** X7.  On a non-empty list [analyze_gesture_pattern] raises [KeyError]
    exactly when some event is tagged [tap] or [slide] without carrying the
    coordinates (resp. the slide record) that the tag promises; otherwise
    it returns an analysis whose [event_count] is the length of the list.
    [calculate_movement_token] accepts every such list. *)
Theorem gesture_analysis_raises_on_mistagged_events rt events :
  events <> [] ->
  ((exists key, analyze_gesture_pattern rt fl events = KeyError key)
   <-> exists e, In e events /\ mistagged e)
  /\ ((exists a, analyze_gesture_pattern rt fl events = Analysed a
                 /\ analysis_event_count a = length events)
      <-> forall e, In e events -> ~ mistagged e)
  /\ exists tok, calculate_movement_token rt events = Movement tok.
Proof. apply analysis_outcome. Qed.

Lemma tracked_not_mistagged e : tracked e -> ~ mistagged e.
Proof.
  intros [rt x y f u | rt sx sy ex ey d u | rt la lo al u] [[Ht Hd] | [Ht Hd]];
    simpl in *; try discriminate.
  - eapply Hd. reflexivity.
  - eapply Hd. reflexivity.
Qed.

(** X8.  Events built by [track_tap_event], [track_slide_event] and
    [track_location_change] are never mistagged, so the analysis of a
    non-empty list of them never raises. *)
Theorem tracked_events_are_always_analysed rt events :
  events <> [] ->
  Forall tracked events ->
  (forall e, In e events -> ~ mistagged e)
  /\ exists a, analyze_gesture_pattern rt fl events = Analysed a
               /\ analysis_event_count a = length events.
Proof.
  intros Hne Hall.
  assert (Hok : forall e, In e events -> ~ mistagged e).
  { intros e He. apply tracked_not_mistagged.
    rewrite List.Forall_forall in Hall. now apply Hall. }
  split; [exact Hok|]. now apply (analysis_outcome rt events Hne).
Qed.
End Analysis.

Section AnalysisBounds.
Import cart_location_tracker.
Import Notions.
Local Open Scope R_scope.

Variable fl : Py.FloatOps.

Lemma Forall2_in_r {A B} (P : A -> B -> Prop) l xs x :
  Forall2 P l xs -> In x xs -> exists a, In a l /\ P a x.
Proof.
  induction 1 as [|b y l ys Hby _ IH]; intros Hin; [contradiction|].
  destruct Hin as [-> | Hin]; [exists b; split; [now left | exact Hby]|].
  destruct (IH Hin) as (a & Ha & HP). exists a. split; [now right | exact HP].
Qed.

(** The extremes of the values a comprehension collected. *)
Lemma collected_bounds {A} (f : A -> string + R) (l : list A) xs :
  l <> [] ->
  comprehension f l = inr xs ->
  let lo := Py.min_list_R (List.hd 0 xs) (List.tl xs) in
  let hi := Py.max_list_R (List.hd 0 xs) (List.tl xs) in
  lo <= hi
  /\ (forall a x, In a l -> f a = inr x -> lo <= x <= hi)
  /\ (exists a, In a l /\ f a = inr lo)
  /\ (exists a, In a l /\ f a = inr hi).
Proof.
  intros Hne Hc lo hi. apply comprehension_inr in Hc.
  pose proof Hc as Hall2.
  destruct Hc as [|a0 x0 l' xs' H0 Hrest]; [contradiction|].
  subst lo hi. cbn [List.hd List.tl].
  pose proof (extremes_bound x0 xs') as Hall.
  split; [inversion Hall; lra|].
  split.
  { intros a x Hin Hfa.
    assert (Hx : In x (x0 :: xs')).
    { destruct Hin as [<- | Hin]; [left; congruence|].
      destruct (Forall2_in_l _ _ _ _ Hrest Hin) as (x' & Hx' & Hfx).
      right. congruence. }
    exact (proj1 (List.Forall_forall _ _) Hall x Hx). }
  split.
  - destruct (min_list_R_spec xs' x0) as (_ & _ & Hin).
    exact (Forall2_in_r _ _ _ _ Hall2 Hin).
  - destruct (max_list_R_spec xs' x0) as (_ & _ & Hin).
    exact (Forall2_in_r _ _ _ _ Hall2 Hin).
Qed.

(** X9.  In an analysis, the spatial part is present exactly when the
    list holds a tap, the velocity part exactly when it holds a slide and
    the temporal part exactly when it holds two events or more.  The
    spread is non-negative.  The smallest and the largest slide velocity
    are each the velocity of a slide of the list, the first is at most
    the second, and every slide's velocity lies between them.  The centre
    and the average velocity are float means, of which nothing is said. *)
Theorem gesture_analysis_statistics rt events a :
  analyze_gesture_pattern rt fl events = Analysed a ->
  (forall sp, spatial a = Some sp -> 0 <= spread sp)
  /\ (forall v, velocity a = Some v ->
        velocity_min v <= velocity_max v
        /\ (forall e sx sy ex ey d t w,
              In e events -> type e = Some "slide"%string ->
              details e = SlideDetails sx sy ex ey d t w ->
              velocity_min v <= w <= velocity_max v)
        /\ (exists e, In e events /\ type e = Some "slide"%string
                      /\ slide_velocity e = inr (velocity_min v))
        /\ (exists e, In e events /\ type e = Some "slide"%string
                      /\ slide_velocity e = inr (velocity_max v)))
  /\ ((exists sp, spatial a = Some sp)
      <-> exists e, In e events /\ type e = Some "tap"%string)
  /\ ((exists v, velocity a = Some v)
      <-> exists e, In e events /\ type e = Some "slide"%string)
  /\ ((exists t, temporal a = Some t) <-> (2 <= length events)%nat).
Proof.
  intros Ha. destruct events as [|e0 rest]; [discriminate|].
  set (events := e0 :: rest) in *.
  unfold analyze_gesture_pattern in Ha. fold events in Ha.
  change (match events with [] => _ | _ :: _ => ?k end) with k in Ha.
  destruct (analyze_spatial fl events) as [k|osp] eqn:Hsp; [discriminate|].
  destruct (analyze_velocity fl events) as [k|ov] eqn:Hv; [discriminate|].
  injection Ha as <-. cbn [spatial velocity temporal].
  split; [|split; [|split; [|split]]].
  - intros sp ->. unfold analyze_spatial in Hsp.
    destruct (List.filter (type_is "tap") events) as [|t ts] eqn:Hf;
      [discriminate|].
    rewrite <- Hf in Hsp. set (taps := List.filter (type_is "tap") events) in *.
    assert (Hne : taps <> []) by (rewrite Hf; discriminate).
    destruct (comprehension coordinate_x taps) as [k|xs] eqn:Hx;
      [discriminate|].
    destruct (comprehension coordinate_y taps) as [k|ys] eqn:Hy;
      [discriminate|].
    injection Hsp as <-. cbn [spread].
    destruct (collected_bounds coordinate_x taps xs Hne Hx) as [Hle _].
    cbv zeta in Hle. lra.
  - intros v ->. unfold analyze_velocity in Hv.
    destruct (List.filter (type_is "slide") events) as [|s ss] eqn:Hf;
      [discriminate|].
    rewrite <- Hf in Hv.
    set (slides := List.filter (type_is "slide") events) in *.
    assert (Hne : slides <> []) by (rewrite Hf; discriminate).
    destruct (comprehension slide_velocity slides) as [k|vs] eqn:Hvs;
      [discriminate|].
    injection Hv as <-. cbn [velocity_min velocity_avg velocity_max].
    destruct (collected_bounds slide_velocity slides vs Hne Hvs)
      as (Hle & Heach & (elo & Hlo & Hflo) & (ehi & Hhi & Hfhi)).
    cbv zeta in Hle, Heach, Hflo, Hfhi.
    split; [exact Hle|]. split.
    { intros e sx sy ex ey d t w He Ht Hd.
      assert (Hin : In e slides) by now apply in_filter_type.
      apply (Heach e w Hin). unfold slide_velocity. now rewrite Hd. }
    split.
    + apply in_filter_type in Hlo as [Hlo Ht]. exists elo. auto.
    + apply in_filter_type in Hhi as [Hhi Ht]. exists ehi. auto.
  - unfold analyze_spatial in Hsp.
    destruct (List.filter (type_is "tap") events) as [|t ts] eqn:Hf.
    + injection Hsp as <-. split; [intros [sp Hs]; discriminate|].
      intros (e & He & Ht).
      assert (Hin : In e (List.filter (type_is "tap") events))
        by now apply in_filter_type.
      rewrite Hf in Hin. contradiction.
    + assert (Hin : In t (List.filter (type_is "tap") events))
        by (rewrite Hf; now left).
      apply in_filter_type in Hin.
      destruct (comprehension coordinate_x (t :: ts)); [discriminate|].
      destruct (comprehension coordinate_y (t :: ts)); [discriminate|].
      injection Hsp as <-. split; eauto.
  - unfold analyze_velocity in Hv.
    destruct (List.filter (type_is "slide") events) as [|s ss] eqn:Hf.
    + injection Hv as <-. split; [intros [v Hs]; discriminate|].
      intros (e & He & Ht).
      assert (Hin : In e (List.filter (type_is "slide") events))
        by now apply in_filter_type.
      rewrite Hf in Hin. contradiction.
    + assert (Hin : In s (List.filter (type_is "slide") events))
        by (rewrite Hf; now left).
      apply in_filter_type in Hin.
      destruct (comprehension slide_velocity (s :: ss)); [discriminate|].
      injection Hv as <-. split; eauto.
  - unfold analyze_temporal. rewrite length_map.
    destruct (Nat.ltb_spec 1 (length events)); split.
    + intros _. lia.
    + eauto.
    + intros [t Ht]. discriminate.
    + lia.
Qed.
End AnalysisBounds.

Section TrackedTokens.
Import cart_location_tracker.
Import Notions.
Local Open Scope R_scope.

Lemma tracked_totals events :
  Forall tracked events ->
  forces_in_range events ->
  (Spec.number_of "tap" events + Spec.number_of "slide" events
   + Spec.number_of "location" events = length events)%nat
  /\ INR (Spec.number_of "tap" events)
     + 10 * INR (Spec.number_of "slide" events)
     + 5 * INR (Spec.number_of "location" events)
     <= Spec.sum_of (Spec.values_of events)
     <= 100 * INR (Spec.number_of "tap" events)
        + 210 * INR (Spec.number_of "slide" events)
        + 5 * INR (Spec.number_of "location" events).
Proof.
  induction 1 as [|e events He _ IH]; intros Hforce.
  - simpl. split; [reflexivity | lra].
  - destruct IH as [IHn IHv].
    { intros e' x y f Hin. apply (Hforce e' x y f). now right. }
    rewrite !number_of_cons. cbn [Spec.values_of map Spec.sum_of length].
    fold (Spec.values_of events).
    destruct He as [rt x y force user | rt sx sy ex ey d user
                   | rt lat lon alt user];
      cbn [type token_value track_tap_event track_slide_event
           track_location_change default];
      unfold Datatypes.id; repeat case_bool_decide; try congruence;
      rewrite ?Nat.add_0_l; (split; [lia|]).
    + assert (Hf : 0 <= force <= 1).
      { apply (Hforce (track_tap_event rt x y force user) x y force);
          [now left | reflexivity]. }
      unfold calculate_tap_value. cbn [Nat.add]. rewrite ?S_INR. lra.
    + pose proof (slide_value_bounds
                    (sqrt ((ex - sx) ^ 2 + (ey - sy) ^ 2))
                    (sqrt ((ex - sx) ^ 2 + (ey - sy) ^ 2)
                     / Py.max_R d (1 / 100))
                    (sqrt_pos _) (velocity_nonneg _ _ (sqrt_pos _))).
      cbn [Nat.add]. rewrite ?S_INR. lra.
    + cbn [Nat.add]. rewrite ?S_INR. lra.
Qed.

(** X10.  The movement token of events built by the tracking functions,
    the taps with a force in [0, 1]: every event is counted as a tap, a
    slide or a location, and the total value lies between
    [taps + 10 * slides + 5 * locations] and
    [100 * taps + 210 * slides + 5 * locations]. *)
Theorem movement_token_of_tracked_events rt events :
  events <> [] ->
  Forall tracked events ->
  forces_in_range events ->
  exists tok,
    calculate_movement_token rt events = Movement tok
    /\ (taps (pattern tok) + slides (pattern tok) + locations (pattern tok)
        = event_count tok)%nat
    /\ INR (taps (pattern tok)) + 10 * INR (slides (pattern tok))
       + 5 * INR (locations (pattern tok))
       <= total_value tok
       <= 100 * INR (taps (pattern tok)) + 210 * INR (slides (pattern tok))
          + 5 * INR (locations (pattern tok)).
Proof.
  intros Hne Hall Hforce. destruct events as [|e events]; [contradiction|].
  destruct (movement_token_fields rt e events)
    as (tok & Htok & Hv & Hc & Ht & Hs & Hl).
  exists tok. split; [exact Htok|]. rewrite Hv, Hc, Ht, Hs, Hl.
  now apply tracked_totals.
Qed.
End TrackedTokens.

(** ** The robotic builder *)

Section BuilderBounds.
Import cart_robotic_builder.
Local Open Scope Q_scope.

Lemma int_of_Q_nonneg q : 0 <= q -> Py.int_of_Q q = Qfloor q.
Proof.
  destruct q as [n d]. unfold Qle, Py.int_of_Q, Qfloor. simpl. intros H.
  apply Z.quot_div_nonneg; lia.
Qed.

Lemma int_of_Q_neg q : q <= 0 -> Py.int_of_Q q = Qceiling q.
Proof.
  destruct q as [n d]. unfold Qle, Py.int_of_Q, Qceiling, Qfloor. simpl.
  intros H.
  rewrite <- (Z.opp_involutive n) at 1.
  rewrite Z.quot_opp_l by lia. f_equal.
  apply Z.quot_div_nonneg; lia.
Qed.

Lemma int_of_Q_mono p q : p <= q -> (Py.int_of_Q p <= Py.int_of_Q q)%Z.
Proof.
  intros Hpq.
  destruct (Qlt_le_dec p 0) as [Hp | Hp]; destruct (Qlt_le_dec q 0) as [Hq | Hq].
  - rewrite !int_of_Q_neg by Lqa.lra. now apply Qceiling_resp_le.
  - rewrite (int_of_Q_neg p), (int_of_Q_nonneg q) by Lqa.lra.
    transitivity 0%Z.
    + change 0%Z with (Qceiling 0). apply Qceiling_resp_le. Lqa.lra.
    + change 0%Z with (Qfloor 0). now apply Qfloor_resp_le.
  - Lqa.lra.
  - rewrite !int_of_Q_nonneg by Lqa.lra. now apply Qfloor_resp_le.
Qed.

Lemma tier_rank_mono v1 v2 :
  v1 <= v2 ->
  (Notions.tier_rank (fst (tier_of v1)) <= Notions.tier_rank (fst (tier_of v2)))%nat.
Proof.
  intros Hv.
  destruct (tier_of_cases v1) as [[H1 ->] | [[H1 ->] | [[H1 ->] | [H1 ->]]]];
  destruct (tier_of_cases v2) as [[H2 ->] | [[H2 ->] | [[H2 ->] | [H2 ->]]]];
    cbn; try lia; Lqa.lra.
Qed.

Lemma build_config_fields rt value patterns :
  let b := generate_build_config rt value patterns in
  memory_limit (config b) = Qmin (value / 1000) 1000000
  /\ thread_count (config b) = Z.min (Py.int_of_Q (value / 1000000)) 64
  /\ optimization_level (config b) = length (features b).
Proof.
  unfold generate_build_config. destruct (tier_of value). simpl.
  now rewrite min_Q_Qmin, min_Z_Zmin.
Qed.

(** X11.  A build configuration never has more than 64 threads or a
    memory limit above 1000000; for a non-negative token value neither is
    negative; and a larger token value never gives fewer threads, less
    memory or a lower tier, whatever the patterns. *)
Theorem build_resources_bounded_and_monotone rt patterns1 patterns2 v1 v2 :
  let b1 := generate_build_config rt v1 patterns1 in
  let b2 := generate_build_config rt v2 patterns2 in
  (thread_count (config b1) <= 64)%Z
  /\ memory_limit (config b1) <= 1000000
  /\ (0 <= v1 ->
        (0 <= thread_count (config b1))%Z /\ 0 <= memory_limit (config b1))
  /\ (v1 <= v2 ->
        (thread_count (config b1) <= thread_count (config b2))%Z
        /\ memory_limit (config b1) <= memory_limit (config b2)
        /\ (Notions.tier_rank (build_tier b1)
            <= Notions.tier_rank (build_tier b2))%nat).
Proof.
  intros b1 b2.
  destruct (build_config_fields rt v1 patterns1) as (Hm1 & Ht1 & _).
  destruct (build_config_fields rt v2 patterns2) as (Hm2 & Ht2 & _).
  cbv zeta in *. fold b1 in Hm1, Ht1. fold b2 in Hm2, Ht2.
  rewrite Hm1, Ht1, Hm2, Ht2.
  split; [lia|]. split; [apply Q.le_min_r|].
  split.
  - intros Hv. split.
    + apply Z.min_glb; [|lia].
      rewrite int_of_Q_nonneg.
      * change 0%Z with (Qfloor 0). apply Qfloor_resp_le.
        apply Qle_shift_div_l; Lqa.lra.
      * apply Qle_shift_div_l; Lqa.lra.
    + apply Q.min_glb; [apply Qle_shift_div_l; Lqa.lra | Lqa.lra].
  - intros Hv.
    assert (Hdiv : forall k, 0 < k -> v1 / k <= v2 / k).
    { intros k Hk. apply Qle_shift_div_l; [exact Hk|].
      unfold Qdiv. rewrite <- Qmult_assoc, (Qmult_comm (/ k)), Qmult_inv_r;
        Lqa.lra. }
    split; [|split].
    + apply Z.min_le_compat_r. apply int_of_Q_mono. apply Hdiv. Lqa.lra.
    + apply Q.min_le_compat_r. apply Hdiv. Lqa.lra.
    + unfold b1, b2. rewrite !build_tier_tier_of. now apply tier_rank_mono.
Qed.

Lemma base_features_cases value :
  snd (tier_of value)
  = ["quantum_processing"; "parallel_execution"; "advanced_ai"]%string
  \/ snd (tier_of value)
     = ["multi_threading"; "enhanced_memory"; "ai_assist"]%string
  \/ snd (tier_of value) = ["optimization"; "caching"; "logging"]%string
  \/ snd (tier_of value) = ["standard_processing"]%string.
Proof.
  unfold tier_of.
  repeat (destruct (Qlt_le_dec _ value); [simpl; tauto|]). simpl. tauto.
Qed.

Lemma features_unfold rt value patterns :
  features (generate_build_config rt value patterns)
  = (snd (tier_of value)
     ++ (if has_theme "nature" (default ∅ (themes patterns))
         then ["nature_pattern_recognition"%string] else [])
     ++ (if has_theme "people" (default ∅ (themes patterns))
         then ["social_analysis"%string] else []))%list.
Proof.
  unfold generate_build_config. destruct (tier_of value) as [tier base].
  cbn [features snd].
  destruct (has_theme "nature" _), (has_theme "people" _);
    now rewrite <- ?app_assoc, ?app_nil_r.
Qed.

Lemma has_theme_spec key (m : gmap string Z) :
  has_theme key m = true <-> is_Some (m !! key).
Proof. unfold has_theme. apply bool_decide_eq_true. Qed.

Lemma theme_features rt value patterns :
  (In "nature_pattern_recognition"%string
      (features (generate_build_config rt value patterns))
   <-> is_Some (default ∅ (themes patterns) !! "nature"%string))
  /\ (In "social_analysis"%string
         (features (generate_build_config rt value patterns))
      <-> is_Some (default ∅ (themes patterns) !! "people"%string)).
Proof.
  rewrite features_unfold, <- !has_theme_spec.
  destruct (base_features_cases value) as [-> | [-> | [-> | ->]]];
    destruct (has_theme "nature" _), (has_theme "people" _);
    cbn; split; split; intros H; try discriminate; try tauto;
    repeat (destruct H as [H | H]; try discriminate H); try contradiction.
Qed.

(** X12.  The features of a build are those of its tier, followed by
    [nature_pattern_recognition] exactly when the patterns have a [nature]
    theme and by [social_analysis] exactly when they have a [people] theme
    (a missing [themes] key counts as no theme); the optimisation level is
    between 1 and 5, and at most 3 on the basic tier. *)
Theorem build_features_follow_tier_and_themes rt value patterns :
  let b := generate_build_config rt value patterns in
  let found := default ∅ (themes patterns) in
  features b
  = (snd (tier_of value)
     ++ (if has_theme "nature" found
         then ["nature_pattern_recognition"%string] else [])
     ++ (if has_theme "people" found
         then ["social_analysis"%string] else []))%list
  /\ (In "nature_pattern_recognition"%string (features b)
      <-> is_Some (found !! "nature"%string))
  /\ (In "social_analysis"%string (features b)
      <-> is_Some (found !! "people"%string))
  /\ (1 <= optimization_level (config b) <= 5)%nat
  /\ (build_tier b = "basic"%string ->
        (optimization_level (config b) <= 3)%nat).
Proof.
  intros b found.
  destruct (theme_features rt value patterns) as [Hn Hp].
  destruct (build_config_fields rt value patterns) as (_ & _ & Hopt).
  cbv zeta in Hopt. fold b in Hopt, Hn, Hp.
  split; [apply features_unfold|]. split; [exact Hn|]. split; [exact Hp|].
  rewrite Hopt. unfold b. rewrite features_unfold, build_tier_tier_of.
  fold found.
  rewrite !length_app.
  assert (Hextra :
    (length (if has_theme "nature" found
             then ["nature_pattern_recognition"%string] else [])
     + length (if has_theme "people" found
               then ["social_analysis"%string] else []) <= 2)%nat)
    by (destruct (has_theme "nature" found), (has_theme "people" found);
        simpl; lia).
  destruct (tier_of_cases value)
    as [[H Ht] | [[H Ht] | [[H Ht] | [H Ht]]]];
    destruct (base_features_cases value) as [Hb | [Hb | [Hb | Hb]]];
    rewrite Hb, Ht; simpl length; (split; [lia|]);
    intros Hbasic; try discriminate Hbasic; try lia;
    unfold tier_of in Hb, Ht;
    repeat (destruct (Qlt_le_dec _ value); try discriminate);
    simpl in Hb, Ht; try discriminate; try Lqa.lra.
Qed.
End BuilderBounds.

Section Substrings.
Import Notions.
Local Open Scope string_scope.

Lemma append_cons c (a b : string) : String c a ++ b = String c (a ++ b).
Proof. reflexivity. Qed.

Lemma append_nil (b : string) : "" ++ b = b.
Proof. reflexivity. Qed.

Lemma prefix_spec p s :
  String.prefix p s = true <-> exists rest, s = p ++ rest.
Proof.
  revert p. induction s as [|d s IH]; intros [|c p]; simpl.
  - split; [eauto | reflexivity].
  - split; [discriminate | intros [r Hr]; discriminate].
  - split; [eauto | reflexivity].
  - destruct (ascii_dec c d) as [-> | Hne].
    + rewrite IH. split; intros [r Hr]; exists r;
        rewrite append_cons in *; congruence.
    + split; [discriminate|].
      intros [r Hr]. rewrite append_cons in Hr. congruence.
Qed.

Lemma contains_spec needle hay :
  Py.contains needle hay = true <-> occurs_in needle hay.
Proof.
  unfold occurs_in. induction hay as [|c hay IH]; cbn [Py.contains].
  - rewrite orb_false_r, prefix_spec. split.
    + intros [r Hr]. exists "", r. exact Hr.
    + intros (a & b & H). destruct a; [eauto | discriminate].
  - rewrite orb_true_iff, IH, prefix_spec. split.
    + intros [[r Hr] | (a & b & H)].
      * exists "", r. exact Hr.
      * exists (String c a), b. rewrite append_cons. now rewrite H.
    + intros (a & b & H). destruct a as [|d a].
      * left. eauto.
      * right. rewrite append_cons in H. exists a, b. congruence.
Qed.

Lemma append_assoc (a b c : string) : (a ++ b) ++ c = a ++ (b ++ c).
Proof.
  induction a as [|x a IH]; [reflexivity|].
  now rewrite !append_cons, IH.
Qed.

Lemma lower_app a b : Py.lower (a ++ b) = Py.lower a ++ Py.lower b.
Proof.
  induction a as [|x a IH]; [reflexivity|].
  rewrite append_cons. cbn [Py.lower]. now rewrite append_cons, IH.
Qed.

Lemma occurs_in_trans a b c : occurs_in a b -> occurs_in b c -> occurs_in a c.
Proof.
  intros (x & y & ->) (u & v & ->). exists (u ++ x), (y ++ v).
  now rewrite !append_assoc.
Qed.

Lemma occurs_in_lower a b :
  occurs_in a b -> occurs_in (Py.lower a) (Py.lower b).
Proof.
  intros (x & y & ->). rewrite !lower_app.
  now exists (Py.lower x), (Py.lower y).
Qed.
End Substrings.

Section Themes.
Import cart_robotic_builder.
Import Notions.

Lemma flat_map_nonempty {A B} (f : A -> list B) l :
  flat_map f l <> [] <-> exists a, In a l /\ f a <> [].
Proof.
  induction l as [|a l IH]; simpl.
  - split; [congruence | intros (a & [] & _)].
  - split.
    + intros H. destruct (f a) eqn:Hfa.
      * simpl in H. apply IH in H as (b & Hb & Hfb). eauto.
      * exists a. split; [now left | congruence].
    + intros (b & [<- | Hb] & Hfb).
      * destruct (f a); [contradiction | discriminate].
      * intros H. apply app_eq_nil in H as [_ H]. revert H. apply IH. eauto.
Qed.

Lemma filter_nonempty {A} (p : A -> bool) l :
  List.filter p l <> [] <-> exists a, In a l /\ p a = true.
Proof.
  induction l as [|a l IH]; simpl.
  - split; [congruence | intros (a & [] & _)].
  - destruct (p a) eqn:Hpa.
    + split; [eauto | discriminate].
    + rewrite IH. split; intros (b & Hb & Hpb); [eauto|].
      destruct Hb as [<- | Hb]; [congruence | eauto].
Qed.

Lemma keyword_hits_pos keywords lines :
  (0 < keyword_hits keywords lines)%nat <-> mentions keywords lines.
Proof.
  unfold keyword_hits, mentions. rewrite sum_nat_ones.
  transitivity (flat_map
    (fun line => List.filter (fun kw => Py.contains kw (Py.lower line)) keywords)
    lines <> []).
  - destruct (flat_map _ lines); simpl; split; intros; try lia; congruence.
  - rewrite flat_map_nonempty. split.
    + intros (line & Hl & Hf). apply filter_nonempty in Hf as (kw & Hk & Hc).
      apply contains_spec in Hc. eauto.
    + intros (line & kw & Hl & Hk & Hc). exists line. split; [exact Hl|].
      apply filter_nonempty. exists kw. split; [exact Hk|].
      now apply contains_spec.
Qed.

(** The [themes] dict, key by key. *)
Lemma themes_lookup rt content theme keywords :
  Py.truthy content = true ->
  In (theme, keywords) theme_keywords ->
  analysis_themes (analyze_memory_patterns rt content) !! theme
  = let count := keyword_hits keywords (Py.split_on Py.newline content) in
    if (0 <? count)%nat then Some (Z.of_nat count) else None.
Proof.
  intros Ht Hin. unfold analyze_memory_patterns. rewrite Ht.
  cbn [negb analysis_themes].
  set (lines := Py.split_on Py.newline content).
  unfold theme_keywords in *. cbn [fold_left].
  cbv zeta. simpl in Hin.
  destruct Hin as [[= <- <-] | [[= <- <-] | [[= <- <-] | [[= <- <-] | []]]]];
    repeat match goal with
    | |- context [(0 <? keyword_hits ?k lines)%nat] =>
        let n := fresh "n" in
        set (n := keyword_hits k lines); clearbody n
    end;
    repeat match goal with
    | |- context [(0 <? ?n)%nat] => destruct (0 <? n)%nat
    end;
    simplify_map_eq; reflexivity.
Qed.

Lemma themes_keys rt content theme :
  is_Some (analysis_themes (analyze_memory_patterns rt content) !! theme) ->
  exists keywords, In (theme, keywords) theme_keywords.
Proof.
  unfold analyze_memory_patterns.
  destruct (Py.truthy content); cbn [negb analysis_themes];
    [|rewrite lookup_empty; intros [x Hx]; discriminate].
  set (lines := Py.split_on Py.newline content).
  unfold theme_keywords. cbn [fold_left].
  destruct (decide (theme = "nature"%string)) as [-> | Hn];
    [intros _; simpl; eauto 10|].
  destruct (decide (theme = "people"%string)) as [-> | Hp];
    [intros _; simpl; eauto 10|].
  destruct (decide (theme = "action"%string)) as [-> | Ha];
    [intros _; simpl; eauto 10|].
  destruct (decide (theme = "emotion"%string)) as [-> | He];
    [intros _; simpl; eauto 10|].
  repeat match goal with
  | |- context [(0 <? ?n)%nat] => destruct (0 <? n)%nat
  end;
  simplify_map_eq; intros [x Hx]; discriminate.
Qed.

Lemma truthy_spec s : Py.truthy s = true <-> s <> ""%string.
Proof. destruct s; simpl; split; congruence. Qed.

Lemma split_on_nonempty sep s : Py.split_on sep s <> [].
Proof.
  destruct s as [|c s]; simpl; [discriminate|].
  destruct (Ascii.eqb c sep); [discriminate|].
  destruct (Py.split_on sep s); discriminate.
Qed.

Lemma theme_found rt content theme keywords :
  In (theme, keywords) theme_keywords ->
  (is_Some (analysis_themes (analyze_memory_patterns rt content) !! theme)
   <-> content <> ""%string
       /\ mentions keywords (Py.split_on Py.newline content))
  /\ (forall n,
        analysis_themes (analyze_memory_patterns rt content) !! theme = Some n ->
        n = Z.of_nat (keyword_hits keywords (Py.split_on Py.newline content))
        /\ (0 < n)%Z).
Proof.
  intros Hin. destruct (Py.truthy content) eqn:Ht.
  - rewrite (themes_lookup rt content theme keywords Ht Hin). cbv zeta.
    rewrite <- keyword_hits_pos, <- truthy_spec.
    destruct (Nat.ltb_spec 0
                (keyword_hits keywords (Py.split_on Py.newline content))).
    + split; [split; [intros _; split; [exact Ht | assumption] | eauto]|].
      intros n [= <-]. split; [reflexivity | lia].
    + split; [split; [intros [x Hx]; discriminate | intros [_ Hpos]; lia]|].
      intros n Hn. discriminate.
  - unfold analyze_memory_patterns. rewrite Ht. cbn [negb analysis_themes].
    rewrite lookup_empty. split.
    + split; [intros [x Hx]; discriminate|].
      intros [Hne _]. apply truthy_spec in Hne. congruence.
    + intros n Hn. discriminate.
Qed.

(** X13.  [analyze_memory_patterns] returns no theme and no statistics
    on empty content; otherwise the statistics count the lines of the
    content.  A theme is recorded exactly when some line mentions, in
    whatever case, one of its keywords; its count is the number of
    (keyword, line) hits and is positive; and only the four known themes
    are ever recorded. *)
Theorem theme_detection rt content :
  let analysis := analyze_memory_patterns rt content in
  let lines := Py.split_on Py.newline content in
  (content = ""%string ->
     analysis_themes analysis = ∅ /\ analysis_stats analysis = None)
  /\ (content <> ""%string ->
        exists st, analysis_stats analysis = Some st
                   /\ total_lines st = length lines
                   /\ (1 <= total_lines st)%nat)
  /\ (forall theme keywords,
        In (theme, keywords) theme_keywords ->
        (is_Some (analysis_themes analysis !! theme)
         <-> content <> ""%string /\ mentions keywords lines)
        /\ (forall n,
              analysis_themes analysis !! theme = Some n ->
              n = Z.of_nat (keyword_hits keywords lines) /\ (0 < n)%Z))
  /\ (forall theme,
        is_Some (analysis_themes analysis !! theme) ->
        exists keywords, In (theme, keywords) theme_keywords).
Proof.
  intros analysis lines. split; [|split; [|split]].
  - intros ->. split; reflexivity.
  - intros Hne. apply truthy_spec in Hne.
    unfold analysis, analyze_memory_patterns. rewrite Hne.
    cbn [negb analysis_stats]. eexists. split; [reflexivity|].
    cbn [total_lines]. split; [reflexivity|].
    pose proof (split_on_nonempty Py.newline content).
    fold lines in H |- *. destruct lines; [contradiction | simpl; lia].
  - intros theme keywords Hin. now apply theme_found.
  - apply themes_keys.
Qed.

(** X14.  Feeding the analysis of a memory text to
    [generate_build_config]: the build gets [nature_pattern_recognition]
    exactly when a line of the text mentions one of the nature keywords,
    [social_analysis] exactly when a line mentions one of the people
    keywords, and on empty text just the features of the tier. *)
Theorem memory_themes_decide_build_features rt value content :
  let lines := Py.split_on Py.newline content in
  let b := generate_build_config
             rt value (as_patterns (analyze_memory_patterns rt content)) in
  (In "nature_pattern_recognition"%string (features b)
   <-> content <> ""%string
       /\ mentions ["tree"; "forest"; "water"; "river"; "ocean"; "cat";
                    "animal"]%string lines)
  /\ (In "social_analysis"%string (features b)
      <-> content <> ""%string
          /\ mentions ["man"; "woman"; "person"; "child"; "human"]%string
                      lines)
  /\ (content = ""%string -> features b = snd (tier_of value)).
Proof.
  intros lines b.
  destruct (theme_features rt value
              (as_patterns (analyze_memory_patterns rt content)))
    as [Hn Hp].
  fold b in Hn, Hp. cbn [as_patterns themes default] in Hn, Hp.
  split; [|split].
  - rewrite Hn. apply theme_found. simpl. tauto.
  - rewrite Hp. apply theme_found. simpl. tauto.
  - intros ->. unfold b. rewrite features_unfold. cbn.
    now rewrite app_nil_r.
Qed.
End Themes.

(** ** The memory search *)

Section Pieces.
Import Notions.
Local Open Scope string_scope.

Lemma occurs_in_refl s : occurs_in s s.
Proof.
  exists "", "". rewrite append_nil.
  induction s as [|c s IH]; [reflexivity|]. rewrite append_cons. congruence.
Qed.

Lemma occurs_in_cons c a s : occurs_in a s -> occurs_in a (String c s).
Proof.
  intros (x & y & ->). exists (String c x), y. now rewrite append_cons.
Qed.

(** The pieces of [s.split(sep)] are substrings of [s], the first one a
    prefix. *)
Lemma split_on_pieces sep s :
  (exists first others rest,
     Py.split_on sep s = first :: others /\ s = first ++ rest)
  /\ forall piece, In piece (Py.split_on sep s) -> occurs_in piece s.
Proof.
  induction s as [|c s [(first & others & rest & Hsplit & Hs) IH]].
  - split; [exists "", [], ""; split; reflexivity|].
    intros piece [<- | []]. apply occurs_in_refl.
  - cbn [Py.split_on]. destruct (Ascii.eqb c sep).
    + split; [exists "", (Py.split_on sep s), (String c s); split; reflexivity|].
      intros piece [<- | Hin].
      * exists "", (String c s). reflexivity.
      * apply occurs_in_cons. now apply IH.
    + rewrite Hsplit. split.
      * exists (String c first), others, rest. split; [reflexivity|].
        rewrite append_cons. congruence.
      * intros piece [<- | Hin].
        -- exists "", rest. rewrite append_nil, append_cons. congruence.
        -- apply occurs_in_cons. apply IH. rewrite Hsplit. now right.
Qed.
End Pieces.

Section Enumerate.
Import cart_memory_search.

Lemma in_combine_seq {A} (l : list A) : forall start i x,
  In (i, x) (combine (seq start (length l)) l)
  <-> (start <= i)%nat /\ nth_error l (i - start) = Some x.
Proof.
  induction l as [|a l IH]; intros start i x; simpl.
  - split; [contradiction|]. intros [_ H]. destruct (i - start)%nat; discriminate.
  - rewrite IH. split.
    + intros [[= <- <-] | [Hle Hn]].
      * split; [lia|]. now rewrite Nat.sub_diag.
      * split; [lia|].
        replace (i - start)%nat with (S (i - S start)) by lia. exact Hn.
    + intros [Hle Hn]. destruct (i - start)%nat as [|k] eqn:Hk.
      * left. injection Hn as <-. f_equal. lia.
      * right. split; [lia|]. replace (i - S start)%nat with k by lia.
        exact Hn.
Qed.

Lemma in_enumerate {A} (l : list A) i x :
  In (i, x) (enumerate l) <-> nth_error l i = Some x.
Proof.
  unfold enumerate. rewrite in_combine_seq, Nat.sub_0_r.
  split; [tauto | split; [lia | assumption]].
Qed.
End Enumerate.

Section Matches.
Import cart_memory_search.
Import Notions.

Lemma in_block_matches query i block m :
  In m (block_matches query i block)
  <-> Py.contains (Py.lower query) (Py.lower block) = true
      /\ exists j line,
           nth_error (Py.split_on Py.newline block) j = Some line
           /\ Py.contains (Py.lower query) (Py.lower line) = true
           /\ m = {| block_index := i; line_index := j; content := Some line;
                     context :=
                       Py.slice (Nat.max 0 (j - 1))
                         (Nat.min (length (Py.split_on Py.newline block))
                                  (j + 2))
                         (Py.split_on Py.newline block) |}.
Proof.
  unfold block_matches.
  destruct (Py.contains (Py.lower query) (Py.lower block)); cbn iota.
  2: { split; [simpl; tauto | intros [H _]; discriminate H]. }
  rewrite in_flat_map. split.
  - intros ([j line] & Hin & Hm). apply in_enumerate in Hin.
    split; [reflexivity|]. exists j, line.
    destruct (Py.contains (Py.lower query) (Py.lower line));
      [|contradiction].
    destruct Hm as [<- | []]. auto.
  - intros (_ & j & line & Hn & Hc & ->). exists (j, line).
    split; [now apply in_enumerate|]. rewrite Hc. now left.
Qed.

Lemma context_window {A} (l : list A) j x :
  nth_error l j = Some x ->
  let window := Py.slice (Nat.max 0 (j - 1)) (Nat.min (length l) (j + 2)) l in
  In x window /\ (1 <= length window <= 3)%nat.
Proof.
  intros Hj window.
  assert (Hlt : (j < length l)%nat) by (apply nth_error_Some; congruence).
  subst window. unfold Py.slice.
  set (lo := Nat.max 0 (j - 1)). set (hi := Nat.min (length l) (j + 2)).
  assert (Hlo : (lo <= j)%nat) by (unfold lo; lia).
  assert (Hhi : (j < hi <= lo + 3)%nat) by (unfold hi, lo; lia).
  split.
  - apply (nth_error_In _ (j - lo)).
    rewrite List.nth_error_firstn.
    destruct (Nat.ltb_spec (j - lo) (hi - lo)); [|lia].
    rewrite List.nth_error_skipn.
    now replace (lo + (j - lo))%nat with j by lia.
  - rewrite length_take, length_drop. unfold hi, lo in *. lia.
Qed.
End Matches.

Section BrainSearch.
Import cart_memory_search.
Import Notions.

Lemma search_matches rt disk file_content q :
  brain_py disk = Some file_content ->
  q <> ""%string ->
  matches (search_brain_memory rt disk (Some q))
  = Some (flat_map (fun '(i, block) => block_matches q i block)
            (enumerate (find_blocks (Py.split_on Py.newline file_content)))).
Proof.
  intros Hfile Hq. unfold search_brain_memory. rewrite Hfile.
  apply truthy_spec in Hq. now rewrite Hq.
Qed.

Lemma in_search_matches rt disk file_content q m :
  brain_py disk = Some file_content ->
  q <> ""%string ->
  (exists ms, matches (search_brain_memory rt disk (Some q)) = Some ms
              /\ In m ms)
  <-> exists i block,
        nth_error (find_blocks (Py.split_on Py.newline file_content)) i
        = Some block
        /\ In m (block_matches q i block).
Proof.
  intros Hfile Hq. rewrite (search_matches rt disk file_content q Hfile Hq).
  split.
  - intros (ms & [= <-] & Hin). apply in_flat_map in Hin as ([i block] & Hi & Hm).
    apply in_enumerate in Hi. eauto.
  - intros (i & block & Hi & Hm). eexists. split; [reflexivity|].
    apply in_flat_map. exists (i, block). split; [now apply in_enumerate|].
    exact Hm.
Qed.

(** X15.  Every match that [search_brain_memory] reports for a non-empty
    query points at an existing block and at an existing line of it, its
    [content] is that line, the line contains the query up to case, and its
    [context] holds the line among one to three lines. *)
Theorem reported_matches_are_real rt disk file_content q ms m :
  brain_py disk = Some file_content ->
  q <> ""%string ->
  matches (search_brain_memory rt disk (Some q)) = Some ms ->
  In m ms ->
  let blocks := find_blocks (Py.split_on Py.newline file_content) in
  exists block line,
    nth_error blocks (block_index m) = Some block
    /\ nth_error (Py.split_on Py.newline block) (line_index m) = Some line
    /\ content m = Some line
    /\ occurs_in (Py.lower q) (Py.lower line)
    /\ In line (context m)
    /\ (1 <= length (context m) <= 3)%nat.
Proof.
  intros Hfile Hq Hms Hin blocks.
  destruct (proj1 (in_search_matches rt disk file_content q m Hfile Hq))
    as (i & block & Hi & Hm); [eauto|].
  apply in_block_matches in Hm as (_ & j & line & Hj & Hc & ->).
  exists block, line. cbn [block_index line_index content context].
  destruct (context_window _ j line Hj) as [Hctx Hlen].
  split; [exact Hi|]. split; [exact Hj|]. split; [reflexivity|].
  split; [now apply contains_spec|]. split; [exact Hctx | exact Hlen].
Qed.

(** X16.  Every line of every block that contains the query up to case
    is reported as a match by [search_brain_memory], with its block and
    line index. *)
Theorem matching_lines_are_all_reported rt disk file_content q i block j line :
  brain_py disk = Some file_content ->
  q <> ""%string ->
  nth_error (find_blocks (Py.split_on Py.newline file_content)) i = Some block ->
  nth_error (Py.split_on Py.newline block) j = Some line ->
  occurs_in (Py.lower q) (Py.lower line) ->
  exists ms m,
    matches (search_brain_memory rt disk (Some q)) = Some ms
    /\ In m ms
    /\ block_index m = i /\ line_index m = j /\ content m = Some line.
Proof.
  intros Hfile Hq Hi Hj Hocc.
  set (m := {| block_index := i; line_index := j; content := Some line;
               context :=
                 Py.slice (Nat.max 0 (j - 1))
                   (Nat.min (length (Py.split_on Py.newline block)) (j + 2))
                   (Py.split_on Py.newline block) |}).
  destruct (proj2 (in_search_matches rt disk file_content q m Hfile Hq))
    as (ms & Hms & Hin).
  - exists i, block. split; [exact Hi|]. apply in_block_matches.
    split.
    + apply contains_spec. apply occurs_in_trans with (Py.lower line);
        [exact Hocc|].
      apply occurs_in_lower.
      apply (proj2 (split_on_pieces Py.newline block)).
      eapply nth_error_In. exact Hj.
    + exists j, line. split; [exact Hj|].
      split; [now apply contains_spec | reflexivity].
  - exists ms, m. repeat split; assumption.
Qed.
End BrainSearch.

Section RoundTrip.
Import Notions.
Local Open Scope string_scope.

Lemma split_on_free sep s :
  free_of sep s -> Py.split_on sep s = [s].
Proof.
  unfold free_of. induction s as [|c s IH]; [reflexivity|].
  cbn [Py.split_on list_ascii_of_string]. intros Hfree.
  destruct (Ascii.eqb_spec c sep) as [-> | Hne];
    [exfalso; apply Hfree; now left|].
  rewrite IH; [reflexivity|]. intros Hin. apply Hfree. now right.
Qed.

Lemma split_on_app sep a b :
  free_of sep a ->
  Py.split_on sep (a ++ String sep b) = a :: Py.split_on sep b.
Proof.
  unfold free_of. induction a as [|c a IH]; intros Hfree.
  - rewrite append_nil. cbn [Py.split_on]. now rewrite Ascii.eqb_refl.
  - rewrite append_cons. cbn [Py.split_on].
    destruct (Ascii.eqb_spec c sep) as [-> | Hne];
      [exfalso; apply Hfree; now left|].
    rewrite IH; [reflexivity|]. intros Hin. apply Hfree. now right.
Qed.

Lemma split_join sep lines :
  lines <> [] ->
  Forall (free_of sep) lines ->
  Py.split_on sep (Py.join (String sep "") lines) = lines.
Proof.
  intros Hne Hall. unfold Py.join.
  induction Hall as [|l ls Hl Hls IH]; [contradiction|].
  destruct ls as [|l' ls].
  - simpl. now apply split_on_free.
  - change (String.concat (String sep "") (l :: l' :: ls))
      with (l ++ String sep "" ++ String.concat (String sep "") (l' :: ls)).
    rewrite append_cons, append_nil, split_on_app by exact Hl.
    rewrite IH by discriminate. reflexivity.
Qed.

Lemma split_on_free_pieces sep s : Forall (free_of sep) (Py.split_on sep s).
Proof.
  induction s as [|c s IH].
  - constructor; [intros [] | constructor].
  - cbn [Py.split_on]. destruct (Ascii.eqb_spec c sep) as [-> | Hne].
    + constructor; [intros [] | exact IH].
    + destruct (Py.split_on sep s) as [|p ps]; [constructor; [|constructor]|].
      * intros [H | []]. congruence.
      * inversion IH as [|? ? Hp Hps]; subst. constructor; [|exact Hps].
        intros [H | H]; [congruence | now apply Hp].
Qed.

Lemma free_of_slice_from sep n s : free_of sep s -> free_of sep (Py.slice_from n s).
Proof.
  unfold free_of. revert s. induction n as [|n IH]; intros s Hs; [exact Hs|].
  destruct s as [|c s]; [exact Hs|]. cbn [Py.slice_from]. apply IH.
  intros Hin. apply Hs. now right.
Qed.
End RoundTrip.

Section Blocks.
Import cart_memory_search.
Import Notions.

Lemma find_blocks_closed lines :
  find_blocks lines = closed_blocks (fold_left scan_line lines scan_start).
Proof. reflexivity. Qed.

Lemma fold_left_last {A B} (f : A -> B -> A) l x a :
  fold_left f (l ++ [x]) a = f (fold_left f l a) x.
Proof. now rewrite fold_left_app. Qed.

Lemma retained_line_more file_lines x line :
  retained_line file_lines line -> retained_line (file_lines ++ [x]) line.
Proof.
  intros (before & file_line & after & -> & Hm & Hn & Hs & ->).
  exists before, file_line, (after ++ [x]).
  rewrite <- List.app_assoc. simpl. auto.
Qed.

Lemma marker_lines_last seen x :
  marker_lines (seen ++ [x])
  = (marker_lines seen + if is_marker_line x then 1 else 0)%nat.
Proof.
  unfold marker_lines. rewrite List.filter_app, List.length_app. simpl.
  now destruct (is_marker_line x).
Qed.

Lemma existsb_last {A} (p : A -> bool) l x :
  existsb p (l ++ [x]) = existsb p l || p x.
Proof. rewrite existsb_app. simpl. now rewrite orb_false_r. Qed.

Lemma blocks_more seen x (bs : list string) :
  Forall (fun block =>
            exists kept, kept <> [] /\ Forall (retained_line seen) kept
                         /\ block = block_of kept) bs ->
  Forall (fun block =>
            exists kept, kept <> [] /\ Forall (retained_line (seen ++ [x])) kept
                         /\ block = block_of kept) bs.
Proof.
  apply List.Forall_impl. intros block (kept & Hne & Hk & ->).
  exists kept. split; [exact Hne|]. split; [|reflexivity].
  eapply List.Forall_impl; [|exact Hk]. intros l. apply retained_line_more.
Qed.

Lemma scanned_step seen st x :
  scanned seen st -> scanned (seen ++ [x]) (scan_line st x).
Proof.
  intros (Hin & Hcur & Hblocks & Hcount).
  assert (Hcur' : Forall (retained_line (seen ++ [x])) (current_block st)).
  { eapply List.Forall_impl; [|exact Hcur]. intros l. apply retained_line_more. }
  pose proof (blocks_more seen x _ Hblocks) as Hblocks'.
  unfold scan_line, scanned. rewrite marker_lines_last, existsb_last.
  change (Py.contains block_marker x) with (is_marker_line x).
  destruct (is_marker_line x) eqn:Hx.
  - rewrite orb_true_r.
    destruct (current_block st) as [|l ls] eqn:Hc;
      cbn [in_block current_block blocks].
    + split; [reflexivity|]. split; [constructor|]. split; [exact Hblocks'|].
      destruct (in_block st); [lia|]. destruct Hcount as (-> & _ & ->).
      simpl. lia.
    + split; [reflexivity|]. split; [constructor|]. split.
      * apply Forall_app. split; [exact Hblocks'|]. constructor; [|constructor].
        exists (l :: ls). split; [discriminate|]. split; [exact Hcur'|].
        reflexivity.
      * rewrite List.length_app. simpl.
        destruct (in_block st); [lia|]. destruct Hcount as (_ & [=] & _).
  - rewrite orb_false_r, Nat.add_0_r.
    destruct (in_block st) eqn:Hb; cbn [andb].
    + destruct (Py.startswith x "# "%string) eqn:Hs;
        cbn [in_block current_block blocks]; rewrite ?Hb.
      * split; [congruence|]. split; [|split; [exact Hblocks' | exact Hcount]].
        apply Forall_app. split; [exact Hcur'|]. constructor; [|constructor].
        exists seen, x, []. split; [reflexivity|]. split; [congruence|].
        auto.
      * split; [congruence|]. split; [exact Hcur'|].
        split; [exact Hblocks' | exact Hcount].
    + rewrite ?Hb. split; [congruence|]. split; [exact Hcur'|].
      split; [exact Hblocks' | exact Hcount].
Qed.

Lemma scanned_all lines : scanned lines (fold_left scan_line lines scan_start).
Proof.
  induction lines as [|x lines IH] using rev_ind.
  - repeat split; constructor.
  - rewrite fold_left_last. now apply scanned_step.
Qed.

Lemma find_blocks_spec lines :
  Forall (fun block =>
            exists kept, kept <> [] /\ Forall (retained_line lines) kept
                         /\ block = block_of kept)
         (find_blocks lines)
  /\ (length (find_blocks lines) <= marker_lines lines)%nat.
Proof.
  rewrite find_blocks_closed.
  destruct (scanned_all lines) as (Hin & Hcur & Hblocks & Hcount).
  unfold closed_blocks.
  destruct (current_block (fold_left scan_line lines scan_start))
    as [|l ls] eqn:Hc.
  - split; [exact Hblocks|].
    destruct (in_block (fold_left scan_line lines scan_start)); [lia|].
    destruct Hcount as (-> & _). simpl. lia.
  - split.
    + apply Forall_app. split; [exact Hblocks|]. constructor; [|constructor].
      exists (l :: ls). split; [discriminate|]. now split.
    + rewrite List.length_app. simpl.
      destruct (in_block (fold_left scan_line lines scan_start)); [lia|].
      destruct Hcount as (_ & [=] & _).
Qed.

Lemma retained_line_free file_lines line :
  Forall (free_of Py.newline) file_lines ->
  retained_line file_lines line -> free_of Py.newline line.
Proof.
  intros Hall (before & file_line & after & -> & _ & _ & _ & ->).
  apply free_of_slice_from.
  apply Forall_app in Hall as [_ Hall]. now inversion Hall.
Qed.

(** X17.  Every block that [search_brain_memory] finds is the join, with
    newlines, of one or more kept lines, and splitting it on newlines
    gives these lines back; a kept line is a line of the file that starts
    with ["# "], is no marker line and comes after a [#====BLOCK====]
    marker, without its first two characters (it may be empty, and so may
    a block made of one such line).  There are no more blocks than marker
    lines, so none at all without a marker. *)
Theorem blocks_hold_the_lines_after_a_marker file_content :
  let lines := Py.split_on Py.newline file_content in
  (length (find_blocks lines) <= marker_lines lines)%nat
  /\ forall block,
       In block (find_blocks lines) ->
       exists kept,
         kept <> []
         /\ block = Py.join (String Py.newline EmptyString) kept
         /\ Py.split_on Py.newline block = kept
         /\ forall line, In line kept -> retained_line lines line.
Proof.
  intros lines. destruct (find_blocks_spec lines) as [Hblocks Hlen].
  split; [exact Hlen|]. intros block Hin.
  rewrite List.Forall_forall in Hblocks.
  destruct (Hblocks block Hin) as (kept & Hne & Hkept & ->).
  exists kept. split; [exact Hne|]. split; [reflexivity|]. split.
  - unfold block_of. apply split_join; [exact Hne|].
    eapply List.Forall_impl; [|exact Hkept]. intros l.
    apply retained_line_free. apply split_on_free_pieces.
  - intros line Hl. rewrite List.Forall_forall in Hkept. now apply Hkept.
Qed.
End Blocks.

Section Categories.
Import cart_memory_search.
Import Notions.
#[local] Set Warnings "-clear-no-such-hyp".

Lemma bump_all names line (m : gmap string nat) k :
  NoDup names ->
  fold_left (bump_category line) names m !! k
  = if bool_decide (k ∈ names) && Py.contains ("# " ++ k)%string line
    then Some (S (default 0%nat (m !! k)))
    else m !! k.
Proof.
  intros Hnd. revert m. induction Hnd as [|c names Hc Hnd IH]; intros m.
  - reflexivity.
  - cbn [fold_left]. rewrite IH. unfold bump_category.
    destruct (decide (k = c)) as [-> | Hne].
    + rewrite (bool_decide_eq_false_2 (c ∈ names)) by exact Hc.
      rewrite (bool_decide_eq_true_2 (c ∈ c :: names)) by constructor.
      cbn [andb]. destruct (Py.contains ("# " ++ c)%string line);
        [apply lookup_insert_eq | reflexivity].
    + assert (Hiff : bool_decide (k ∈ c :: names) = bool_decide (k ∈ names)).
      { apply bool_decide_ext. rewrite elem_of_cons. tauto. }
      rewrite Hiff.
      destruct (Py.contains ("# " ++ c)%string line);
        [rewrite lookup_insert_ne by congruence|]; reflexivity.
Qed.

Lemma count_categories_fold lines (m : gmap string nat) k :
  fold_left (fun categories line =>
               fold_left (bump_category line) category_names categories) lines m !! k
  = if bool_decide (k ∈ category_names)
    then match m !! k with
         | Some n => Some (lines_with ("# " ++ k)%string lines + n)%nat
         | None =>
             match lines_with ("# " ++ k)%string lines with
             | O => None
             | S n => Some (S n)
             end
         end
    else m !! k.
Proof.
  assert (Hnd : NoDup category_names).
  { unfold category_names. repeat constructor; set_solver. }
  revert m. induction lines as [|line lines IH]; intros m.
  - cbn [fold_left]. unfold lines_with. simpl.
    destruct (bool_decide (k ∈ category_names)); [|reflexivity].
    now destruct (m !! k).
  - cbn [fold_left]. rewrite IH, (bump_all _ _ _ _ Hnd).
    unfold lines_with. cbn [List.filter].
    destruct (bool_decide (k ∈ category_names)); [|reflexivity].
    cbn [andb].
    destruct (Py.contains ("# " ++ k)%string line); cbn [length].
    + destruct (m !! k); simpl; f_equal; lia.
    + reflexivity.
Qed.

Lemma count_categories_spec lines k :
  count_categories lines !! k
  = if bool_decide (k ∈ category_names)
    then Some (lines_with ("# " ++ k)%string lines)
    else None.
Proof.
  unfold count_categories.
  change (fold_left _ lines ?m !! k)
    with (fold_left (fun categories line =>
               fold_left (bump_category line) category_names categories) lines m !! k).
  rewrite count_categories_fold.
  destruct (bool_decide (k ∈ category_names)) eqn:Hk.
  - apply bool_decide_eq_true in Hk. unfold category_names in Hk.
    assert (Hcases : k = "CATS"%string \/ k = "WATER"%string
                     \/ k = "TREES"%string \/ k = "PEOPLE"%string)
      by set_solver.
    destruct Hcases as [-> | [-> | [-> | ->]]];
      (match goal with
       | |- context [?m !! ?c] =>
           replace (m !! c) with (Some 0%nat) by (vm_compute; reflexivity)
       end; f_equal; lia).
  - apply bool_decide_eq_false in Hk. unfold category_names in Hk.
    apply not_elem_of_list_to_map_1. simpl. set_solver.
Qed.

Lemma length_split_on sep s :
  length (Py.split_on sep s) = S (occurrences sep s).
Proof.
  induction s as [|c s IH]; [reflexivity|].
  cbn [Py.split_on occurrences]. destruct (Ascii.eqb c sep).
  - simpl. now rewrite IH.
  - pose proof (split_on_nonempty sep s) as Hne.
    destruct (Py.split_on sep s); [contradiction|]. simpl in *. lia.
Qed.

(** X18.  Without [brain.py] the search returns the error
    [brain.py not found], no match and no statistics.  With it, there is no
    error, [total_lines] is one more than the number of newlines of the
    file, [total_blocks] is the number of blocks found (at most the number
    of marker lines), [match_count] is the number of matches, a missing or
    empty query gives no match, and [categories] maps each of CATS, WATER,
    TREES and PEOPLE, and nothing else, to the number of lines that contain
    ["# "] followed by the name. *)
Theorem search_statistics rt disk query :
  let r := search_brain_memory rt disk query in
  match brain_py disk with
  | None =>
      error r = Some "brain.py not found"%string
      /\ matches r = Some [] /\ stats r = None
  | Some file_content =>
      let lines := Py.split_on Py.newline file_content in
      exists s ms,
        error r = None /\ stats r = Some s /\ matches r = Some ms
        /\ total_lines s = S (occurrences Py.newline file_content)
        /\ total_blocks s = length (find_blocks lines)
        /\ (total_blocks s <= marker_lines lines)%nat
        /\ match_count s = length ms
        /\ (query = None \/ query = Some ""%string -> ms = [])
        /\ forall cat,
             categories s !! cat
             = if bool_decide (cat ∈ category_names)
               then Some (lines_with ("# " ++ cat)%string lines)
               else None
  end.
Proof.
  intros r. subst r. unfold search_brain_memory.
  destruct (brain_py disk) as [file_content|]; [|now repeat split].
  cbv zeta. eexists _, _.
  cbn [error stats matches total_lines total_blocks match_count categories].
  split; [reflexivity|]. split; [reflexivity|]. split; [reflexivity|].
  split; [apply length_split_on|]. split; [reflexivity|].
  split; [apply find_blocks_spec|]. split; [reflexivity|].
  split; [|intros cat; apply count_categories_spec].
  intros [-> | ->]; reflexivity.
Qed.
End Categories.

Section TokensAndLedger.
Import cart_memory_search.
Import Notions.

(** What the loop over the listing does, from any tokens already
    appended. *)
Lemma load_tokens_spec files : forall tokens,
  match load_tokens files tokens with
  | Py.Returns out =>
      (forall entry e, In entry files -> ~ raises_on entry e)
      /\ exists more,
           out = tokens ++ more
           /\ forall f d,
                In (f, d) more
                <-> In (f, Loaded d) files /\ Py.endswith f ".json" = true
  | Py.Raises e =>
      exists before entry after,
        files = before ++ entry :: after
        /\ raises_on entry e
        /\ forall entry' e', In entry' before -> ~ raises_on entry' e'
  end.
Proof.
  induction files as [|[f load] files IH]; intros tokens.
  - simpl. split; [intros entry e []|]. exists []. rewrite app_nil_r.
    split; [reflexivity|]. intros f d. split; [intros [] | intros [[] _]].
  - cbn [load_tokens].
    assert (Hpass :
      forall tokens',
        (forall e, ~ raises_on (f, load) e) ->
        match load_tokens files tokens' with
        | Py.Returns out =>
            (forall entry e, In entry ((f, load) :: files) ->
                             ~ raises_on entry e)
            /\ exists more,
                 out = tokens' ++ more
                 /\ forall f0 d0,
                      In (f0, d0) more
                      <-> In (f0, Loaded d0) files
                          /\ Py.endswith f0 ".json" = true
        | Py.Raises e =>
            exists before entry after,
              (f, load) :: files = before ++ entry :: after
              /\ raises_on entry e
              /\ forall entry' e', In entry' before -> ~ raises_on entry' e'
        end).
    { intros tokens' Hok. specialize (IH tokens').
      destruct (load_tokens files tokens') as [out|e].
      - destruct IH as (Hnone & more & Hout & Hmore).
        split; [intros entry e [<- | Hin]; [apply Hok | now apply Hnone]|].
        exists more. split; [exact Hout | exact Hmore].
      - destruct IH as (before & entry & after & -> & Hr & Hbefore).
        exists ((f, load) :: before), entry, after.
        split; [reflexivity|]. split; [exact Hr|].
        intros entry' e' [<- | Hin]; [apply Hok | now apply Hbefore]. }
    destruct (Py.endswith f ".json") eqn:Hjson.
    + destruct load as [data | | exc].
      * assert (Hok : forall e, ~ raises_on (f, Loaded data) e)
          by (intros e [_ H]; discriminate H).
        specialize (Hpass (tokens ++ [(f, data)]) Hok).
        destruct (load_tokens files (tokens ++ [(f, data)])) as [out|e];
          [|exact Hpass].
        destruct Hpass as (Hnone & more & Hout & Hmore).
        split; [exact Hnone|]. exists ((f, data) :: more).
        split; [now rewrite Hout, <- app_assoc|].
        intros f0 d0. cbn [In]. rewrite Hmore. split.
        -- intros [[= <- <-] | [Hin He]];
             [split; [now left | exact Hjson] | split; [now right | exact He]].
        -- intros [[[= <- <-] | Hin] He]; [now left | right; auto].
      * assert (Hok : forall e, ~ raises_on (f, LoadSkipped) e)
          by (intros e [_ H]; discriminate H).
        specialize (Hpass tokens Hok).
        destruct (load_tokens files tokens) as [out|e]; [|exact Hpass].
        destruct Hpass as (Hnone & more & Hout & Hmore).
        split; [exact Hnone|]. exists more. split; [exact Hout|].
        intros f0 d0. cbn [In]. rewrite Hmore. split.
        -- intros [Hin He]. split; [now right | exact He].
        -- intros [[[=] | Hin] He]. auto.
      * exists [], (f, LoadRaises exc), files.
        split; [reflexivity|]. split; [split; [exact Hjson | reflexivity]|].
        intros entry' e' [].
    + assert (Hok : forall e, ~ raises_on (f, load) e)
        by (intros e [H _]; cbn [fst] in H; congruence).
      specialize (Hpass tokens Hok).
      destruct (load_tokens files tokens) as [out|e]; [|exact Hpass].
      destruct Hpass as (Hnone & more & Hout & Hmore).
      split; [exact Hnone|]. exists more. split; [exact Hout|].
      intros f0 d0. cbn [In]. rewrite Hmore. split.
      * intros [Hin He]. split; [now right | exact He].
      * intros [[[= <- _] | Hin] He]; [congruence | auto].
Qed.

(** X19.  The token search returns exactly the files of the token
    directory that are named [*.json] and load, passing over those whose
    load raises one of the three exceptions it catches; it raises, with
    the exception of the first such file, when a [*.json] file raises any
    other exception (a file that is not UTF-8), and when the directory
    cannot be listed.  The ledger search returns the whole index, or an
    error entry on a caught exception, and raises on any other.  Neither
    uses its argument to filter: the tokens are the same for every
    pattern, the entries for every date.  The full search raises when one
    of the two does, and otherwise returns their results together with
    those of the brain search. *)
Theorem token_and_ledger_search_do_not_filter rt disk query :
  (forall pattern,
     match search_token_hashes rt disk pattern with
     | Py.Returns r =>
         tr_pattern r = pattern
         /\ (token_dir disk = None -> tokens r = [])
         /\ forall files,
              token_dir disk = Some (Listed files) ->
              (forall entry e, In entry files -> ~ raises_on entry e)
              /\ forall f d,
                   In (f, d) (tokens r)
                   <-> In (f, Loaded d) files
                       /\ Py.endswith f ".json" = true
     | Py.Raises e =>
         token_dir disk = Some (ListingRaises e)
         \/ exists before entry after,
              token_dir disk = Some (Listed (before ++ entry :: after))
              /\ raises_on entry e
              /\ forall entry' e', In entry' before -> ~ raises_on entry' e'
     end)
  /\ (forall pattern1 pattern2,
        match search_token_hashes rt disk pattern1,
              search_token_hashes rt disk pattern2 with
        | Py.Returns r1, Py.Returns r2 => tokens r1 = tokens r2
        | Py.Raises e1, Py.Raises e2 => e1 = e2
        | _, _ => False
        end)
  /\ (forall date,
        match ledger_dir disk with
        | Some (Some (IndexParsed ledger_index)) =>
            exists r,
              search_ledger_entries rt disk date = Py.Returns r
              /\ date_filter r = date
              /\ entries r = ledger_index /\ lr_error r = None
        | Some (Some (IndexInvalid message)) =>
            exists r,
              search_ledger_entries rt disk date = Py.Returns r
              /\ date_filter r = date
              /\ entries r = JArray []
              /\ lr_error r
                 = Some ("Failed to read ledger: " ++ message)%string
        | Some (Some (IndexRaises e)) =>
            search_ledger_entries rt disk date = Py.Raises e
        | _ =>
            exists r,
              search_ledger_entries rt disk date = Py.Returns r
              /\ date_filter r = date
              /\ entries r = JArray [] /\ lr_error r = None
        end)
  /\ match perform_full_search rt disk query with
     | Py.Returns r =>
         fs_query r = query
         /\ brain_results r = search_brain_memory rt disk (Some query)
         /\ search_token_hashes rt disk (Some query)
            = Py.Returns (token_results r)
         /\ search_ledger_entries rt disk None
            = Py.Returns (ledger_results r)
     | Py.Raises e =>
         search_token_hashes rt disk (Some query) = Py.Raises e
         \/ ((exists t, search_token_hashes rt disk (Some query)
                        = Py.Returns t)
             /\ search_ledger_entries rt disk None = Py.Raises e)
     end.
Proof.
  split; [|split; [|split]].
  - intros pattern. unfold search_token_hashes.
    destruct (token_dir disk) as [[files|e]|].
    + pose proof (load_tokens_spec files []) as Hspec.
      destruct (load_tokens files []) as [out|e].
      * destruct Hspec as (Hnone & more & -> & Hmore).
        cbn [tr_pattern tokens app].
        split; [reflexivity|]. split; [discriminate|].
        intros files' [= <-]. split; [exact Hnone | exact Hmore].
      * destruct Hspec as (before & entry & after & -> & Hr & Hbefore).
        right. exists before, entry, after. auto.
    + now left.
    + cbn [tr_pattern tokens]. split; [reflexivity|].
      split; [reflexivity | discriminate].
  - intros pattern1 pattern2. unfold search_token_hashes.
    destruct (token_dir disk) as [[files|e]|]; try reflexivity.
    destruct (load_tokens files []); reflexivity.
  - intros date. unfold search_ledger_entries.
    destruct (ledger_dir disk) as [[[ledger_index|message|e]|]|];
      try reflexivity; eexists; repeat split.
  - unfold perform_full_search.
    destruct (search_token_hashes rt disk (Some query)) as [t|e];
      [|now left].
    destruct (search_ledger_entries rt disk None) as [l|e].
    + cbn [fs_query brain_results token_results ledger_results].
      repeat split.
    + right. split; [eauto | reflexivity].
Qed.
End TokensAndLedger.

(** ** The activity log and the runner *)

Section ActivityLog.
Import cart_memory_search cart_runner.
Import Notions.

Lemma json_get_set_eq key v members :
  json_get key (json_set key v members) = Some v.
Proof.
  induction members as [|[k old] members IH]; simpl.
  - now rewrite String.eqb_refl.
  - destruct (String.eqb k key) eqn:Hk; simpl; now rewrite Hk.
Qed.

Lemma json_get_set_ne key other v members :
  other <> key ->
  json_get other (json_set key v members) = json_get other members.
Proof.
  intros Hne. induction members as [|[k old] members IH]; simpl.
  - destruct (String.eqb_spec key other); [congruence | reflexivity].
  - destruct (String.eqb_spec k key) as [-> | Hk]; simpl.
    + destruct (String.eqb_spec key other); [congruence | reflexivity].
    + now rewrite IH.
Qed.

Lemma json_set_keys key v old members :
  json_get key members = Some old ->
  map fst (json_set key v members) = map fst members.
Proof.
  induction members as [|[k o] members IH]; simpl; [discriminate|].
  destruct (String.eqb k key); simpl; [reflexivity|].
  intros H. now rewrite IH.
Qed.

Lemma append_activity_spec activity log_data :
  match activities_of log_data with
  | Some old =>
      exists log_data',
        append_activity activity log_data = Some log_data'
        /\ activities_of log_data' = Some (old ++ [activity])
        /\ member_names log_data' = member_names log_data
        /\ forall key, key <> "activities"%string ->
                       member key log_data' = member key log_data
  | None => append_activity activity log_data = None
  end.
Proof.
  unfold activities_of, append_activity.
  destruct log_data as [| | | |items|members]; try reflexivity.
  destruct (json_get "activities" members) as [[| | | |old|]|] eqn:Hget;
    try reflexivity.
  eexists. split; [reflexivity|]. cbn [activities_of member member_names].
  unfold activities_of. rewrite json_get_set_eq.
  split; [reflexivity|]. split; [eapply json_set_keys; exact Hget|].
  intros key Hne. now apply json_get_set_ne.
Qed.

Lemma save_to_activity_log_cases rt disk action_type action_data self :
  let activity := activity_of rt action_type action_data self in
  match log_before rt disk with
  | None => save_to_activity_log rt disk action_type action_data self
            = (false, log_file disk)
  | Some log_data =>
      match append_activity activity log_data with
      | None => save_to_activity_log rt disk action_type action_data self
                = (false, log_file disk)
      | Some log_data' =>
          save_to_activity_log rt disk action_type action_data self
          = match write_outcome disk with
            | Written => (true, Some (Some log_data'))
            | OpenFails => (false, log_file disk)
            | DumpFails => (false, Some None)
            end
      end
  end.
Proof.
  unfold save_to_activity_log, log_before. cbv zeta.
  destruct (log_file disk) as [[log_data|]|]; try reflexivity.
  - now destruct (append_activity _ log_data).
Qed.

(** X20.  When [save_to_activity_log] returns [True], the log file was
    written and holds the document it started from (the existing log, or a
    fresh one when there was none) with the new activity appended to
    [activities]: the earlier activities, the other members and the order
    of the members are unchanged. *)
Theorem activity_log_is_append_only
    rt disk action_type action_data self log_after :
  save_to_activity_log rt disk action_type action_data self
  = (true, log_after) ->
  write_outcome disk = Written
  /\ exists log_data old log_data',
       log_before rt disk = Some log_data
       /\ activities_of log_data = Some old
       /\ log_after = Some (Some log_data')
       /\ activities_of log_data'
          = Some (old ++ [activity_of rt action_type action_data self])
       /\ member_names log_data' = member_names log_data
       /\ forall key, key <> "activities"%string ->
                      member key log_data' = member key log_data.
Proof.
  intros Hsave.
  pose proof (save_to_activity_log_cases rt disk action_type action_data self)
    as Hcases. cbv zeta in Hcases.
  destruct (log_before rt disk) as [log_data|]; [|congruence].
  pose proof (append_activity_spec
                (activity_of rt action_type action_data self) log_data)
    as Happend.
  destruct (activities_of log_data) as [old|] eqn:Hold.
  - destruct Happend as (log_data' & Ha & Hacts & Hkeys & Hothers).
    rewrite Ha in Hcases.
    destruct (write_outcome disk); try congruence.
    split; [reflexivity|]. exists log_data, old, log_data'.
    split; [reflexivity|]. split; [exact Hold|].
    split; [congruence|]. split; [exact Hacts|].
    split; [exact Hkeys | exact Hothers].
  - rewrite Happend in Hcases. congruence.
Qed.

(** X21.  [save_to_activity_log] returns [True] exactly when the log it
    starts from is an object with an [activities] list and the write
    succeeds.  When it returns [False] the file is as it was, unless the
    dump failed after the file was opened for writing, which leaves it
    unreadable; and a log file that is no JSON is never repaired: every
    later call fails and leaves it as it is. *)
Theorem activity_log_failures rt disk action_type action_data self :
  let out := save_to_activity_log rt disk action_type action_data self in
  (fst out = true
   <-> write_outcome disk = Written
       /\ exists log_data old,
            log_before rt disk = Some log_data
            /\ activities_of log_data = Some old)
  /\ (fst out = false ->
      snd out = log_file disk
      \/ (write_outcome disk = DumpFails /\ snd out = Some None))
  /\ (log_file disk = Some None -> out = (false, Some None)).
Proof.
  intros out. subst out.
  pose proof (save_to_activity_log_cases rt disk action_type action_data self)
    as Hcases. cbv zeta in Hcases.
  split; [|split].
  - destruct (log_before rt disk) as [log_data|].
    + pose proof (append_activity_spec
                    (activity_of rt action_type action_data self) log_data)
        as Happend.
      destruct (activities_of log_data) as [old|] eqn:Hold.
      * destruct Happend as (log_data' & Ha & _). rewrite Ha in Hcases.
        rewrite Hcases. destruct (write_outcome disk); simpl; split;
          try (intros [H _]; discriminate H); try discriminate.
        -- intros _. split; [reflexivity|]. eauto.
        -- reflexivity.
      * rewrite Happend in Hcases. rewrite Hcases. simpl. split;
          [discriminate|].
        intros (_ & l & o & [= <-] & Ho). congruence.
    + rewrite Hcases. simpl.
      split; [discriminate | intros (_ & l & o & [=] & _)].
  - destruct (log_before rt disk) as [log_data|];
      [|rewrite Hcases; now left].
    destruct (append_activity _ log_data); [|rewrite Hcases; now left].
    rewrite Hcases. destruct (write_outcome disk); simpl; auto.
    discriminate.
  - intros Hfile. unfold save_to_activity_log. now rewrite Hfile.
Qed.
End ActivityLog.

Section RunnerMore.
Import cart_runner.
Import Spec Notions.
#[local] Set Warnings "-clear-no-such-hyp".

Variable imports : Imports.












(** X23.  With a memory search module whose [search_brain_memory] is the
    function of [cart_memory_search.py] (or without one), the builder
    stage always calls [create_build_artifact] with the empty memory
    content: it asks [search_brain_memory] for its matches without a
    query, and a search without a query reports none. *)
Theorem builder_receives_no_memory_content rt disk m th tv self :
  cart_memory_search imports = None
  \/ (exists ms, cart_memory_search imports = Some ms
                 /\ searches_brain rt disk ms) ->
  cart_robotic_builder imports = Some m ->
  memory_content_of imports = ""%string
  /\ fst (run_robotic_builder imports th tv self)
     = Results_ (ArtifactResults (create_build_artifact m th tv ""))
  /\ carts (results (snd (run_robotic_builder imports th tv self)))
       !! "robotic_builder"%string
     = Some {| status := "completed";
               results_of :=
                 ArtifactResults (create_build_artifact m th tv "") |}.
Proof.
  intros Hms Hm.
  assert (Hcontent : memory_content_of imports = ""%string).
  { unfold memory_content_of.
    destruct Hms as [-> | (ms & -> & Hms)]; [reflexivity|].
    rewrite (Hms None). unfold cart_memory_search.search_brain_memory.
    now destruct (cart_memory_search.brain_py disk). }
  split; [exact Hcontent|].
  unfold run_robotic_builder. rewrite Hm, Hcontent. simpl.
  split; [reflexivity | apply lookup_insert_eq].
Qed.

(** X24.  A run of [main] with no activity log on disk and a successful
    write leaves a log with version [1.0] and exactly one activity, for the
    action [autonomous_cart_run] with the run id, empty data, and a summary
    whose [total_carts] and [completed] both are the number of modules
    bound; the message printed last reports the same counts, the value of
    the default signal (0 without a signal generator) and the run id. *)
Theorem main_logs_the_run rt disk argv :
  log_file disk = None ->
  write_outcome disk = Written ->
  let n := available_modules imports in
  let count := cart_memory_search.JNumber (inject_Z (Z.of_nat n)) in
  exists log_data activity summary,
    fst (main rt imports disk argv) = Some (Some log_data)
    /\ activities_of log_data = Some [activity]
    /\ member "version" log_data = Some (cart_memory_search.JString "1.0")
    /\ member "action" activity
       = Some (cart_memory_search.JString "autonomous_cart_run")
    /\ member "run_id" activity
       = Some (cart_memory_search.JString (run_id (results (init rt))))
    /\ member "data" activity = Some (cart_memory_search.JObject [])
    /\ member "summary" activity = Some summary
    /\ member "total_carts" summary = Some count
    /\ member "completed" summary = Some count
    /\ snd (main rt imports disk argv)
       = run_message n n (value_str (default_run_value imports))
                     (run_id (results (init rt))).
Proof.
  intros Hfile Hwrite n count. unfold main. cbv zeta.
  set (query := if (1 <? length argv)%nat then _ else _).
  pose proof (run_all_carts_summary imports rt query None None (init rt))
    as (Hsum & _ & Hrid).
  pose proof (run_all_carts_outcome imports rt query None None (init rt)
                (reach_init imports rt)) as (_ & _ & Hsize & Hcount).
  cbv zeta in Hsum, Hrid, Hsize, Hcount.
  destruct (run_all_carts rt imports query None None (init rt))
    as [res runner] eqn:Hrun.
  cbn [snd] in Hsum, Hrid, Hsize, Hcount.
  rewrite Hsize, Hcount in Hsum. cbn [init results run_id] in Hrid.
  unfold save_to_activity_log. rewrite Hfile, Hwrite.
  cbn [new_log append_activity json_get json_set String.eqb Ascii.eqb
       Bool.eqb app fst snd].
  eexists _, _, _.
  split; [reflexivity|].
  unfold activity_of. rewrite Hsum, Hrid.
  split; [reflexivity|]. split; [reflexivity|]. split; [reflexivity|].
  split; [reflexivity|]. split; [reflexivity|]. split; [reflexivity|].
  split; [reflexivity|]. split; [reflexivity|].
  unfold generate_commit_message, run_message. rewrite Hsum, Hrid.
  cbn [from_option completed total_carts]. fold n.
  do 7 f_equal. unfold default_run_value.
  destruct (cart_signal_generator imports) as [m|] eqn:Hm.
  - pose proof (signal_entry_after_run imports m rt query None None (init rt) Hm)
      as Hentry.
    rewrite Hrun in Hentry. cbn [snd] in Hentry. rewrite Hentry.
    reflexivity.
  - pose proof (run_all_carts_dom imports rt query None None (init rt)) as Hdom.
    rewrite Hrun in Hdom. cbn [snd] in Hdom.
    assert (Hnone : carts (results runner) !! "signal_generator"%string = None).
    { apply not_elem_of_dom. rewrite Hdom. cbn [init results carts].
      rewrite dom_empty_L, (right_id_L ∅ (∪)).
      now apply not_available_signal_generator. }
    now rewrite Hnone.
Qed.
End RunnerMore.

(** ** Examples for the properties above *)

Section SignalExamples.
Import cart_signal_generator.
Import Notions.

Lemma ascending_sweep_is_monotone_witness :
  let first := sweep_entry 1 1000 3 0 in
  let last := sweep_entry 1 1000 3 2 in
  (1 <= 1)%Q /\ (1 <= 1000)%Q
  /\ (step_value first <= step_value last)%Q
  /\ (step_frequency first <= step_frequency last)%R.
Proof.
  intros first last.
  assert (H1 : (1 <= 1)%Q) by (unfold Qle; simpl; lia).
  assert (H2 : (1 <= 1000)%Q) by (unfold Qle; simpl; lia).
  split; [exact H1|]. split; [exact H2|].
  apply (ascending_sweep_is_monotone Samples.runtime_a 1 1000 3 H1 H2
           0%nat 2%nat first last); [reflexivity | reflexivity | lia].
Defined.
End SignalExamples.

Section GestureExamples.
Import cart_location_tracker.
Import Notions MoreSamples.

Lemma gesture_analysis_raises_on_mistagged_events_witness :
  demo_events <> []
  /\ ((exists key,
         analyze_gesture_pattern Samples.runtime_a exact_floats demo_events = KeyError key)
      <-> exists e, In e demo_events /\ mistagged e).
Proof.
  assert (Hne : demo_events <> []) by discriminate.
  split; [exact Hne|].
  exact (proj1 (gesture_analysis_raises_on_mistagged_events
                  exact_floats Samples.runtime_a demo_events Hne)).
Defined.

Lemma tracked_events_are_always_analysed_witness :
  demo_events <> []
  /\ Forall tracked demo_events
  /\ exists a,
       analyze_gesture_pattern Samples.runtime_a exact_floats demo_events = Analysed a
       /\ analysis_event_count a = 3%nat.
Proof.
  assert (Hne : demo_events <> []) by discriminate.
  assert (Hall : Forall tracked demo_events) by (repeat constructor).
  split; [exact Hne|]. split; [exact Hall|].
  exact (proj2 (tracked_events_are_always_analysed
                  exact_floats Samples.runtime_a demo_events Hne Hall)).
Defined.

Lemma gesture_analysis_statistics_witness :
  exists a,
    analyze_gesture_pattern Samples.runtime_a exact_floats demo_events = Analysed a
    /\ ((exists sp, spatial a = Some sp)
        <-> exists e, In e demo_events /\ type e = Some "tap"%string)
    /\ ((exists t, temporal a = Some t) <-> (2 <= length demo_events)%nat).
Proof.
  eexists. split; [reflexivity|].
  pose proof (gesture_analysis_statistics
                exact_floats Samples.runtime_a demo_events _ eq_refl) as (_ & _ & Hsp & _ & Ht).
  split; [exact Hsp | exact Ht].
Defined.

Lemma movement_token_of_tracked_events_witness :
  demo_events <> []
  /\ Forall tracked demo_events
  /\ forces_in_range demo_events
  /\ exists tok,
       calculate_movement_token Samples.runtime_a demo_events = Movement tok
       /\ (INR (taps (pattern tok)) + 10 * INR (slides (pattern tok))
           + 5 * INR (locations (pattern tok))
           <= total_value tok
           <= 100 * INR (taps (pattern tok)) + 210 * INR (slides (pattern tok))
              + 5 * INR (locations (pattern tok)))%R.
Proof.
  assert (Hne : demo_events <> []) by discriminate.
  assert (Hall : Forall tracked demo_events) by (repeat constructor).
  assert (Hforce : forces_in_range demo_events).
  { intros e x y force [<- | [<- | [<- | []]]] [=]; subst; lra. }
  split; [exact Hne|]. split; [exact Hall|]. split; [exact Hforce|].
  destruct (movement_token_of_tracked_events
              Samples.runtime_a demo_events Hne Hall Hforce)
    as (tok & Htok & _ & Hv).
  exists tok. split; [exact Htok | exact Hv].
Defined.
End GestureExamples.

Section SearchExamples.
Import cart_memory_search.
Import Notions MoreSamples.

Lemma reported_matches_are_real_witness :
  matches (search_brain_memory Samples.runtime_a disk_a (Some "cats"%string))
  = Some [cats_match]
  /\ exists block line,
       nth_error (find_blocks (Py.split_on Py.newline brain_text)) 0
       = Some block
       /\ nth_error (Py.split_on Py.newline block) 0 = Some line
       /\ content cats_match = Some line
       /\ occurs_in "cats" (Py.lower line).
Proof.
  assert (Hms : matches (search_brain_memory Samples.runtime_a disk_a
                           (Some "cats"%string)) = Some [cats_match])
    by (vm_compute; reflexivity).
  split; [exact Hms|].
  destruct (reported_matches_are_real
              Samples.runtime_a disk_a brain_text "cats" [cats_match]
              cats_match eq_refl ltac:(discriminate) Hms
              (or_introl eq_refl))
    as (block & line & Hb & Hl & Hc & Ho & _).
  exists block, line. repeat split; assumption.
Defined.

Lemma matching_lines_are_all_reported_witness :
  occurs_in "tree" (Py.lower "trees")
  /\ exists ms m,
       matches (search_brain_memory Samples.runtime_a disk_a
                  (Some "TREE"%string)) = Some ms
       /\ In m ms
       /\ block_index m = 0%nat /\ line_index m = 1%nat
       /\ content m = Some "trees"%string.
Proof.
  assert (Hocc : occurs_in "tree" (Py.lower "trees")).
  { exists ""%string, "s"%string. reflexivity. }
  split; [exact Hocc|].
  apply (matching_lines_are_all_reported
           Samples.runtime_a disk_a brain_text "TREE" 0%nat
           (Py.join (String Py.newline EmptyString)
              ["Cats and water"; "trees"]%string)
           1%nat "trees" eq_refl ltac:(discriminate)).
  - vm_compute. reflexivity.
  - vm_compute. reflexivity.
  - exact Hocc.
Defined.
(** A block can be the empty text: the one kept line is [# ]. *)
Lemma block_of_an_empty_kept_line :
  find_blocks (Py.split_on Py.newline
                 (Py.join (String Py.newline EmptyString)
                    ["#====BLOCK===="; "# "]%string))
  = [""%string].
Proof. reflexivity. Qed.

(** The sample module is the full search on [disk_a]; on [disk_b] the
    full search raises at the token file that is not UTF-8. *)
Lemma full_search_on_sample_disks query :
  perform_full_search Samples.runtime_a disk_a query
  = Py.Returns (full_search_a query)
  /\ perform_full_search Samples.runtime_a disk_b query
     = Py.Raises "UnicodeDecodeError".
Proof. split; reflexivity. Qed.
End SearchExamples.

Section RunnerExamples.
Import cart_runner.
Import Spec Notions MoreSamples.

Lemma activity_log_is_append_only_witness :
  let self := init Samples.runtime_a in
  let out := save_to_activity_log Samples.runtime_a log_disk_new
                                  "cart_run" None self in
  fst out = true
  /\ exists log_data',
       snd out = Some (Some log_data')
       /\ activities_of log_data'
          = Some [activity_of Samples.runtime_a "cart_run" None self]
       /\ member_names log_data' = ["activities"; "version"; "created"]%string.
Proof.
  intros self out.
  assert (Hout : out = (true, snd out)) by (vm_compute; reflexivity).
  split; [now rewrite Hout|].
  destruct (activity_log_is_append_only
              Samples.runtime_a log_disk_new "cart_run" None self (snd out)
              Hout)
    as (_ & log_data & old & log_data' & Hbefore & Hold & Hafter & Hacts
        & Hnames & _).
  injection Hbefore as <-. injection Hold as <-.
  exists log_data'. split; [exact Hafter|]. split; [exact Hacts|].
  exact Hnames.
Defined.


Lemma builder_receives_no_memory_content_witness :
  let th := ("demo" ++ Py.zeros 60)%string in
  let out := run_robotic_builder imports_all th 18160000000
                                 (init Samples.runtime_a) in
  cart_memory_search imports_all = Some memory_search_a
  /\ searches_brain Samples.runtime_a disk_a memory_search_a
  /\ cart_robotic_builder imports_all = Some builder_stub
  /\ memory_content_of imports_all = ""%string
  /\ fst out
     = Results_ (ArtifactResults
                   (create_build_artifact builder_stub th 18160000000 "")).
Proof.
  intros th out.
  assert (Hms : cart_memory_search imports_all = Some memory_search_a)
    by reflexivity.
  assert (Hsb : searches_brain Samples.runtime_a disk_a memory_search_a)
    by (intros query; reflexivity).
  assert (Hrb : cart_robotic_builder imports_all = Some builder_stub)
    by reflexivity.
  split; [exact Hms|]. split; [exact Hsb|]. split; [exact Hrb|].
  destruct (builder_receives_no_memory_content
              imports_all Samples.runtime_a disk_a builder_stub th
              18160000000 (init Samples.runtime_a)
              (or_intror (ex_intro _ memory_search_a (conj Hms Hsb))) Hrb)
    as (Hcontent & Hfst & _).
  split; [exact Hcontent | exact Hfst].
Defined.

Lemma main_logs_the_run_witness :
  let out := main Samples.runtime_a imports_all log_disk_new
                  ["cart_runner.py"; "cats"]%string in
  log_file log_disk_new = None
  /\ write_outcome log_disk_new = Written
  /\ available_modules imports_all = 4%nat
  /\ (exists log_data activity,
        fst out = Some (Some log_data)
        /\ activities_of log_data = Some [activity]
        /\ member "action" activity
           = Some (cart_memory_search.JString "autonomous_cart_run"))
  /\ snd out
     = run_message 4 4 (value_str (default_run_value imports_all))
                   (run_id (results (init Samples.runtime_a))).
Proof.
  intros out.
  assert (Hfile : log_file log_disk_new = None) by reflexivity.
  assert (Hwrite : write_outcome log_disk_new = Written) by reflexivity.
  split; [exact Hfile|]. split; [exact Hwrite|].
  split; [reflexivity|].
  destruct (main_logs_the_run
              imports_all Samples.runtime_a log_disk_new
              ["cart_runner.py"; "cats"]%string Hfile Hwrite)
    as (log_data & activity & summary & Hlog & Hacts & _ & Haction & _ & _
        & _ & _ & _ & Hmsg).
  split; [|exact Hmsg].
  exists log_data, activity. split; [exact Hlog|].
  split; [exact Hacts | exact Haction].
Defined.
End RunnerExamples.
